(** * CTMS-IDOR: SLA engine, action-item lifecycle and dashboard aggregation

    A shallow embedding of
      - [app/services/sla_engine.py]            (class [SLAEngine]),
      - [app/api/v1/action_items.py]            (the update, status and
        delete handlers, the response and the page count),
      - [app/repositories/action_item_repository.py] ([get_stats],
        [get_kpis], [get_burndown_data], [get_pareto_data]),
      - [app/api/deps.py]                       (the role checks),
    followed by the properties of the specification that concern them and
    by further properties of the same code.

    Conventions.
      - A [datetime.date] is its proleptic Gregorian ordinal
        ([date.toordinal()]); [d + timedelta(days=k)] is [d + k].
      - An aware [datetime] stored on an action item is an instant: the
        number of microseconds since the epoch, in UTC.  A naive value is
        read as UTC by the code, so it is the same number.
      - Python [float] quotients are exact rationals ([Q]); what is
        stated of them leaves room for the rounding of the doubles.
      - Dates stay between [date.min] and [date.max]: the statements on
        date arithmetic assume it of the dates they move through.
      - Every call of [datetime.now(timezone.utc)] is an explicit argument. *)

From Stdlib Require Import ZArith QArith Qround Lia Lqa List String.
From stdpp Require Import base gmap sets list strings pretty.
Import ListNotations.

Close Scope Q_scope.
Open Scope Z_scope.

(** ** Python's [datetime] module: the part the engine relies on *)

Module PyDate.

(** [_is_leap], [_days_before_year], [_days_before_month], [_ymd2ord]
    and [_ord2ymd] of CPython's [datetime.py]. *)

Definition is_leap (year : Z) : bool :=
  (year mod 4 =? 0) && (negb (year mod 100 =? 0) || (year mod 400 =? 0)).

Definition days_before_year (year : Z) : Z :=
  let y := year - 1 in
  y * 365 + y / 4 - y / 100 + y / 400.

Definition DAYS_IN_MONTH (month : Z) : Z :=
  match month with
  | 1 => 31 | 2 => 28 | 3 => 31 | 4 => 30 | 5 => 31 | 6 => 30
  | 7 => 31 | 8 => 31 | 9 => 30 | 10 => 31 | 11 => 30 | 12 => 31
  | _ => -1
  end.

Definition DAYS_BEFORE_MONTH (month : Z) : Z :=
  match month with
  | 1 => 0 | 2 => 31 | 3 => 59 | 4 => 90 | 5 => 120 | 6 => 151
  | 7 => 181 | 8 => 212 | 9 => 243 | 10 => 273 | 11 => 304 | 12 => 334
  | _ => -1
  end.

Definition days_before_month (year month : Z) : Z :=
  DAYS_BEFORE_MONTH month + (if (2 <? month) && is_leap year then 1 else 0).

Definition ymd2ord (year month day : Z) : Z :=
  days_before_year year + days_before_month year month + day.

Definition DI400Y : Z := 146097.
Definition DI100Y : Z := 36524.
Definition DI4Y : Z := 1461.

Definition ord2ymd (n : Z) : Z * Z * Z :=
  let n := n - 1 in
  let n400 := n / DI400Y in
  let n := n mod DI400Y in
  let year := n400 * 400 + 1 in
  let n100 := n / DI100Y in
  let n := n mod DI100Y in
  let n4 := n / DI4Y in
  let n := n mod DI4Y in
  let n1 := n / 365 in
  let n := n mod 365 in
  let year := year + n100 * 100 + n4 * 4 + n1 in
  if (n1 =? 4) || (n100 =? 4) then (year - 1, 12, 31)
  else
    let leapyear := (n1 =? 3) && (negb (n4 =? 24) || (n100 =? 3)) in
    let month := Z.shiftr (n + 50) 5 in
    let preceding :=
      DAYS_BEFORE_MONTH month + (if (2 <? month) && leapyear then 1 else 0) in
    if n <? preceding then
      let month := month - 1 in
      let preceding :=
        preceding
        - (DAYS_IN_MONTH month + (if (month =? 2) && leapyear then 1 else 0)) in
      (year, month, n - preceding + 1)
    else (year, month, n - preceding + 1).

(** [datetime.date(year, month, day)] *)
Definition date (year month day : Z) : Z := ymd2ord year month day.

(** [d.year], [d.month], [d.day] *)
Definition year (d : Z) : Z := fst (fst (ord2ymd d)).
Definition month (d : Z) : Z := snd (fst (ord2ymd d)).
Definition day (d : Z) : Z := snd (ord2ymd d).

(** [d.weekday()]: Monday is 0, Sunday is 6. *)
Definition weekday (d : Z) : Z := (d + 6) mod 7.

(** A [datetime.datetime]: calendar date, wall-clock time and [tzinfo]
    (the UTC offset in minutes, [None] for a naive value). *)
Record datetime : Type := mk_datetime {
  dt_date : Z;
  dt_hour : Z;
  dt_minute : Z;
  dt_second : Z;
  dt_microsecond : Z;
  dt_tzinfo : option Z
}.

(** [timezone.utc] *)
Definition utc : Z := 0.

(** [dt + timedelta(hours=h)]: wall-clock arithmetic, [tzinfo] kept. *)
Definition add_hours (dt : datetime) (h : Z) : datetime :=
  let secs := dt_hour dt * 3600 + dt_minute dt * 60 + dt_second dt + h * 3600 in
  {| dt_date := dt_date dt + secs / 86400;
     dt_hour := (secs mod 86400) / 3600;
     dt_minute := (secs mod 3600) / 60;
     dt_second := secs mod 60;
     dt_microsecond := dt_microsecond dt;
     dt_tzinfo := dt_tzinfo dt |}.

(** [dt.replace(tzinfo=tz)] *)
Definition replace_tzinfo (dt : datetime) (tz : Z) : datetime :=
  {| dt_date := dt_date dt; dt_hour := dt_hour dt; dt_minute := dt_minute dt;
     dt_second := dt_second dt; dt_microsecond := dt_microsecond dt;
     dt_tzinfo := Some tz |}.

End PyDate.

(** [dateutil.easter.easter(year)] with its default method
    ([EASTER_WESTERN]): the library routine the engine imports. *)
Definition easter_western (y : Z) : Z :=
  let g := y mod 19 in
  let c := y / 100 in
  let h := (c - c / 4 - (8 * c + 13) / 25 + 19 * g + 15) mod 30 in
  let i := h - (h / 28) * (1 - (h / 28) * (29 / (h + 1)) * ((21 - g) / 11)) in
  let j := (y + y / 4 + i + 2 - c + c / 4) mod 7 in
  let p := i - j in
  let d := 1 + (p + 27 + (p + 6) / 40) mod 31 in
  let m := 3 + (p + 26) / 30 in
  PyDate.date y m d.

(** ** [app/models/action_item.py] *)

Module Models.

Inductive ActionItemStatus : Type :=
| NEW | IN_PROGRESS | WAITING_EXTERNAL | DONE | VERIFIED.

Inductive ActionItemCategory : Type :=
| REGULATORY | CONSENT_ICF | DATA_ENTRY | QUERIES | SAFETY_REPORTING
| SAMPLES | IMAGING | PHARMACY_IP | TRAINING | CONTRACTS_BUDGET | OTHER.

Inductive SeverityLevel : Type :=
| CRITICAL | MAJOR | MINOR | INFO.

(** The [.value] of each enumeration member. *)
Definition status_value (s : ActionItemStatus) : string :=
  match s with
  | NEW => "new"
  | IN_PROGRESS => "in_progress"
  | WAITING_EXTERNAL => "waiting_external"
  | DONE => "done"
  | VERIFIED => "verified"
  end.

Definition category_value (c : ActionItemCategory) : string :=
  match c with
  | REGULATORY => "regulatory"
  | CONSENT_ICF => "consent_icf"
  | DATA_ENTRY => "data_entry"
  | QUERIES => "queries"
  | SAFETY_REPORTING => "safety_reporting"
  | SAMPLES => "samples"
  | IMAGING => "imaging"
  | PHARMACY_IP => "pharmacy_ip"
  | TRAINING => "training"
  | CONTRACTS_BUDGET => "contracts_budget"
  | OTHER => "other"
  end.

Definition severity_value (s : SeverityLevel) : string :=
  match s with
  | CRITICAL => "critical"
  | MAJOR => "major"
  | MINOR => "minor"
  | INFO => "info"
  end.

#[export] Instance ActionItemStatus_eq_dec : EqDecision ActionItemStatus.
Proof. solve_decision. Defined.

#[export] Instance ActionItemCategory_eq_dec : EqDecision ActionItemCategory.
Proof. solve_decision. Defined.

#[export] Instance SeverityLevel_eq_dec : EqDecision SeverityLevel.
Proof. solve_decision. Defined.

(** Identifiers ([UUID]) are numbers; instants are microseconds, UTC. *)
Record ActionItem : Type := mk_ActionItem {
  id : Z;
  study_id : Z;
  monitor_letter_id : option Z;
  title : string;
  description : option string;
  category : ActionItemCategory;
  severity : SeverityLevel;
  status : ActionItemStatus;
  assigned_to : option Z;
  created_by : Z;
  due_date : option Z;
  sla_deadline : option Z;
  escalation_level : Z;
  resolved_at : option Z;
  verified_at : option Z;
  verified_by : option Z;
  created_at : Z
}.

(** Property [ActionItem.is_open]. *)
Definition is_open (self : ActionItem) : bool :=
  negb (bool_decide (status self ∈ [DONE; VERIFIED])).

(** One row of the audit trail ([ActionItemUpdate]); the old and the new
    value are kept as the texts the handlers pass. *)
Record ActionItemUpdate : Type := mk_ActionItemUpdate {
  action_item_id : Z;
  user_id : Z;
  field_changed : option string;
  old_value : option string;
  new_value : option string;
  comment : option string
}.

End Models.

(** ** [app/services/sla_engine.py] *)

Module SLAEngine.
Import PyDate Models.

(** What a call produces: a value, a Python exception, or no answer
    within the given number of loop iterations. *)
Inductive outcome (A : Type) : Type :=
| Returns (a : A)
| Raises (e : string)
| Timeout.
Arguments Returns {A} a.
Arguments Raises {A} e.
Arguments Timeout {A}.

(** The engine's only state is [self._holiday_cache]; a method is a
    function of the cache that returns the updated cache. *)
Definition M (A : Type) : Type :=
  gmap Z (gset Z) -> outcome (A * gmap Z (gset Z)).

Definition ret {A} (a : A) : M A := fun cache => Returns (a, cache).

Definition bind {A B} (m : M A) (k : A -> M B) : M B :=
  fun cache =>
    match m cache with
    | Returns (a, cache') => k a cache'
    | Raises e => Raises e
    | Timeout => Timeout
    end.

Definition raise {A} (e : string) : M A := fun _ => Raises e.
Definition timeout {A} : M A := fun _ => Timeout.

Notation "'do' x <- m ; k" := (bind m (fun x => k))
  (at level 10, x name, m at level 100, k at level 200).

Definition DEFAULT_SLA_HOURS : gmap string Z :=
  <["critical" := 48]> (<["major" := 40]> (<["minor" := 80]> (<["info" := 120]> ∅))).

Definition DEFAULT_ESCALATION_HOURS : gmap string Z :=
  <["critical" := 24]> (<["major" := 20]> (<["minor" := 40]> (<["info" := 80]> ∅))).

(** [x or y] for [x : int | None]: [None] and [0] are falsy. *)
Definition int_or (x : option Z) (y : Z) : Z :=
  match x with
  | Some v => if v =? 0 then y else v
  | None => y
  end.

Section Calendar.
(** [dateutil.easter.easter]: year to date. *)
Variable easter : Z -> Z.

Definition get_brazilian_holidays (year : Z) : M (gset Z) :=
  fun cache =>
    match cache !! year with
    | Some holidays => Returns (holidays, cache)
    | None =>
        let holidays : gset Z :=
          {[ date year 1 1; date year 4 21; date year 5 1; date year 9 7;
             date year 10 12; date year 11 2; date year 11 15;
             date year 12 25 ]} in
        let easter_date := easter year in
        let holidays := holidays ∪ {[ easter_date - 47 ]} in
        let holidays := holidays ∪ {[ easter_date - 46 ]} in
        let holidays := holidays ∪ {[ easter_date - 2 ]} in
        let holidays := holidays ∪ {[ easter_date ]} in
        let holidays := holidays ∪ {[ easter_date + 60 ]} in
        Returns (holidays, <[year := holidays]> cache)
    end.

Definition is_business_day (d : Z) : M bool :=
  if 5 <=? weekday d then ret false
  else
    do holidays <- get_brazilian_holidays (PyDate.year d);
    ret (negb (bool_decide (d ∈ holidays))).

(** The loop [while days_added < full_days]. *)
Fixpoint add_full_days (fuel : nat) (current_date days_added full_days : Z)
  : M Z :=
  if days_added <? full_days then
    match fuel with
    | O => timeout
    | S fuel' =>
        let current_date := current_date + 1 in
        do b <- is_business_day current_date;
        add_full_days fuel' current_date
          (if b then days_added + 1 else days_added) full_days
    end
  else ret current_date.

(** The loop [while not self.is_business_day(next_day)]. *)
Fixpoint next_business_day (fuel : nat) (next_day : Z) : M Z :=
  do b <- is_business_day next_day;
  if negb b then
    match fuel with
    | O => timeout
    | S fuel' => next_business_day fuel' (next_day + 1)
    end
  else ret next_day.

Definition add_business_hours (fuel : nat) (start : datetime) (hours : Z)
    (business_hours_per_day : Z) : M datetime :=
  if business_hours_per_day =? 0 then raise "ZeroDivisionError"
  else
    let full_days := hours / business_hours_per_day in
    let remaining_hours := hours mod business_hours_per_day in
    do current_date <- add_full_days fuel (dt_date start) 0 full_days;
    let result :=
      add_hours
        {| dt_date := current_date; dt_hour := dt_hour start;
           dt_minute := dt_minute start; dt_second := dt_second start;
           dt_microsecond := 0; dt_tzinfo := dt_tzinfo start |}
        remaining_hours in
    if current_date <? dt_date result then
      do next_day <- next_business_day fuel (dt_date result);
      ret {| dt_date := next_day; dt_hour := 8; dt_minute := 0;
             dt_second := 0; dt_microsecond := 0;
             dt_tzinfo := dt_tzinfo start |}
    else ret result.

Definition calculate_sla_deadline (fuel : nat) (created_at : datetime)
    (severity : SeverityLevel) (resolution_hours : option Z) : M datetime :=
  let hours :=
    int_or resolution_hours
      (default 80 (DEFAULT_SLA_HOURS !! severity_value severity)) in
  let created_at :=
    match dt_tzinfo created_at with
    | None => replace_tzinfo created_at utc
    | Some _ => created_at
    end in
  add_business_hours fuel created_at hours 8.

(** The loop [while current <= end] of [business_days_between]. *)
Fixpoint count_business_days (fuel : nat) (current end_date count : Z) : M Z :=
  if current <=? end_date then
    match fuel with
    | O => timeout
    | S fuel' =>
        do b <- is_business_day current;
        count_business_days fuel' (current + 1) end_date
          (if b then count + 1 else count)
    end
  else ret count.

Definition business_days_between (fuel : nat) (start end_date : Z) : M Z :=
  if end_date <? start then count_business_days fuel end_date start 0
  else count_business_days fuel start end_date 0.
End Calendar.

(** [timedelta.total_seconds()] of a difference of two instants. *)
Definition total_seconds (delta : Z) : Q := (inject_Z delta / 1000000)%Q.

Definition is_overdue (now : Z) (action_item : ActionItem) : bool :=
  match sla_deadline action_item with
  | None => false
  | Some deadline =>
      if negb (is_open action_item) then false
      else deadline <? now
  end.

Definition get_escalation_level (now : Z) (action_item : ActionItem)
    (escalation_hours : option Z) : Z :=
  match sla_deadline action_item with
  | None => 0
  | Some deadline =>
      if negb (is_open action_item) then 0
      else
        let hours :=
          int_or escalation_hours
            (default 40
               (DEFAULT_ESCALATION_HOURS !! severity_value (severity action_item))) in
        let created := created_at action_item in
        let elapsed := (total_seconds (now - created) / 3600)%Q in
        if deadline <? now then
          let overdue_hours := (total_seconds (now - deadline) / 3600)%Q in
          let additional_levels := Qfloor (overdue_hours / inject_Z hours) in
          2 + additional_levels
        else if Qle_bool (inject_Z hours) elapsed then 1
        else 0
  end.

(** [delta.total_seconds() / 86400] of [deadline - now]. *)
Definition days_until_deadline (now : Z) (action_item : ActionItem) : option Q :=
  match sla_deadline action_item with
  | None => None
  | Some deadline =>
      if negb (is_open action_item) then None
      else Some (total_seconds (deadline - now) / 86400)%Q
  end.

End SLAEngine.


(** ** [app/schemas/action_item.py] and [app/api/v1/action_items.py] *)

Module ActionItems.
Import Models.

#[export] Instance ActionItemStatus_countable : Countable ActionItemStatus.
Proof.
  refine (inj_countable'
            (fun s => match s with
                      | NEW => 0 | IN_PROGRESS => 1 | WAITING_EXTERNAL => 2
                      | DONE => 3 | VERIFIED => 4
                      end%nat)
            (fun n => match n with
                      | 0 => NEW | 1 => IN_PROGRESS | 2 => WAITING_EXTERNAL
                      | 3 => DONE | _ => VERIFIED
                      end%nat) _).
  intros []; reflexivity.
Defined.

(** Schema [ActionItemUpdate] after [model_dump(exclude_unset=True)]: a
    field that was not sent is [None]; a field that was sent carries its
    value, which for the nullable columns may itself be the null value.
    (An explicit null for a [nullable=False] column is refused by the
    database when the session is flushed and is not part of the model.) *)
Record ActionItemUpdateSchema : Type := mk_ActionItemUpdateSchema {
  upd_title : option string;
  upd_description : option (option string);
  upd_category : option ActionItemCategory;
  upd_severity : option SeverityLevel;
  upd_status : option ActionItemStatus;
  upd_assigned_to : option (option Z);
  upd_due_date : option (option Z);
  upd_comment : option string
}.

(** Schema [ActionItemStatusUpdate]. *)
Record ActionItemStatusUpdate : Type := mk_ActionItemStatusUpdate {
  su_status : ActionItemStatus;
  su_comment : option string
}.

(** The session: the [action_items] table by primary key and the audit
    rows in insertion order. *)
Record Db : Type := mk_Db {
  items : gmap Z ActionItem;
  updates : list ActionItemUpdate
}.

(** What a route answers: the item the response is built from, or the
    [HTTPException] it raises. *)
Inductive response : Type :=
| Ok (item : ActionItem)
| HTTPException (status_code : Z) (detail : string).

Definition HTTP_400_BAD_REQUEST : Z := 400.
Definition HTTP_404_NOT_FOUND : Z := 404.

(** [str(UUID)] and [str(datetime)]: the value is kept, tagged by the type
    it was rendered from. *)
Definition str_uuid (u : Z) : string := "uuid:" ++ pretty u.
Definition str_datetime (t : Z) : string := "datetime:" ++ pretty t.

(** Attribute assignment on the ORM object, one function per column the
    handlers write. *)
Definition set_title (v : string) (i : ActionItem) : ActionItem :=
  mk_ActionItem (id i) (study_id i) (monitor_letter_id i) v (description i)
    (category i) (severity i) (status i) (assigned_to i) (created_by i)
    (due_date i) (sla_deadline i) (escalation_level i) (resolved_at i)
    (verified_at i) (verified_by i) (created_at i).

Definition set_description (v : option string) (i : ActionItem) : ActionItem :=
  mk_ActionItem (id i) (study_id i) (monitor_letter_id i) (title i) v
    (category i) (severity i) (status i) (assigned_to i) (created_by i)
    (due_date i) (sla_deadline i) (escalation_level i) (resolved_at i)
    (verified_at i) (verified_by i) (created_at i).

Definition set_category (v : ActionItemCategory) (i : ActionItem) : ActionItem :=
  mk_ActionItem (id i) (study_id i) (monitor_letter_id i) (title i)
    (description i) v (severity i) (status i) (assigned_to i) (created_by i)
    (due_date i) (sla_deadline i) (escalation_level i) (resolved_at i)
    (verified_at i) (verified_by i) (created_at i).

Definition set_severity (v : SeverityLevel) (i : ActionItem) : ActionItem :=
  mk_ActionItem (id i) (study_id i) (monitor_letter_id i) (title i)
    (description i) (category i) v (status i) (assigned_to i) (created_by i)
    (due_date i) (sla_deadline i) (escalation_level i) (resolved_at i)
    (verified_at i) (verified_by i) (created_at i).

Definition set_status (v : ActionItemStatus) (i : ActionItem) : ActionItem :=
  mk_ActionItem (id i) (study_id i) (monitor_letter_id i) (title i)
    (description i) (category i) (severity i) v (assigned_to i) (created_by i)
    (due_date i) (sla_deadline i) (escalation_level i) (resolved_at i)
    (verified_at i) (verified_by i) (created_at i).

Definition set_assigned_to (v : option Z) (i : ActionItem) : ActionItem :=
  mk_ActionItem (id i) (study_id i) (monitor_letter_id i) (title i)
    (description i) (category i) (severity i) (status i) v (created_by i)
    (due_date i) (sla_deadline i) (escalation_level i) (resolved_at i)
    (verified_at i) (verified_by i) (created_at i).

Definition set_due_date (v : option Z) (i : ActionItem) : ActionItem :=
  mk_ActionItem (id i) (study_id i) (monitor_letter_id i) (title i)
    (description i) (category i) (severity i) (status i) (assigned_to i)
    (created_by i) v (sla_deadline i) (escalation_level i) (resolved_at i)
    (verified_at i) (verified_by i) (created_at i).

Definition set_escalation_level (v : Z) (i : ActionItem) : ActionItem :=
  mk_ActionItem (id i) (study_id i) (monitor_letter_id i) (title i)
    (description i) (category i) (severity i) (status i) (assigned_to i)
    (created_by i) (due_date i) (sla_deadline i) v (resolved_at i)
    (verified_at i) (verified_by i) (created_at i).

Definition set_resolved_at (v : option Z) (i : ActionItem) : ActionItem :=
  mk_ActionItem (id i) (study_id i) (monitor_letter_id i) (title i)
    (description i) (category i) (severity i) (status i) (assigned_to i)
    (created_by i) (due_date i) (sla_deadline i) (escalation_level i) v
    (verified_at i) (verified_by i) (created_at i).

Definition set_verified_at (v : option Z) (i : ActionItem) : ActionItem :=
  mk_ActionItem (id i) (study_id i) (monitor_letter_id i) (title i)
    (description i) (category i) (severity i) (status i) (assigned_to i)
    (created_by i) (due_date i) (sla_deadline i) (escalation_level i)
    (resolved_at i) v (verified_by i) (created_at i).

Definition set_verified_by (v : option Z) (i : ActionItem) : ActionItem :=
  mk_ActionItem (id i) (study_id i) (monitor_letter_id i) (title i)
    (description i) (category i) (severity i) (status i) (assigned_to i)
    (created_by i) (due_date i) (sla_deadline i) (escalation_level i)
    (resolved_at i) (verified_at i) v (created_at i).

(** [action_item_repository.add_update]: one more audit row. *)
Definition add_update (db : Db) (action_item_id user_id : Z)
    (field_changed old_value new_value comment : option string) : Db :=
  {| items := items db;
     updates := updates db ++
       [ {| Models.action_item_id := action_item_id; Models.user_id := user_id;
            Models.field_changed := field_changed;
            Models.old_value := old_value; Models.new_value := new_value;
            Models.comment := comment |} ] |}.

(** [db.flush()]: the mutated object reaches its row. *)
Definition flush (item_id : Z) (item : ActionItem) (db : Db) : Db :=
  {| items := <[item_id := item]> (items db); updates := updates db |}.

(** The dictionary literal of [update_action_item_status]. *)
Definition valid_transitions : gmap ActionItemStatus (list ActionItemStatus) :=
  <[NEW := [IN_PROGRESS; WAITING_EXTERNAL]]>
  (<[IN_PROGRESS := [WAITING_EXTERNAL; DONE; NEW]]>
  (<[WAITING_EXTERNAL := [IN_PROGRESS; DONE]]>
  (<[DONE := [VERIFIED; IN_PROGRESS]]>
  (<[VERIFIED := []]> ∅)))).

(** Route [PATCH /action-items/{item_id}/status].  [now] is the instant
    written to the time stamps, [now_esc] the later one read by the
    engine. *)
Definition update_action_item_status (now now_esc : Z) (item_id : Z)
    (status_update : ActionItemStatusUpdate) (current_user : Z) (db : Db)
  : response * Db :=
  match items db !! item_id with
  | None => (HTTPException HTTP_404_NOT_FOUND "Action item not found", db)
  | Some item =>
      let old_status := status item in
      if negb (bool_decide
                 (su_status status_update
                    ∈ default [] (valid_transitions !! old_status)))
      then
        (HTTPException HTTP_400_BAD_REQUEST
           ("Invalid status transition from " ++ status_value old_status
              ++ " to " ++ status_value (su_status status_update)), db)
      else
        let db :=
          add_update db item_id current_user (Some "status")
            (Some (status_value old_status))
            (Some (status_value (su_status status_update)))
            (su_comment status_update) in
        let item := set_status (su_status status_update) item in
        let item :=
          if bool_decide (su_status status_update = DONE) then
            set_resolved_at (Some now) item
          else if bool_decide (su_status status_update = VERIFIED) then
            set_verified_by (Some current_user) (set_verified_at (Some now) item)
          else item in
        let item :=
          set_escalation_level
            (SLAEngine.get_escalation_level now_esc item None) item in
        (Ok item, flush item_id item db)
  end.

(** One turn of the loop [for field, new_value in update_data.items()]:
    [get] reads the attribute, [set] writes it, [show] is the text stored
    in the audit row ([.value] of an enumeration member, [str] otherwise,
    nothing for the null value). *)
Definition apply_field {A : Type} `{EqDecision A} (field : string)
    (get : ActionItem -> A) (set : A -> ActionItem -> ActionItem)
    (show : A -> option string) (item_id current_user : Z)
    (comment : option string) (sent : option A) (st : ActionItem * Db)
  : ActionItem * Db :=
  match sent with
  | None => st
  | Some new_value =>
      let old_value := get (fst st) in
      if bool_decide (old_value = new_value) then st
      else
        (set new_value (fst st),
         add_update (snd st) item_id current_user (Some field)
           (show old_value) (show new_value) comment)
  end.

(** Route [PUT /action-items/{item_id}]. *)
Definition update_action_item (now now_esc : Z) (item_id : Z)
    (item_in : ActionItemUpdateSchema) (current_user : Z) (db : Db)
  : response * Db :=
  match items db !! item_id with
  | None => (HTTPException HTTP_404_NOT_FOUND "Action item not found", db)
  | Some item =>
      let c := upd_comment item_in in
      let st := (item, db) in
      let st := apply_field "title" title set_title Some
                  item_id current_user c (upd_title item_in) st in
      let st := apply_field "description" description set_description (fun v => v)
                  item_id current_user c (upd_description item_in) st in
      let st := apply_field "category" category set_category
                  (fun v => Some (category_value v))
                  item_id current_user c (upd_category item_in) st in
      let st := apply_field "severity" severity set_severity
                  (fun v => Some (severity_value v))
                  item_id current_user c (upd_severity item_in) st in
      let st := apply_field "status" status set_status
                  (fun v => Some (status_value v))
                  item_id current_user c (upd_status item_in) st in
      let st := apply_field "assigned_to" assigned_to set_assigned_to
                  (fmap str_uuid)
                  item_id current_user c (upd_assigned_to item_in) st in
      let st := apply_field "due_date" due_date set_due_date
                  (fmap str_datetime)
                  item_id current_user c (upd_due_date item_in) st in
      let '(item, db) := st in
      let item :=
        match upd_status item_in with
        | Some new_status =>
            if bool_decide (new_status = DONE) then
              set_resolved_at (Some now) item
            else if bool_decide (new_status = VERIFIED) then
              set_verified_by (Some current_user)
                (set_verified_at (Some now) item)
            else item
        | None => item
        end in
      let item :=
        set_escalation_level
          (SLAEngine.get_escalation_level now_esc item None) item in
      (Ok item, flush item_id item db)
  end.

(** [ActionItemResponse] as [build_action_item_response] fills it without
    relations: the columns copied from the item, and the three computed
    fields.  [now_overdue] and [now_days] are the instants the engine reads
    for [is_overdue] and for [days_until_deadline]. *)
Record ActionItemResponse : Type := mk_ActionItemResponse {
  resp_item : ActionItem;
  resp_is_open : bool;
  resp_is_overdue : bool;
  resp_days_until_deadline : option Q
}.

Definition build_action_item_response (now_overdue now_days : Z)
    (item : ActionItem) : ActionItemResponse :=
  {| resp_item := item;
     resp_is_open := is_open item;
     resp_is_overdue := SLAEngine.is_overdue now_overdue item;
     resp_days_until_deadline := SLAEngine.days_until_deadline now_days item |}.

(** [offset] and [pages] of [list_action_items]. *)
Definition offset (page page_size : Z) : Z := (page - 1) * page_size.

Definition pages (total page_size : Z) : Z :=
  if 0 <? total then (total + page_size - 1) / page_size else 1.

(** What [delete_action_item] answers: 204 without a body, or the
    [HTTPException] it raises. *)
Inductive delete_response : Type :=
| NoContent
| DeleteRefused (status_code : Z) (detail : string).

(** Route [DELETE /action-items/{item_id}]; [db.delete(item)] removes the
    row and, by the cascade declared on [ActionItem.updates], its audit
    rows. *)
Definition delete_action_item (item_id : Z) (db : Db) : delete_response * Db :=
  match items db !! item_id with
  | None => (DeleteRefused HTTP_404_NOT_FOUND "Action item not found", db)
  | Some item =>
      if negb (bool_decide (status item = NEW)) then
        (DeleteRefused HTTP_400_BAD_REQUEST
           "Only new action items can be deleted", db)
      else
        (NoContent,
         {| items := delete item_id (items db);
            updates :=
              filter (fun u => action_item_id u <> item_id) (updates db) |})
  end.

End ActionItems.


(** ** [app/repositories/action_item_repository.py] *)

Module ActionItemRepository.
Import Models.

(** [select(func.count()) ... .where(cond)] over the rows of the table. *)
Definition count_where (cond : ActionItem -> bool) (rows : list ActionItem) : Z :=
  Z.of_nat (length (filter (fun r => Is_true (cond r)) rows)).

(** [round(x)] on an exact value: to the nearest integer, a tie to the
    even one. *)
Definition round_half_even (q : Q) : Z :=
  let f := Qfloor q in
  match Qcompare (q - inject_Z f) (1 # 2) with
  | Lt => f
  | Gt => f + 1
  | Eq => if Z.even f then f else f + 1
  end.

(** [round(x, 1)] *)
Definition round1 (q : Q) : Q := (inject_Z (round_half_even (q * 10)) / 10)%Q.

Definition open_statuses : list ActionItemStatus :=
  [NEW; IN_PROGRESS; WAITING_EXTERNAL].

(** [base_condition]: the study filter, or [True]. *)
Definition base_condition (study : option Z) (r : ActionItem) : bool :=
  match study with
  | Some s => bool_decide (study_id r = s)
  | None => true
  end.

(** [col.isnot(None)] and a comparison against a nullable column: a null
    operand makes the condition fail. *)
Definition isnot_None {A} (c : option A) : bool :=
  match c with Some _ => true | None => false end.

Definition both (cmp : Z -> Z -> bool) (a b : option Z) : bool :=
  match a, b with
  | Some x, Some y => cmp x y
  | _, _ => false
  end.

(** The keys of the dictionary [get_stats] returns that are counts and the
    compliance ratio (the three group-by dictionaries and the average
    computed by the database are left out). *)
Record ActionItemStats : Type := mk_ActionItemStats {
  total : Z;
  open : Z;
  overdue : Z;
  sla_compliance_percentage : Q
}.

Definition total_resolved_with_sla (study : option Z) (rows : list ActionItem) : Z :=
  count_where
    (fun r => base_condition study r
              && bool_decide (status r ∈ [DONE; VERIFIED])
              && isnot_None (sla_deadline r)) rows.

Definition on_time_count (study : option Z) (rows : list ActionItem) : Z :=
  count_where
    (fun r => base_condition study r
              && bool_decide (status r ∈ [DONE; VERIFIED])
              && isnot_None (sla_deadline r)
              && isnot_None (resolved_at r)
              && both Z.leb (resolved_at r) (sla_deadline r)) rows.

(** The value of the local variable [sla_compliance]. *)
Definition sla_compliance (study : option Z) (rows : list ActionItem) : Q :=
  if 0 <? total_resolved_with_sla study rows then
    (inject_Z (on_time_count study rows)
       / inject_Z (total_resolved_with_sla study rows) * 100)%Q
  else 100%Q.

Definition get_stats (now : Z) (study : option Z) (rows : list ActionItem)
  : ActionItemStats :=
  {| total := count_where (base_condition study) rows;
     open :=
       count_where
         (fun r => base_condition study r
                   && bool_decide (status r ∈ open_statuses)) rows;
     overdue :=
       count_where
         (fun r => base_condition study r
                   && bool_decide (status r ∈ open_statuses)
                   && isnot_None (sla_deadline r)
                   && both Z.ltb (sla_deadline r) (Some now)) rows;
     sla_compliance_percentage := round1 (sla_compliance study rows) |}.

(** One dictionary of the burndown series; [bd_date] is the date whose
    [isoformat()] the code stores. *)
Record BurndownDataPoint : Type := mk_BurndownDataPoint {
  bd_date : Z;
  open_items : Z;
  closed_items : Z;
  cumulative_closed : Z
}.

Definition MICROSECONDS_PER_DAY : Z := 86400000000.

(** Ordinal of 1970-01-01. *)
Definition EPOCH : Z := PyDate.date 1970 1 1.

(** [t.date()] of a UTC instant, and [datetime(y, m, d, tzinfo=utc)]. *)
Definition date_of (t : Z) : Z := EPOCH + t / MICROSECONDS_PER_DAY.
Definition midnight (d : Z) : Z := (d - EPOCH) * MICROSECONDS_PER_DAY.

(** [sum(1 for item in items if cond)] *)
Definition sum1 (cond : ActionItem -> bool) (items : list ActionItem) : Z :=
  Z.of_nat (length (filter (fun r => Is_true (cond r)) items)).

(** The loop [while current_date <= now.date()]; the result is the list
    [data] in the order of the [append]s, [None] when the iterations
    allowed are used up. *)
Fixpoint burndown_loop (fuel : nat) (items : list ActionItem)
    (now_date current_date cumulative_closed : Z)
  : option (list BurndownDataPoint) :=
  if current_date <=? now_date then
    match fuel with
    | O => None
    | S fuel' =>
        let day_start := midnight current_date in
        let day_end := day_start + MICROSECONDS_PER_DAY in
        let created_by_day := sum1 (fun item => created_at item <=? day_end) items in
        let resolved_by_day :=
          sum1 (fun item => match resolved_at item with
                            | Some t => t <=? day_end
                            | None => false
                            end) items in
        let closed_today :=
          sum1 (fun item => match resolved_at item with
                            | Some t => (day_start <=? t) && (t <? day_end)
                            | None => false
                            end) items in
        let cumulative_closed := cumulative_closed + closed_today in
        let point :=
          {| bd_date := current_date;
             open_items := created_by_day - resolved_by_day;
             closed_items := closed_today;
             cumulative_closed := cumulative_closed |} in
        match burndown_loop fuel' items now_date (current_date + 1)
                cumulative_closed with
        | Some data => Some (point :: data)
        | None => None
        end
    end
  else Some [].

Definition get_burndown_data (fuel : nat) (now : Z) (days : Z)
    (rows : list ActionItem) : option (list BurndownDataPoint) :=
  let start_date := now - days * MICROSECONDS_PER_DAY in
  let items := filter (fun r => Is_true (created_at r <=? now)) rows in
  burndown_loop fuel items (date_of now) (date_of start_date) 0.

Definition MICROSECONDS_PER_WEEK : Z := 7 * MICROSECONDS_PER_DAY.

(** The keys of the dictionary [get_kpis] returns that are counts and the
    compliance ratio (the percentile and the group-by computed by the
    database are left out). *)
Record DashboardKPIs : Type := mk_DashboardKPIs {
  overdue_count : Z;
  total_items : Z;
  sla_compliance_pct : Q;
  items_created_last_7_days : Z;
  items_resolved_last_7_days : Z
}.

Definition get_kpis (now : Z) (rows : list ActionItem) : DashboardKPIs :=
  let seven_days_ago := now - MICROSECONDS_PER_WEEK in
  let total_resolved :=
    count_where
      (fun r => bool_decide (status r ∈ [DONE; VERIFIED])
                && isnot_None (sla_deadline r)) rows in
  let on_time_count :=
    count_where
      (fun r => bool_decide (status r ∈ [DONE; VERIFIED])
                && isnot_None (sla_deadline r)
                && isnot_None (resolved_at r)
                && both Z.leb (resolved_at r) (sla_deadline r)) rows in
  let sla_compliance :=
    if 0 <? total_resolved then
      (inject_Z on_time_count / inject_Z total_resolved * 100)%Q
    else 100%Q in
  {| overdue_count :=
       count_where
         (fun r => bool_decide (status r ∈ open_statuses)
                   && isnot_None (sla_deadline r)
                   && both Z.ltb (sla_deadline r) (Some now)) rows;
     total_items :=
       count_where (fun r => bool_decide (status r ∈ open_statuses)) rows;
     sla_compliance_pct := round1 sla_compliance;
     items_created_last_7_days :=
       count_where (fun r => seven_days_ago <=? created_at r) rows;
     items_resolved_last_7_days :=
       count_where
         (fun r => isnot_None (resolved_at r)
                   && both Z.leb (Some seven_days_ago) (resolved_at r)) rows |}.

(** One dictionary of the Pareto series. *)
Record ParetoItem : Type := mk_ParetoItem {
  pi_category : string;
  pi_count : Z;
  pi_percentage : Q;
  pi_cumulative_percentage : Q
}.

(** [l[:n]] *)
Definition slice_to {A : Type} (n : Z) (l : list A) : list A :=
  if 0 <=? n then take (Z.to_nat n) l
  else take (length l - Z.to_nat (- n)) l.

(** The loop [for cat in categories[:top_n]], from the running value of
    [cumulative]. *)
Fixpoint pareto_loop (total : Z) (cumulative : Q)
    (cats : list (ActionItemCategory * Z)) : list ParetoItem :=
  match cats with
  | [] => []
  | (category, count) :: rest =>
      let percentage :=
        if 0 <? total then (inject_Z count / inject_Z total * 100)%Q
        else 0%Q in
      let cumulative := (cumulative + percentage)%Q in
      {| pi_category := category_value category;
         pi_count := count;
         pi_percentage := round1 percentage;
         pi_cumulative_percentage := round1 cumulative |}
        :: pareto_loop total cumulative rest
  end.

(** [get_pareto_data] from the rows the grouping query answered:
    [categories] is the list of (category, count) of the open items, in
    the order of the query (largest count first). *)
Definition get_pareto_data (top_n : Z)
    (categories : list (ActionItemCategory * Z)) : list ParetoItem :=
  match categories with
  | [] => []
  | _ =>
      let total := foldr Z.add 0 (map snd categories) in
      pareto_loop total 0%Q (slice_to top_n categories)
  end.

End ActionItemRepository.


(** ** [app/models/user.py] and [app/api/deps.py] *)

Module Deps.

Inductive UserRole : Type :=
| ADMIN | OPS_MANAGER | SC_LEAD | STUDY_COORDINATOR | DATA_MANAGER
| QUALITY | FINANCE | READONLY.

Definition role_value (r : UserRole) : string :=
  match r with
  | ADMIN => "admin"
  | OPS_MANAGER => "ops_manager"
  | SC_LEAD => "sc_lead"
  | STUDY_COORDINATOR => "study_coordinator"
  | DATA_MANAGER => "data_manager"
  | QUALITY => "quality"
  | FINANCE => "finance"
  | READONLY => "readonly"
  end.

#[export] Instance UserRole_eq_dec : EqDecision UserRole.
Proof. solve_decision. Defined.

(** The columns of [User] the dependencies read. *)
Record User : Type := mk_User {
  user_id : Z;
  role : UserRole;
  is_active : bool
}.

Inductive checked : Type :=
| Allowed (u : User)
| Forbidden (status_code : Z) (detail : string).

Definition HTTP_403_FORBIDDEN : Z := 403.

(** [repr] of a list of strings that hold no quote. *)
Fixpoint repr_items (l : list string) : string :=
  match l with
  | [] => ""
  | [x] => "'" ++ x ++ "'"
  | x :: rest => "'" ++ x ++ "', " ++ repr_items rest
  end.

Definition repr_list (l : list string) : string := "[" ++ repr_items l ++ "]".

(** [get_current_active_user] and the [role_checker] of [require_roles],
    from the user [get_current_user] answered. *)
Definition get_current_active_user (current_user : User) : checked :=
  if negb (is_active current_user) then
    Forbidden HTTP_403_FORBIDDEN "Inactive user"
  else Allowed current_user.

Definition require_roles (roles : list UserRole) (current_user : User) : checked :=
  if negb (bool_decide (role current_user ∈ roles)) then
    Forbidden HTTP_403_FORBIDDEN
      ("Insufficient permissions. Required roles: "
         ++ repr_list (map role_value roles))
  else Allowed current_user.

Definition AdminUser : User -> checked := require_roles [ADMIN].
Definition ManagerUser : User -> checked := require_roles [ADMIN; OPS_MANAGER].
Definition CoordinatorUser : User -> checked :=
  require_roles [ADMIN; OPS_MANAGER; SC_LEAD; STUDY_COORDINATOR].

End Deps.

(** ** Vocabulary of the specification *)

Module Spec.
Import PyDate Models.

(** The adjacency table as the specification draws it. *)
Definition spec_edge (from to : ActionItemStatus) : bool :=
  match from, to with
  | NEW, IN_PROGRESS => true
  | IN_PROGRESS, WAITING_EXTERNAL | IN_PROGRESS, DONE => true
  | WAITING_EXTERNAL, IN_PROGRESS | WAITING_EXTERNAL, DONE => true
  | DONE, VERIFIED | DONE, IN_PROGRESS => true
  | _, _ => false
  end.

(** The adjacency table the status route enforces: the one above and the
    two edges [new -> waiting_external] and [in_progress -> new]. *)
Definition allowed (from to : ActionItemStatus) : bool :=
  match from, to with
  | NEW, IN_PROGRESS | NEW, WAITING_EXTERNAL => true
  | IN_PROGRESS, WAITING_EXTERNAL | IN_PROGRESS, DONE | IN_PROGRESS, NEW => true
  | WAITING_EXTERNAL, IN_PROGRESS | WAITING_EXTERNAL, DONE => true
  | DONE, VERIFIED | DONE, IN_PROGRESS => true
  | _, _ => false
  end.

(** The text of the invalid-transition error. *)
Definition invalid_transition (from to : ActionItemStatus) : string :=
  "Invalid status transition from " ++ status_value from
    ++ " to " ++ status_value to.

(** The 13 holiday dates of a year: 8 at fixed dates, 5 relative to that
    year's Easter Sunday. *)
Definition holiday_dates (easter : Z -> Z) (y : Z) : list Z :=
  [ date y 1 1; date y 4 21; date y 5 1; date y 9 7; date y 10 12;
    date y 11 2; date y 11 15; date y 12 25;
    easter y - 47; easter y - 46; easter y - 2; easter y; easter y + 60 ].

(** Every year the cache holds is mapped to that year's holidays. *)
Definition cache_ok (easter : Z -> Z) (cache : gmap Z (gset Z)) : Prop :=
  forall y hs, cache !! y = Some hs ->
    forall d, d ∈ hs <-> In d (holiday_dates easter y).

(** Friday 7 June 2024, 16:00 UTC; no holiday falls in June 2024. *)
Definition friday_16h : datetime :=
  {| dt_date := date 2024 6 7; dt_hour := 16; dt_minute := 0; dt_second := 0;
     dt_microsecond := 0; dt_tzinfo := Some utc |}.

(** The value a call returns, whatever the cache became. *)
Definition value_of {A : Type} (o : SLAEngine.outcome (A * gmap Z (gset Z)))
  : option A :=
  match o with
  | SLAEngine.Returns (a, _) => Some a
  | _ => None
  end.

(** An item with the given status, severity and time stamps. *)
Definition sample_item (s : ActionItemStatus) (sev : SeverityLevel)
    (created : Z) (deadline resolved : option Z) : ActionItem :=
  {| id := 1; study_id := 7; monitor_letter_id := None; title := "Missing ICF";
     description := None; category := CONSENT_ICF; severity := sev;
     status := s; assigned_to := None; created_by := 9; due_date := None;
     sla_deadline := deadline; escalation_level := 0; resolved_at := resolved;
     verified_at := None; verified_by := None; created_at := created |}.

Definition sample_db (i : ActionItem) : ActionItems.Db :=
  {| ActionItems.items := {[ id i := i ]}; ActionItems.updates := [] |}.

Definition HOUR : Z := 3600000000.

(** The first four turns of the loop of [update_action_item]: the fields
    that come before [status]. *)
Definition loop_head (item_id user : Z)
    (item_in : ActionItems.ActionItemUpdateSchema)
    (st : ActionItem * ActionItems.Db) : ActionItem * ActionItems.Db :=
  ActionItems.apply_field "severity" severity ActionItems.set_severity
    (fun v => Some (severity_value v))
    item_id user (ActionItems.upd_comment item_in) (ActionItems.upd_severity item_in)
  (ActionItems.apply_field "category" category ActionItems.set_category
    (fun v => Some (category_value v))
    item_id user (ActionItems.upd_comment item_in) (ActionItems.upd_category item_in)
  (ActionItems.apply_field "description" description ActionItems.set_description (fun v => v)
    item_id user (ActionItems.upd_comment item_in) (ActionItems.upd_description item_in)
  (ActionItems.apply_field "title" title ActionItems.set_title Some
    item_id user (ActionItems.upd_comment item_in) (ActionItems.upd_title item_in) st))).

(** [is_business_day] and the first loop of [add_business_hours] read off
    the calendar alone, without the cache. *)
Definition business_day (easter : Z -> Z) (d : Z) : bool :=
  (weekday d <? 5)
  && negb (existsb (Z.eqb d) (holiday_dates easter (PyDate.year d))).

Fixpoint full_days_from (easter : Z -> Z) (fuel : nat)
    (current_date days_added full_days : Z) : option Z :=
  if days_added <? full_days then
    match fuel with
    | O => None
    | S fuel' =>
        full_days_from easter fuel' (current_date + 1)
          (if business_day easter (current_date + 1)
           then days_added + 1 else days_added) full_days
    end
  else Some current_date.

(** The hours [get_escalation_level] works with: the override, or the
    default of the item's severity. *)
Definition effective_escalation_hours (item : ActionItem) (esc : option Z) : Z :=
  SLAEngine.int_or esc
    (default 40
       (SLAEngine.DEFAULT_ESCALATION_HOURS !! severity_value (severity item))).

(** The populations of the compliance ratio: closed items with a deadline
    (of the study asked for, if any), and those of them resolved no later
    than the deadline. *)
Definition in_study (study : option Z) (r : ActionItem) : Prop :=
  match study with
  | Some s => study_id r = s
  | None => True
  end.

Definition closed_with_deadline (study : option Z) (r : ActionItem) : Prop :=
  in_study study r
  /\ (status r = DONE \/ status r = VERIFIED)
  /\ is_Some (sla_deadline r).

Definition resolved_on_time (r : ActionItem) : Prop :=
  match resolved_at r, sla_deadline r with
  | Some t, Some d => t <= d
  | _, _ => False
  end.

#[export] Instance in_study_dec study r : Decision (in_study study r).
Proof. unfold in_study. destruct study; apply _. Defined.

#[export] Instance closed_with_deadline_dec study r :
  Decision (closed_with_deadline study r).
Proof. unfold closed_with_deadline. apply _. Defined.

#[export] Instance resolved_on_time_dec r : Decision (resolved_on_time r).
Proof.
  unfold resolved_on_time.
  destruct (resolved_at r), (sla_deadline r); apply _.
Defined.

Definition closed_count (study : option Z) (rows : list ActionItem) : Z :=
  Z.of_nat (length (filter (closed_with_deadline study) rows)).

Definition on_time_closed_count (study : option Z) (rows : list ActionItem) : Z :=
  Z.of_nat
    (length
       (filter (fun r => closed_with_deadline study r /\ resolved_on_time r)
          rows)).

(** The cumulative counts of a burndown series never go down. *)
Definition cumulative_nondecreasing
    (data : list ActionItemRepository.BurndownDataPoint) : Prop :=
  forall (i j : nat) p q,
    (i <= j)%nat -> data !! i = Some p -> data !! j = Some q ->
    ActionItemRepository.cumulative_closed p
    <= ActionItemRepository.cumulative_closed q.

(** Three closed items with the deadline at instant 10: one resolved at 5,
    two after the deadline. *)
Definition one_of_three_on_time : list ActionItem :=
  [ sample_item DONE MAJOR 0 (Some 10) (Some 5);
    sample_item DONE MAJOR 0 (Some 10) (Some 50);
    sample_item VERIFIED MINOR 0 (Some 10) (Some 11) ].

(** The second loop of [add_business_hours] read off the calendar alone. *)
Fixpoint first_business_day_from (easter : Z -> Z) (fuel : nat) (d : Z)
  : option Z :=
  if negb (business_day easter d) then
    match fuel with
    | O => None
    | S fuel' => first_business_day_from easter fuel' (d + 1)
    end
  else Some d.

(** The business days among the dates [lo], ..., [hi]. *)
Definition business_days_in (easter : Z -> Z) (lo hi : Z) : Z :=
  Z.of_nat
    (length
       (filter (fun d => business_day easter d = true)
          (seqZ lo (hi - lo + 1)))).

(** A wall-clock time as [datetime] accepts it. *)
Definition valid_time (t : datetime) : Prop :=
  0 <= dt_hour t < 24 /\ 0 <= dt_minute t < 60 /\ 0 <= dt_second t < 60.

(** What the general update leaves in the item: each field that was sent
    holds the value sent. *)
Definition set_opt {A : Type} (set : A -> ActionItem -> ActionItem)
    (sent : option A) (i : ActionItem) : ActionItem :=
  match sent with
  | Some v => set v i
  | None => i
  end.

Definition edit (item : ActionItem)
    (item_in : ActionItems.ActionItemUpdateSchema) : ActionItem :=
  set_opt ActionItems.set_due_date (ActionItems.upd_due_date item_in)
  (set_opt ActionItems.set_assigned_to (ActionItems.upd_assigned_to item_in)
  (set_opt ActionItems.set_status (ActionItems.upd_status item_in)
  (set_opt ActionItems.set_severity (ActionItems.upd_severity item_in)
  (set_opt ActionItems.set_category (ActionItems.upd_category item_in)
  (set_opt ActionItems.set_description (ActionItems.upd_description item_in)
  (set_opt ActionItems.set_title (ActionItems.upd_title item_in) item)))))).

(** The time stamps a new status brings, then the escalation level. *)
Definition stamp (now user : Z) (new_status : option ActionItemStatus)
    (i : ActionItem) : ActionItem :=
  match new_status with
  | Some DONE => ActionItems.set_resolved_at (Some now) i
  | Some VERIFIED =>
      ActionItems.set_verified_by (Some user)
        (ActionItems.set_verified_at (Some now) i)
  | _ => i
  end.

Definition refresh_level (now_esc : Z) (i : ActionItem) : ActionItem :=
  ActionItems.set_escalation_level
    (SLAEngine.get_escalation_level now_esc i None) i.

(** The audit row of one field, written when the value sent differs from
    the one the item had. *)
Definition audit_row (item_id user : Z) (field : string)
    (old new c : option string) : ActionItemUpdate :=
  {| action_item_id := item_id; user_id := user;
     field_changed := Some field; old_value := old; new_value := new;
     comment := c |}.

Definition row_if {A : Type} `{EqDecision A} (item_id user : Z)
    (c : option string) (field : string) (show : A -> option string)
    (old : A) (sent : option A) : list ActionItemUpdate :=
  match sent with
  | Some v =>
      if bool_decide (old = v) then []
      else [audit_row item_id user field (show old) (show v) c]
  | None => []
  end.

Definition audit_rows (item_id user : Z) (item : ActionItem)
    (item_in : ActionItems.ActionItemUpdateSchema) : list ActionItemUpdate :=
  let c := ActionItems.upd_comment item_in in
  row_if item_id user c "title" Some (title item)
    (ActionItems.upd_title item_in)
  ++ row_if item_id user c "description" (fun v => v) (description item)
       (ActionItems.upd_description item_in)
  ++ row_if item_id user c "category" (fun v => Some (category_value v))
       (category item) (ActionItems.upd_category item_in)
  ++ row_if item_id user c "severity" (fun v => Some (severity_value v))
       (severity item) (ActionItems.upd_severity item_in)
  ++ row_if item_id user c "status" (fun v => Some (status_value v))
       (status item) (ActionItems.upd_status item_in)
  ++ row_if item_id user c "assigned_to" (fmap ActionItems.str_uuid)
       (assigned_to item) (ActionItems.upd_assigned_to item_in)
  ++ row_if item_id user c "due_date" (fmap ActionItems.str_datetime)
       (due_date item) (ActionItems.upd_due_date item_in).

(** A request to the status route, and a run of such requests. *)
Record StatusRequest : Type := mk_StatusRequest {
  req_now : Z;
  req_now_esc : Z;
  req_item_id : Z;
  req_update : ActionItems.ActionItemStatusUpdate;
  req_user : Z
}.

Definition run_status_requests (reqs : list StatusRequest)
    (db : ActionItems.Db) : ActionItems.Db :=
  foldl
    (fun db r =>
       snd (ActionItems.update_action_item_status (req_now r) (req_now_esc r)
              (req_item_id r) (req_update r) (req_user r) db))
    db reqs.

(** The closed items of the first points of a burndown series, added up. *)
Definition closed_sum (data : list ActionItemRepository.BurndownDataPoint) : Z :=
  foldr Z.add 0 (map ActionItemRepository.closed_items data).

(** The cumulative percentages of a Pareto series never go down. *)
Definition pareto_nondecreasing
    (data : list ActionItemRepository.ParetoItem) : Prop :=
  forall (i j : nat) p q,
    (i <= j)%nat -> data !! i = Some p -> data !! j = Some q ->
    (ActionItemRepository.pi_cumulative_percentage p
     <= ActionItemRepository.pi_cumulative_percentage q)%Q.

(** The last date [datetime.date] can hold, and the dates it can hold. *)
Definition date_max : Z := date 9999 12 31.

Definition valid_date (d : Z) : Prop := 1 <= d <= date_max.

(** The movable holidays of every year [date] accepts are dates that
    [date] can hold, as they are for [dateutil.easter.easter], which
    answers a day between 22 March and 25 April of the year. *)
Definition easter_within_dates (easter : Z -> Z) : Prop :=
  forall y, 1 <= y <= 9999 ->
    valid_date (easter y - 47) /\ valid_date (easter y + 60).

(** The same, as a check that can be run. *)
Definition easter_within_dates_check (easter : Z -> Z) : bool :=
  forallb (fun y => (1 <=? easter y - 47) && (easter y + 60 <=? date_max))
    (seqZ 1 9999).

(** From every date between [lo] and [hi] a business day is reached within
    [gap] days. *)
Definition business_day_within (easter : Z -> Z) (gap : nat) (lo hi : Z)
  : Prop :=
  forall d, lo <= d <= hi ->
    exists k, 0 <= k < Z.of_nat gap /\ business_day easter (d + k) = true.

(** The same, as a check that can be run. *)
Definition business_day_within_check (easter : Z -> Z) (gap : nat)
    (lo hi : Z) : bool :=
  forallb
    (fun d => existsb (fun k => business_day easter (d + k))
                (seqZ 0 (Z.of_nat gap)))
    (seqZ lo (hi - lo + 1)).

(** The hours [calculate_sla_deadline] works with: the override, or the
    default of the severity. *)
Definition effective_resolution_hours (severity : SeverityLevel)
    (resolution_hours : option Z) : Z :=
  SLAEngine.int_or resolution_hours
    (default 80 (SLAEngine.DEFAULT_SLA_HOURS !! severity_value severity)).

End Spec.

(** ** Lifecycle: the two update routes *)

Module LifecycleProofs.
Import Models SLAEngine ActionItems Spec.

Lemma valid_transitions_allowed (from to : ActionItemStatus) :
  bool_decide (to ∈ default [] (valid_transitions !! from)) = allowed from to.
Proof. destruct from, to; vm_compute; reflexivity. Qed.

Lemma closed_escalation_level (now : Z) (i : ActionItem) (esc : option Z) :
  status i = DONE \/ status i = VERIFIED ->
  get_escalation_level now i esc = 0.
Proof.
  intros Hs. unfold get_escalation_level.
  destruct (sla_deadline i); [|reflexivity].
  unfold is_open. destruct Hs as [-> | ->]; reflexivity.
Qed.

Lemma apply_field_status_sent (item_id user : Z) (c : option string)
    (v : ActionItemStatus) (st : ActionItem * Db) :
  status (fst (apply_field "status" status set_status
                 (fun v => Some (status_value v)) item_id user c (Some v) st))
  = v.
Proof.
  unfold apply_field. case_bool_decide as Heq; [exact Heq | reflexivity].
Qed.

(** C1, as amended: the status route accepts a change exactly on the
    edges of [allowed], which is the table of the specification plus
    new -> waiting_external and in_progress -> new; on an edge the item
    takes the new status and is stored, and any other pair is refused with
    status 400 and a message naming source and target, the database being
    left as it was. *)
Theorem transition_status_table
    (now now_esc item_id user : Z) (su : ActionItemStatusUpdate)
    (db : Db) (item : ActionItem) :
  items db !! item_id = Some item ->
  (allowed (status item) (su_status su) = true ->
     exists item',
       fst (update_action_item_status now now_esc item_id su user db) = Ok item'
       /\ status item' = su_status su
       /\ items (snd (update_action_item_status now now_esc item_id su user db))
            !! item_id = Some item')
  /\ (allowed (status item) (su_status su) = false ->
        update_action_item_status now now_esc item_id su user db
        = (HTTPException 400
             (invalid_transition (status item) (su_status su)), db)).
Proof.
  intros Hitem. unfold update_action_item_status. rewrite Hitem.
  rewrite valid_transitions_allowed. split; intros ->; cbn [negb].
  - eexists. split; [reflexivity|]. split.
    + repeat case_bool_decide; reflexivity.
    + cbn. apply lookup_insert_eq.
  - reflexivity.
Qed.

Lemma transition_status_table_witness :
  exists item',
    fst (update_action_item_status 100 101 1
           {| su_status := IN_PROGRESS; su_comment := None |} 5
           (sample_db (sample_item NEW CRITICAL 0 None None))) = Ok item'
    /\ status item' = IN_PROGRESS.
Proof.
  destruct (transition_status_table 100 101 1 5
              {| su_status := IN_PROGRESS; su_comment := None |}
              (sample_db (sample_item NEW CRITICAL 0 None None))
              (sample_item NEW CRITICAL 0 None None)) as [Hok _].
  - vm_compute. reflexivity.
  - destruct (Hok eq_refl) as (item' & H1 & H2 & _).
    exists item'. split; assumption.
Defined.

(** C1, counterexample: an item in status new is moved to waiting_external
    by the status route, a pair that is not an edge of the specification's
    table. *)
Lemma transition_new_to_waiting_external_accepted :
  spec_edge NEW WAITING_EXTERNAL = false
  /\ fst (update_action_item_status 100 101 1
            {| su_status := WAITING_EXTERNAL; su_comment := None |} 5
            (sample_db (sample_item NEW CRITICAL 0 None None)))
     = Ok (sample_item WAITING_EXTERNAL CRITICAL 0 None None).
Proof. split; vm_compute; reflexivity. Qed.

(** C2, the code at the failing input: the general update moves a verified
    item back to new, a pair outside both tables, answers with the changed
    item and records the change in the audit trail. *)
Theorem update_action_item_skips_transition_table :
  allowed VERIFIED NEW = false
  /\ spec_edge VERIFIED NEW = false
  /\ fst (update_action_item 100 101 1
            {| upd_title := None; upd_description := None;
               upd_category := None; upd_severity := None;
               upd_status := Some NEW; upd_assigned_to := None;
               upd_due_date := None; upd_comment := None |} 5
            (sample_db (sample_item VERIFIED MAJOR 0 None (Some 50))))
     = Ok (sample_item NEW MAJOR 0 None (Some 50))
  /\ updates (snd (update_action_item 100 101 1
            {| upd_title := None; upd_description := None;
               upd_category := None; upd_severity := None;
               upd_status := Some NEW; upd_assigned_to := None;
               upd_due_date := None; upd_comment := None |} 5
            (sample_db (sample_item VERIFIED MAJOR 0 None (Some 50)))))
     = [ {| action_item_id := 1; user_id := 5;
            field_changed := Some "status"; old_value := Some "verified";
            new_value := Some "new"; comment := None |} ].
Proof. repeat split; vm_compute; reflexivity. Qed.

Lemma apply_field_frame {A : Type} `{EqDecision A} (P : ActionItem -> Prop)
    (field : string) (get : ActionItem -> A)
    (set : A -> ActionItem -> ActionItem) (show : A -> option string)
    (item_id user : Z) (c : option string) (sent : option A)
    (st : ActionItem * Db) :
  (forall v i, P i -> P (set v i)) ->
  P (fst st) ->
  P (fst (apply_field field get set show item_id user c sent st)).
Proof.
  intros Hset Hst. unfold apply_field.
  destruct sent as [v|]; [|exact Hst].
  case_bool_decide; [exact Hst | cbn; apply Hset, Hst].
Qed.

(** The status of the object once the loop over the fields sent is done. *)
Lemma update_loop_status (item_id user : Z) (item_in : ActionItemUpdateSchema)
    (s : ActionItemStatus) (st : ActionItem * Db) :
  upd_status item_in = Some s ->
  status
    (fst (apply_field "due_date" due_date set_due_date (fmap str_datetime)
            item_id user (upd_comment item_in) (upd_due_date item_in)
         (apply_field "assigned_to" assigned_to set_assigned_to (fmap str_uuid)
            item_id user (upd_comment item_in) (upd_assigned_to item_in)
         (apply_field "status" status set_status
            (fun v => Some (status_value v))
            item_id user (upd_comment item_in) (upd_status item_in) st))))
  = s.
Proof.
  intros ->.
  apply (apply_field_frame (fun i => status i = s)); [intros; assumption|].
  apply (apply_field_frame (fun i => status i = s)); [intros; assumption|].
  apply apply_field_status_sent.
Qed.

(** C3, as amended: whenever an item enters done, by the status route on
    an allowed edge or by the general update, [resolved_at] is assigned the
    current instant, whether it was set before or not; it holds the latest
    time the item reached done. *)
Theorem entering_done_sets_resolved_at
    (now now_esc item_id user : Z) (db : Db) (item : ActionItem) :
  items db !! item_id = Some item ->
  (forall su, su_status su = DONE -> allowed (status item) DONE = true ->
     exists item',
       fst (update_action_item_status now now_esc item_id su user db) = Ok item'
       /\ status item' = DONE /\ resolved_at item' = Some now)
  /\ (forall item_in, upd_status item_in = Some DONE ->
        exists item',
          fst (update_action_item now now_esc item_id item_in user db) = Ok item'
          /\ status item' = DONE /\ resolved_at item' = Some now).
Proof.
  intros Hitem. split.
  - intros su Hsu Hedge. unfold update_action_item_status.
    rewrite Hitem, valid_transitions_allowed, Hsu, Hedge. cbn.
    eexists. repeat split; reflexivity.
  - intros item_in Hsent. unfold update_action_item. rewrite Hitem.
    pose proof (update_loop_status item_id user item_in DONE) as Hloop.
    specialize (Hloop (loop_head item_id user item_in (item, db)) Hsent).
    fold (loop_head item_id user item_in (item, db)) in |- *.
    destruct (apply_field "due_date" _ _ _ _ _ _ _ _) as [i d].
    rewrite Hsent. cbn.
    eexists. split; [reflexivity|]. split; [|reflexivity]. exact Hloop.
Qed.

Lemma entering_done_sets_resolved_at_witness :
  exists item',
    fst (update_action_item_status 100 101 1
           {| su_status := DONE; su_comment := None |} 5
           (sample_db (sample_item IN_PROGRESS CRITICAL 0 None (Some 50))))
    = Ok item'
    /\ status item' = DONE /\ resolved_at item' = Some 100.
Proof.
  destruct (entering_done_sets_resolved_at 100 101 1 5
              (sample_db (sample_item IN_PROGRESS CRITICAL 0 None (Some 50)))
              (sample_item IN_PROGRESS CRITICAL 0 None (Some 50)))
    as [Hpatch _].
  - vm_compute. reflexivity.
  - apply (Hpatch {| su_status := DONE; su_comment := None |});
      vm_compute; reflexivity.
Defined.

(** C3, counterexample: an item that was resolved at instant 50, reopened
    and sent to done again at instant 100 ends with [resolved_at] = 100;
    the first resolution time is overwritten. *)
Lemma reentering_done_overwrites_resolved_at :
  resolved_at (sample_item IN_PROGRESS CRITICAL 0 None (Some 50)) = Some 50
  /\ fst (update_action_item_status 100 101 1
            {| su_status := DONE; su_comment := None |} 5
            (sample_db (sample_item IN_PROGRESS CRITICAL 0 None (Some 50))))
     = Ok (sample_item DONE CRITICAL 0 None (Some 100))
  /\ Some 100 <> Some 50.
Proof. repeat split; try (vm_compute; reflexivity). discriminate. Qed.

(** C10: after a successful change of status to done or verified, by the
    status route or by the general update, the escalation level of the item
    answered and stored is 0, because the engine answers 0 for an item that
    is not open. *)
Theorem closing_resets_escalation_level
    (now now_esc item_id user : Z) (db : Db) (target : ActionItemStatus)
    (item' : ActionItem) :
  target = DONE \/ target = VERIFIED ->
  (forall su, su_status su = target ->
     fst (update_action_item_status now now_esc item_id su user db) = Ok item' ->
     status item' = target /\ escalation_level item' = 0
     /\ items (snd (update_action_item_status now now_esc item_id su user db))
          !! item_id = Some item')
  /\ (forall item_in, upd_status item_in = Some target ->
        fst (update_action_item now now_esc item_id item_in user db) = Ok item' ->
        status item' = target /\ escalation_level item' = 0
        /\ items (snd (update_action_item now now_esc item_id item_in user db))
             !! item_id = Some item').
Proof.
  intros Htarget. split.
  - intros su Hsu. unfold update_action_item_status.
    destruct (items db !! item_id) as [item|]; [|discriminate].
    destruct (negb _); [discriminate|]. cbn [fst snd].
    intros [= <-]. rewrite Hsu.
    split; [|split].
    + destruct Htarget as [-> | ->]; reflexivity.
    + cbn. apply closed_escalation_level.
      destruct Htarget as [-> | ->]; cbn; auto.
    + cbn. apply lookup_insert_eq.
  - intros item_in Hsent. unfold update_action_item.
    destruct (items db !! item_id) as [item|]; [|discriminate].
    pose proof (update_loop_status item_id user item_in target) as Hloop.
    specialize (Hloop (loop_head item_id user item_in (item, db)) Hsent).
    fold (loop_head item_id user item_in (item, db)) in |- *.
    destruct (apply_field "due_date" _ _ _ _ _ _ _ _) as [i d].
    cbn [fst] in Hloop. rename Hloop into Hs.
    rewrite Hsent. cbn [fst snd]. intros [= <-].
    split; [|split].
    + destruct Htarget as [-> | ->]; cbn; exact Hs.
    + cbn. apply closed_escalation_level.
      destruct Htarget as [-> | ->]; cbn; auto.
    + cbn. apply lookup_insert_eq.
Qed.

Lemma closing_resets_escalation_level_witness :
  escalation_level
    (set_escalation_level 0 (sample_item DONE CRITICAL 0 (Some 10) (Some 100)))
  = 0.
Proof.
  destruct (closing_resets_escalation_level 100 101 1 5
              (sample_db (sample_item IN_PROGRESS CRITICAL 0 (Some 10) None))
              DONE
              (set_escalation_level 0
                 (sample_item DONE CRITICAL 0 (Some 10) (Some 100))))
    as [Hpatch _].
  - left. reflexivity.
  - destruct (Hpatch {| su_status := DONE; su_comment := None |})
      as (_ & Hlevel & _).
    + reflexivity.
    + vm_compute. reflexivity.
    + exact Hlevel.
Defined.

End LifecycleProofs.


(** ** The business calendar and the deadline *)

Module CalendarProofs.
Import PyDate Models SLAEngine Spec.

Lemma cache_ok_empty (easter : Z -> Z) : cache_ok easter ∅.
Proof. intros y hs Hy. rewrite lookup_empty in Hy. discriminate. Qed.

Section WithEaster.
Variable easter : Z -> Z.

Lemma get_brazilian_holidays_spec (y : Z) (cache : gmap Z (gset Z)) :
  cache_ok easter cache ->
  exists hs cache',
    get_brazilian_holidays easter y cache = Returns (hs, cache')
    /\ cache_ok easter cache'
    /\ forall d, d ∈ hs <-> In d (holiday_dates easter y).
Proof.
  intros Hok. unfold get_brazilian_holidays.
  destruct (cache !! y) as [hs|] eqn:Hy.
  - exists hs, cache. split; [reflexivity|]. split; [exact Hok|].
    exact (Hok y hs Hy).
  - eexists _, _. split; [reflexivity|].
    assert (Hnew : forall d,
               d ∈ ({[ date y 1 1; date y 4 21; date y 5 1; date y 9 7;
                       date y 10 12; date y 11 2; date y 11 15;
                       date y 12 25 ]} ∪ {[ easter y - 47 ]}
                    ∪ {[ easter y - 46 ]} ∪ {[ easter y - 2 ]}
                    ∪ {[ easter y ]} ∪ {[ easter y + 60 ]} : gset Z)
               <-> In d (holiday_dates easter y)).
    { intros d. unfold holiday_dates. cbn [In].
      rewrite !elem_of_union, !elem_of_singleton. intuition congruence. }
    split; [|exact Hnew].
    intros y' hs'. destruct (decide (y = y')) as [<-|Hne].
    + rewrite lookup_insert_eq. intros [= <-]. exact Hnew.
    + rewrite lookup_insert_ne by exact Hne. apply Hok.
Qed.

Lemma weekday_range (d : Z) : 0 <= weekday d < 7.
Proof. unfold weekday. apply Z.mod_pos_bound. lia. Qed.

Lemma existsb_eqb_In (d : Z) (l : list Z) :
  existsb (Z.eqb d) l = true <-> In d l.
Proof.
  rewrite existsb_exists. split.
  - intros (x & Hin & Heq). apply Z.eqb_eq in Heq. subst. exact Hin.
  - intros Hin. exists d. split; [exact Hin | apply Z.eqb_refl].
Qed.

Lemma is_business_day_spec (d : Z) (cache : gmap Z (gset Z)) :
  cache_ok easter cache ->
  exists cache',
    is_business_day easter d cache = Returns (business_day easter d, cache')
    /\ cache_ok easter cache'.
Proof.
  intros Hok. unfold is_business_day, business_day.
  destruct (5 <=? weekday d) eqn:Hwd.
  - exists cache. split; [|exact Hok].
    apply Z.leb_le in Hwd.
    replace (weekday d <? 5) with false by (symmetry; apply Z.ltb_ge; lia).
    reflexivity.
  - apply Z.leb_gt in Hwd.
    replace (weekday d <? 5) with true by (symmetry; apply Z.ltb_lt; lia).
    destruct (get_brazilian_holidays_spec (PyDate.year d) cache Hok)
      as (hs & cache' & Hget & Hok' & Hmem).
    exists cache'. split; [|exact Hok'].
    unfold bind. rewrite Hget. unfold ret. cbn [andb]. do 3 f_equal.
    apply eq_true_iff_eq.
    rewrite bool_decide_eq_true, existsb_eqb_In. apply Hmem.
Qed.

(** C8: started from a cache that maps years to their holidays (the empty
    cache of a fresh engine is one), [is_business_day] returns, keeps the
    cache in that state, and its answer is false exactly when the date is a
    Saturday, a Sunday, or one of the 13 holiday dates of its year (8 fixed,
    5 placed relative to that year's Easter Sunday); it is true for every
    other weekday. *)
Theorem is_business_day_weekend_or_holiday (d : Z) (cache : gmap Z (gset Z)) :
  cache_ok easter cache ->
  exists b cache',
    is_business_day easter d cache = Returns (b, cache')
    /\ cache_ok easter cache'
    /\ (b = false <->
          weekday d = 5 \/ weekday d = 6
          \/ In d (holiday_dates easter (PyDate.year d)))
    /\ (b = true <->
          0 <= weekday d <= 4
          /\ ~ In d (holiday_dates easter (PyDate.year d))).
Proof.
  intros Hok.
  destruct (is_business_day_spec d cache Hok) as (cache' & Hrun & Hok').
  exists (business_day easter d), cache'.
  split; [exact Hrun|]. split; [exact Hok'|].
  pose proof (weekday_range d) as Hr.
  unfold business_day.
  destruct (existsb (Z.eqb d) (holiday_dates easter (PyDate.year d))) eqn:Hex.
  - apply existsb_eqb_In in Hex. rewrite andb_false_r.
    split; split; try tauto; try discriminate.
  - assert (Hnot : ~ In d (holiday_dates easter (PyDate.year d))).
    { rewrite <- existsb_eqb_In, Hex. discriminate. }
    rewrite andb_true_r.
    destruct (weekday d <? 5) eqn:Hwd.
    + apply Z.ltb_lt in Hwd. split; split; try discriminate; try tauto.
      * intros [H | [H | H]]; [lia | lia | tauto].
      * intros _. split; [lia | exact Hnot].
    + apply Z.ltb_ge in Hwd. split; split; try discriminate; try tauto.
      * intros _. lia.
      * intros [H _]. lia.
Qed.

End WithEaster.

Lemma is_business_day_weekend_or_holiday_witness :
  exists b cache',
    is_business_day easter_western (date 2024 3 29) ∅ = Returns (b, cache')
    /\ b = false.
Proof.
  destruct (is_business_day_weekend_or_holiday easter_western
              (date 2024 3 29) ∅ (cache_ok_empty easter_western))
    as (b & cache' & Hrun & _ & Hfalse & _).
  exists b, cache'. split; [exact Hrun|].
  apply Hfalse. right. right. vm_compute. tauto.
Defined.

End CalendarProofs.

Module DeadlineProofs.
Import PyDate Models SLAEngine Spec CalendarProofs.

Section WithEaster.
Variable easter : Z -> Z.

(** The loop over the cache computes what the calendar alone gives. *)
Lemma add_full_days_spec (fuel : nat) :
  forall (current_date days_added full_days : Z) (cache : gmap Z (gset Z)),
    cache_ok easter cache ->
    exists cache',
      cache_ok easter cache'
      /\ add_full_days easter fuel current_date days_added full_days cache
         = match full_days_from easter fuel current_date days_added full_days with
           | Some r => Returns (r, cache')
           | None => Timeout
           end.
Proof.
  induction fuel as [|fuel IH]; intros cur added full cache Hok.
  - exists cache. split; [exact Hok|]. cbn.
    destruct (added <? full); reflexivity.
  - cbn [add_full_days full_days_from].
    destruct (added <? full).
    + destruct (is_business_day_spec easter (cur + 1) cache Hok)
        as (cache1 & Hrun & Hok1).
      unfold bind. rewrite Hrun. apply IH. exact Hok1.
    + exists cache. split; [exact Hok | reflexivity].
Qed.

Lemma full_days_step (fuel : nat) (cur added full : Z) :
  added < full ->
  full_days_from easter (S fuel) cur added full
  = full_days_from easter fuel (cur + 1)
      (if business_day easter (cur + 1) then added + 1 else added) full.
Proof.
  intros Hlt. cbn [full_days_from].
  replace (added <? full) with true by (symmetry; apply Z.ltb_lt; exact Hlt).
  reflexivity.
Qed.

Lemma full_days_done (fuel : nat) (cur added full : Z) :
  full <= added -> full_days_from easter fuel cur added full = Some cur.
Proof.
  intros Hge.
  destruct fuel; cbn [full_days_from];
    replace (added <? full) with false by (symmetry; apply Z.ltb_ge; exact Hge);
    reflexivity.
Qed.

Lemma business_day_no_holiday (d : Z) :
  ~ In d (holiday_dates easter (PyDate.year d)) ->
  business_day easter d = (weekday d <? 5).
Proof.
  intros Hno. unfold business_day.
  destruct (existsb (Z.eqb d) (holiday_dates easter (PyDate.year d))) eqn:Hex.
  - apply existsb_eqb_In in Hex. contradiction.
  - apply andb_true_r.
Qed.

Lemma weekday_shift (d k : Z) : weekday (d + k) = (weekday d + k) mod 7.
Proof.
  unfold weekday.
  replace (d + k + 6) with (d + 6 + k) by lia.
  rewrite Zplus_mod_idemp_l. reflexivity.
Qed.

(** Six business days after a Friday that is followed by ten days without
    a holiday end on the Monday ten days later. *)
Lemma full_days_from_friday (d : Z) (fuel : nat) :
  weekday d = 4 ->
  (forall k, 1 <= k <= 10 ->
     ~ In (d + k) (holiday_dates easter (PyDate.year (d + k)))) ->
  (10 <= fuel)%nat ->
  full_days_from easter fuel d 0 6 = Some (d + 10).
Proof.
  intros Hfri Hno Hfuel.
  assert (Hb : forall k, 1 <= k <= 10 ->
             business_day easter (d + k) = ((4 + k) mod 7 <? 5)).
  { intros k Hk. rewrite business_day_no_holiday by (apply Hno, Hk).
    rewrite weekday_shift, Hfri. reflexivity. }
  do 10 (destruct fuel as [|fuel]; [lia|]).
  rewrite full_days_step by lia. rewrite (Hb 1) by lia.
  change ((4 + 1) mod 7 <? 5) with false. cbv iota.
  rewrite full_days_step by lia.
  replace (d + 1 + 1) with (d + 2) by lia. rewrite (Hb 2) by lia.
  change ((4 + 2) mod 7 <? 5) with false. cbv iota.
  rewrite full_days_step by lia.
  replace (d + 2 + 1) with (d + 3) by lia. rewrite (Hb 3) by lia.
  change ((4 + 3) mod 7 <? 5) with true. cbv iota.
  rewrite full_days_step by lia.
  replace (d + 3 + 1) with (d + 4) by lia. rewrite (Hb 4) by lia.
  change ((4 + 4) mod 7 <? 5) with true. cbv iota.
  rewrite full_days_step by lia.
  replace (d + 4 + 1) with (d + 5) by lia. rewrite (Hb 5) by lia.
  change ((4 + 5) mod 7 <? 5) with true. cbv iota.
  rewrite full_days_step by lia.
  replace (d + 5 + 1) with (d + 6) by lia. rewrite (Hb 6) by lia.
  change ((4 + 6) mod 7 <? 5) with true. cbv iota.
  rewrite full_days_step by lia.
  replace (d + 6 + 1) with (d + 7) by lia. rewrite (Hb 7) by lia.
  change ((4 + 7) mod 7 <? 5) with true. cbv iota.
  rewrite full_days_step by lia.
  replace (d + 7 + 1) with (d + 8) by lia. rewrite (Hb 8) by lia.
  change ((4 + 8) mod 7 <? 5) with false. cbv iota.
  rewrite full_days_step by lia.
  replace (d + 8 + 1) with (d + 9) by lia. rewrite (Hb 9) by lia.
  change ((4 + 9) mod 7 <? 5) with false. cbv iota.
  rewrite full_days_step by lia.
  replace (d + 9 + 1) with (d + 10) by lia. rewrite (Hb 10) by lia.
  change ((4 + 10) mod 7 <? 5) with true. cbv iota.
  apply full_days_done. lia.
Qed.

(** C4, as amended: for an item created on a Friday at 16:00 with the
    48-hour critical SLA and an 8-hour business day, the deadline is six
    business days later; when none of the ten following days is a holiday
    that is 16:00 on the Monday ten days after creation, the weekend after
    the Friday and the next one being skipped. *)
Theorem friday_critical_deadline
    (d us : Z) (tz : option Z) (fuel : nat) (cache : gmap Z (gset Z)) :
  cache_ok easter cache ->
  weekday d = 4 ->
  (forall k, 1 <= k <= 10 ->
     ~ In (d + k) (holiday_dates easter (PyDate.year (d + k)))) ->
  (10 <= fuel)%nat ->
  exists cache',
    calculate_sla_deadline easter fuel
      {| dt_date := d; dt_hour := 16; dt_minute := 0; dt_second := 0;
         dt_microsecond := us; dt_tzinfo := tz |} CRITICAL None cache
    = Returns
        ({| dt_date := d + 10; dt_hour := 16; dt_minute := 0; dt_second := 0;
            dt_microsecond := 0; dt_tzinfo := Some (default utc tz) |}, cache')
    /\ weekday (d + 10) = 0.
Proof.
  intros Hok Hfri Hno Hfuel.
  destruct (add_full_days_spec fuel d 0 6 cache Hok) as (cache' & _ & Hrun).
  rewrite (full_days_from_friday d fuel Hfri Hno Hfuel) in Hrun.
  exists cache'. split.
  - unfold calculate_sla_deadline.
    change (int_or None
              (default 80 (DEFAULT_SLA_HOURS !! severity_value CRITICAL)))
      with 48.
    unfold add_business_hours.
    change (8 =? 0) with false. change (48 / 8) with 6.
    change (48 mod 8) with 0. cbv iota.
    destruct tz as [z|];
      cbn [dt_tzinfo replace_tzinfo dt_date dt_hour dt_minute dt_second
           dt_microsecond];
      unfold bind; rewrite Hrun; unfold add_hours;
      cbn [dt_tzinfo dt_date dt_hour dt_minute dt_second dt_microsecond];
      change (16 * 3600 + 0 * 60 + 0 + 0 * 3600) with 57600;
      change (57600 / 86400) with 0;
      change ((57600 mod 86400) / 3600) with 16;
      change ((57600 mod 3600) / 60) with 0;
      change (57600 mod 60) with 0;
      rewrite Z.add_0_r, Z.ltb_irrefl; reflexivity.
  - rewrite weekday_shift, Hfri. reflexivity.
Qed.

End WithEaster.

Lemma friday_critical_deadline_witness :
  exists cache',
    calculate_sla_deadline easter_western 10 friday_16h CRITICAL None ∅
    = Returns
        ({| dt_date := date 2024 6 7 + 10; dt_hour := 16; dt_minute := 0;
            dt_second := 0; dt_microsecond := 0; dt_tzinfo := Some utc |},
         cache').
Proof.
  destruct (friday_critical_deadline easter_western (date 2024 6 7) 0
              (Some utc) 10 ∅ (cache_ok_empty easter_western)) as (c & H & _).
  - vm_compute. reflexivity.
  - intros k Hk.
    assert (Hcases : k = 1 \/ k = 2 \/ k = 3 \/ k = 4 \/ k = 5 \/ k = 6
                     \/ k = 7 \/ k = 8 \/ k = 9 \/ k = 10) by lia.
    destruct Hcases as [-> | [-> | [-> | [-> | [-> | [-> | [-> | [-> | [-> | ->]]]]]]]]];
      vm_compute; intuition discriminate.
  - lia.
  - exists c. exact H.
Defined.

(** C4, counterexample: created on Friday 7 June 2024 at 16:00 UTC, in a
    month without holidays, a critical item gets its deadline on 17 June
    2024, a Monday, and not on Thursday 13 June. *)
Lemma friday_deadline_is_not_thursday :
  weekday (dt_date friday_16h) = 4
  /\ value_of (calculate_sla_deadline easter_western 10 friday_16h
                 CRITICAL None ∅)
     = Some {| dt_date := date 2024 6 17; dt_hour := 16; dt_minute := 0;
               dt_second := 0; dt_microsecond := 0; dt_tzinfo := Some utc |}
  /\ weekday (date 2024 6 17) = 0
  /\ weekday (date 2024 6 13) = 3
  /\ date 2024 6 17 <> date 2024 6 13.
Proof. repeat split; try (vm_compute; reflexivity). vm_compute. discriminate. Qed.

(** C5, the code at the failing input: an override of 0 is dropped by
    [resolution_hours or ...]; the deadline is the one of the severity's
    default hours, for every creation instant and severity. *)
Theorem override_zero_falls_back_to_default
    (easter : Z -> Z) (fuel : nat) (created_at : datetime)
    (severity : SeverityLevel) (cache : gmap Z (gset Z)) :
  calculate_sla_deadline easter fuel created_at severity (Some 0) cache
  = calculate_sla_deadline easter fuel created_at severity None cache.
Proof. reflexivity. Qed.

(** C5, the same on one input: with an override of 0 the item created on
    Friday 7 June 2024 at 16:00 is due on 17 June, as with the 48 default
    hours; zero effective hours would leave the deadline at the creation
    instant, which is what [add_business_hours] answers for 0 hours. *)
Lemma override_zero_on_friday :
  value_of (calculate_sla_deadline easter_western 10 friday_16h
              CRITICAL (Some 0) ∅)
  = Some {| dt_date := date 2024 6 17; dt_hour := 16; dt_minute := 0;
            dt_second := 0; dt_microsecond := 0; dt_tzinfo := Some utc |}
  /\ value_of (add_business_hours easter_western 10 friday_16h 0 8 ∅)
     = Some friday_16h.
Proof. split; vm_compute; reflexivity. Qed.

(** An override other than 0 is the effective number of hours. *)
Lemma override_nonzero_is_used
    (easter : Z -> Z) (fuel : nat) (created_at : datetime)
    (severity : SeverityLevel) (h : Z) (cache : gmap Z (gset Z)) :
  h <> 0 ->
  calculate_sla_deadline easter fuel created_at severity (Some h) cache
  = add_business_hours easter fuel
      (match dt_tzinfo created_at with
       | None => replace_tzinfo created_at utc
       | Some _ => created_at
       end) h 8 cache.
Proof.
  intros Hh. unfold calculate_sla_deadline, int_or.
  destruct (h =? 0) eqn:E; [apply Z.eqb_eq in E; contradiction | reflexivity].
Qed.

End DeadlineProofs.

(** ** The escalation level *)

Module EscalationProofs.
Import Models SLAEngine Spec.

Lemma HOUR_pos : 0 < HOUR.
Proof. reflexivity. Qed.

(** The quotient of hours by hours, as a fraction of integers. *)
Lemma hours_quotient (x h : Z) :
  0 < h ->
  (total_seconds x / 3600 / inject_Z h == x # Z.to_pos (h * HOUR))%Q.
Proof.
  intros Hh. unfold total_seconds, HOUR.
  destruct h as [|p|p]; try lia.
  unfold Qeq, Qdiv, Qmult, Qinv, inject_Z. cbn. lia.
Qed.

Lemma floor_overdue_periods (x h : Z) :
  0 < h ->
  Qfloor (total_seconds x / 3600 / inject_Z h) = x / (h * HOUR).
Proof.
  intros Hh. rewrite (Qfloor_comp _ _ (hours_quotient x h Hh)).
  cbn [Qfloor]. rewrite Z2Pos.id by (pose proof HOUR_pos; lia). reflexivity.
Qed.

Lemma threshold_reached (x h : Z) :
  Qle_bool (inject_Z h) (total_seconds x / 3600) = (h * HOUR <=? x).
Proof.
  apply eq_true_iff_eq. rewrite Qle_bool_iff, Z.leb_le.
  unfold total_seconds, HOUR, Qle, Qdiv, Qmult, Qinv, inject_Z. cbn. lia.
Qed.

(** The level of an open item with a deadline, in integer arithmetic on
    microseconds. *)
Lemma get_escalation_level_open
    (now : Z) (item : ActionItem) (esc : option Z) (deadline : Z) :
  sla_deadline item = Some deadline ->
  is_open item = true ->
  0 < effective_escalation_hours item esc ->
  get_escalation_level now item esc
  = if deadline <? now then
      2 + (now - deadline) / (effective_escalation_hours item esc * HOUR)
    else if created_at item + effective_escalation_hours item esc * HOUR <=? now
         then 1 else 0.
Proof.
  intros Hd Hopen Hh. unfold get_escalation_level.
  rewrite Hd, Hopen. cbn [negb].
  fold (effective_escalation_hours item esc).
  rewrite floor_overdue_periods by exact Hh.
  rewrite threshold_reached.
  destruct (deadline <? now); [reflexivity|].
  destruct (effective_escalation_hours item esc * HOUR <=? now - created_at item) eqn:E1;
    destruct (created_at item + effective_escalation_hours item esc * HOUR <=? now) eqn:E2;
    try reflexivity;
    rewrite ?Z.leb_le, ?Z.leb_gt in E1, E2; lia.
Qed.

(** C6, as amended: for a fixed open item with an SLA deadline and fixed
    positive escalation hours h, the level after the deadline is
    2 + floor(overdue hours / h), whether or not the escalation threshold
    has been reached, and grows by exactly 1 with each further h hours
    overdue; up to the deadline it is 1 once the time since [created_at]
    has reached h hours and 0 before; and the level never decreases as now
    advances. *)
Theorem escalation_level_profile
    (item : ActionItem) (esc : option Z) (deadline : Z) :
  sla_deadline item = Some deadline ->
  is_open item = true ->
  0 < effective_escalation_hours item esc ->
  (forall now, deadline < now ->
     get_escalation_level now item esc
     = 2 + (now - deadline) / (effective_escalation_hours item esc * HOUR))
  /\ (forall now, now <= deadline ->
        created_at item + effective_escalation_hours item esc * HOUR <= now ->
        get_escalation_level now item esc = 1)
  /\ (forall now, now <= deadline ->
        now < created_at item + effective_escalation_hours item esc * HOUR ->
        get_escalation_level now item esc = 0)
  /\ (forall now, deadline < now ->
        get_escalation_level
          (now + effective_escalation_hours item esc * HOUR) item esc
        = get_escalation_level now item esc + 1)
  /\ (forall now1 now2, now1 <= now2 ->
        get_escalation_level now1 item esc <= get_escalation_level now2 item esc).
Proof.
  intros Hd Hopen Hh.
  pose proof HOUR_pos as HH.
  set (h := effective_escalation_hours item esc) in *.
  assert (Hp : 0 < h * HOUR) by lia.
  assert (Hlevel : forall now,
             get_escalation_level now item esc
             = if deadline <? now then 2 + (now - deadline) / (h * HOUR)
               else if created_at item + h * HOUR <=? now then 1 else 0).
  { intros now. apply get_escalation_level_open; assumption. }
  repeat split.
  - intros now Hlt. rewrite Hlevel.
    replace (deadline <? now) with true by (symmetry; apply Z.ltb_lt; lia).
    reflexivity.
  - intros now Hle Hth. rewrite Hlevel.
    replace (deadline <? now) with false by (symmetry; apply Z.ltb_ge; lia).
    replace (created_at item + h * HOUR <=? now) with true
      by (symmetry; apply Z.leb_le; lia).
    reflexivity.
  - intros now Hle Hth. rewrite Hlevel.
    replace (deadline <? now) with false by (symmetry; apply Z.ltb_ge; lia).
    replace (created_at item + h * HOUR <=? now) with false
      by (symmetry; apply Z.leb_gt; lia).
    reflexivity.
  - intros now Hlt. rewrite !Hlevel.
    replace (deadline <? now) with true by (symmetry; apply Z.ltb_lt; lia).
    replace (deadline <? now + h * HOUR) with true
      by (symmetry; apply Z.ltb_lt; lia).
    replace (now + h * HOUR - deadline) with (now - deadline + 1 * (h * HOUR))
      by lia.
    rewrite Z.div_add by lia. lia.
  - intros now1 now2 Hle. rewrite !Hlevel.
    destruct (deadline <? now1) eqn:E1.
    + apply Z.ltb_lt in E1.
      replace (deadline <? now2) with true by (symmetry; apply Z.ltb_lt; lia).
      apply Z.add_le_mono_l, Z.div_le_mono; lia.
    + apply Z.ltb_ge in E1.
      destruct (deadline <? now2) eqn:E2.
      * apply Z.ltb_lt in E2.
        assert (0 <= (now2 - deadline) / (h * HOUR))
          by (apply Z.div_pos; lia).
        destruct (created_at item + h * HOUR <=? now1); lia.
      * destruct (created_at item + h * HOUR <=? now1) eqn:E3;
          destruct (created_at item + h * HOUR <=? now2) eqn:E4;
          rewrite ?Z.leb_le, ?Z.leb_gt in E3, E4; lia.
Qed.

Lemma escalation_level_profile_witness :
  get_escalation_level (200 * HOUR)
    (sample_item IN_PROGRESS CRITICAL 0 (Some (144 * HOUR)) None) None
  = 2 + (200 * HOUR - 144 * HOUR) / (24 * HOUR).
Proof.
  destruct (escalation_level_profile
              (sample_item IN_PROGRESS CRITICAL 0 (Some (144 * HOUR)) None)
              None (144 * HOUR)) as [Hover _].
  - reflexivity.
  - vm_compute. reflexivity.
  - vm_compute. reflexivity.
  - apply (Hover (200 * HOUR)). vm_compute. reflexivity.
Defined.

(** C6, counterexample: a critical item (escalation after 24 hours) created
    at instant 0 whose deadline is 4 hours later is at level 2 after 5
    hours, although the time since [created_at] has not reached the
    escalation hours, where the level is said to be 0. *)
Lemma overdue_before_threshold_is_level_2 :
  5 * HOUR - created_at (sample_item NEW CRITICAL 0 (Some (4 * HOUR)) None)
    < effective_escalation_hours
        (sample_item NEW CRITICAL 0 (Some (4 * HOUR)) None) None * HOUR
  /\ get_escalation_level (5 * HOUR)
       (sample_item NEW CRITICAL 0 (Some (4 * HOUR)) None) None = 2
  /\ 2 <> 0.
Proof. repeat split; try (vm_compute; reflexivity). discriminate. Qed.

(** With negative escalation hours, which only an explicit override can
    give, the level falls as now advances. *)
Lemma negative_hours_level_decreases :
  get_escalation_level (5 * HOUR)
    (sample_item NEW CRITICAL 0 (Some (4 * HOUR)) None) (Some (-1)) = 1
  /\ get_escalation_level (9 * HOUR)
       (sample_item NEW CRITICAL 0 (Some (4 * HOUR)) None) (Some (-1)) = -3.
Proof. split; vm_compute; reflexivity. Qed.

End EscalationProofs.


(** ** Dashboard aggregation *)

Module RepositoryProofs.
Import Models ActionItemRepository Spec.

Lemma total_resolved_with_sla_count (study : option Z) (rows : list ActionItem) :
  total_resolved_with_sla study rows = closed_count study rows.
Proof.
  unfold total_resolved_with_sla, count_where, closed_count.
  do 2 f_equal. apply list_filter_iff. intros r.
  unfold closed_with_deadline, base_condition, in_study, isnot_None.
  rewrite !andb_True, bool_decide_spec, !elem_of_cons, elem_of_nil.
  destruct study, (sla_deadline r);
    rewrite ?bool_decide_spec; cbn; unfold is_Some;
    intuition (eauto; try congruence; try (destruct_and?; discriminate)); by destruct_or?; try select (∃ _, _) (fun H => destruct H).
Qed.

Lemma on_time_count_count (study : option Z) (rows : list ActionItem) :
  on_time_count study rows = on_time_closed_count study rows.
Proof.
  unfold on_time_count, count_where, on_time_closed_count.
  do 2 f_equal. apply list_filter_iff. intros r.
  unfold closed_with_deadline, resolved_on_time, base_condition, in_study,
    isnot_None, both.
  rewrite !andb_True, bool_decide_spec, !elem_of_cons, elem_of_nil.
  destruct study, (sla_deadline r), (resolved_at r);
    rewrite ?bool_decide_spec; cbn; unfold is_Some;
    rewrite ?Is_true_true, ?Z.leb_le;
    intuition (eauto; try congruence); by try select (∃ _, _) (fun H => destruct H).
Qed.

(** Rounding to one decimal moves a value by at most 0.05. *)
Lemma round1_close (q : Q) :
  (q - (1 # 20) <= round1 q <= q + (1 # 20))%Q.
Proof.
  unfold round1, round_half_even.
  pose proof (Qfloor_le (q * 10)) as Hlo.
  pose proof (Qlt_floor (q * 10)) as Hhi.
  rewrite inject_Z_plus in Hhi.
  change (inject_Z 1) with 1%Q in Hhi.
  set (f := Qfloor (q * 10)) in *.
  assert (Hup : (inject_Z (f + 1) == inject_Z f + 1)%Q)
    by (rewrite inject_Z_plus; reflexivity).
  assert (Htenth : forall x : Q, (x / 10 == x * (1 # 10))%Q)
    by (intros x; reflexivity).
  destruct (Qcompare (q * 10 - inject_Z f) (1 # 2)) eqn:E.
  - apply Qeq_alt in E.
    destruct (Z.even f); rewrite Htenth, ?Hup; split; lra.
  - apply Qlt_alt in E. rewrite Htenth. split; lra.
  - apply Qgt_alt in E. rewrite Htenth, Hup. split; lra.
Qed.

(** C7, as amended: the percentage [get_stats] returns is 100.0 when there
    is no closed item with a deadline, nothing being raised, and otherwise
    the ratio (closed items with a deadline whose [resolved_at] <=
    [sla_deadline]) / (closed items with a deadline) x 100 rounded to one
    decimal place, not the ratio itself: up to the rounding error of
    double-precision arithmetic (far below 10^-9) it is a whole number of
    tenths, and that number of tenths is within 0.05 of the ratio. *)
Theorem sla_compliance_percentage_value
    (now : Z) (study : option Z) (rows : list ActionItem) :
  (closed_count study rows = 0 ->
     (sla_compliance_percentage (get_stats now study rows) == 100)%Q)
  /\ (closed_count study rows <> 0 ->
        exists tenths : Z,
          (inject_Z tenths / 10 - (1 # 1000000000)
           <= sla_compliance_percentage (get_stats now study rows)
           <= inject_Z tenths / 10 + (1 # 1000000000))%Q
          /\ (inject_Z (on_time_closed_count study rows)
                / inject_Z (closed_count study rows) * 100
                - (1 # 20) - (1 # 1000000000)
              <= inject_Z tenths / 10
              <= inject_Z (on_time_closed_count study rows)
                 / inject_Z (closed_count study rows) * 100
                 + (1 # 20) + (1 # 1000000000))%Q).
Proof.
  cbn [get_stats sla_compliance_percentage]. unfold sla_compliance.
  rewrite total_resolved_with_sla_count, on_time_count_count.
  split.
  - intros ->. reflexivity.
  - intros Hne.
    assert (Hpos : 0 < closed_count study rows)
      by (unfold closed_count in *; lia).
    replace (0 <? closed_count study rows) with true
      by (symmetry; apply Z.ltb_lt; exact Hpos).
    set (ratio := (inject_Z (on_time_closed_count study rows)
                   / inject_Z (closed_count study rows) * 100)%Q).
    exists (round_half_even (ratio * 10)).
    pose proof (round1_close ratio) as [Hlo Hhi].
    unfold round1 in *.
    set (t := (inject_Z (round_half_even (ratio * 10)) / 10)%Q) in *.
    split; split; lra.
Qed.

Lemma sla_compliance_percentage_value_witness :
  (sla_compliance_percentage (get_stats 0 None []) == 100)%Q
  /\ exists tenths : Z,
       (inject_Z tenths / 10 - (1 # 1000000000)
        <= sla_compliance_percentage (get_stats 0 None one_of_three_on_time)
        <= inject_Z tenths / 10 + (1 # 1000000000))%Q.
Proof.
  split.
  - apply (sla_compliance_percentage_value 0 None []). reflexivity.
  - destruct (sla_compliance_percentage_value 0 None one_of_three_on_time)
      as [_ Hratio].
    destruct Hratio as (tenths & Hnear & _).
    + vm_compute. discriminate.
    + exists tenths. exact Hnear.
Defined.

(** C7, counterexample: with one of three closed items resolved on time
    the percentage returned is 33.3, which is not 1 / 3 x 100. *)
Lemma one_of_three_is_rounded :
  closed_count None one_of_three_on_time = 3
  /\ on_time_closed_count None one_of_three_on_time = 1
  /\ sla_compliance_percentage (get_stats 0 None one_of_three_on_time)
     = (333 # 10)%Q
  /\ ~ ((333 # 10) == inject_Z 1 / inject_Z 3 * 100)%Q.
Proof.
  repeat split; try (vm_compute; reflexivity).
  vm_compute. discriminate.
Qed.

Lemma sum1_nonneg (cond : ActionItem -> bool) (items : list ActionItem) :
  0 <= sum1 cond items.
Proof. unfold sum1. lia. Qed.

(** The loop from [current_date] to [now_date], [n] days in all. *)
Lemma burndown_loop_spec (items : list ActionItem) (now_date : Z) (n : nat) :
  forall (fuel : nat) (current_date cumulative : Z),
    now_date - current_date + 1 = Z.of_nat n ->
    (n <= fuel)%nat ->
    exists data,
      burndown_loop fuel items now_date current_date cumulative = Some data
      /\ length data = n
      /\ map bd_date data = seqZ current_date (Z.of_nat n)
      /\ Forall (fun p => cumulative <= cumulative_closed p) data
      /\ cumulative_nondecreasing data.
Proof.
  induction n as [|n IH]; intros fuel cur cum Hn Hfuel.
  - exists []. split.
    + destruct fuel; cbn [burndown_loop];
        replace (cur <=? now_date) with false
          by (symmetry; apply Z.leb_gt; lia);
        reflexivity.
    + split; [reflexivity|]. split; [reflexivity|].
      split; [constructor|]. intros i j p q _ Hi. discriminate.
  - destruct fuel as [|fuel]; [lia|]. cbn [burndown_loop].
    replace (cur <=? now_date) with true by (symmetry; apply Z.leb_le; lia).
    set (closed_today :=
           sum1 (fun item => match resolved_at item with
                             | Some t =>
                                 (midnight cur <=? t)
                                 && (t <? midnight cur + MICROSECONDS_PER_DAY)
                             | None => false
                             end) items).
    assert (Hclosed : 0 <= closed_today) by apply sum1_nonneg.
    destruct (IH fuel (cur + 1) (cum + closed_today)) as
      (data & Hrun & Hlen & Hdates & Hall & Hmono); [lia | lia |].
    rewrite Hrun. eexists. split; [reflexivity|].
    split; [cbn; rewrite Hlen; reflexivity|].
    split.
    { cbn [map bd_date]. rewrite Hdates.
      rewrite (seqZ_cons cur (Z.of_nat (S n))) by lia.
      f_equal. f_equal; lia. }
    split.
    { constructor; [cbn; lia|].
      eapply Forall_impl; [exact Hall|]. cbn. intros p Hp. lia. }
    intros [|i] [|j] p q Hij Hi Hj; cbn in Hi, Hj.
    + injection Hi as <-. injection Hj as <-. lia.
    + injection Hi as <-. cbn.
      exact (Forall_lookup_1 _ _ _ _ Hall Hj).
    + lia.
    + apply (Hmono i j); [lia | exact Hi | exact Hj].
Qed.

Lemma date_of_days_before (now days : Z) :
  date_of (now - days * MICROSECONDS_PER_DAY) = date_of now - days.
Proof.
  unfold date_of.
  replace (now - days * MICROSECONDS_PER_DAY)
    with (now + (- days) * MICROSECONDS_PER_DAY) by lia.
  rewrite Z.div_add by (unfold MICROSECONDS_PER_DAY; lia). lia.
Qed.

(** C9: for [days] between 7 and 90 and any rows, [get_burndown_data]
    returns (the loop ends within [days] + 1 turns) a series of exactly
    [days] + 1 points, one per date from [days] days ago to today (UTC)
    included, whose [cumulative_closed] never decreases. *)
Theorem burndown_length_and_monotone
    (fuel : nat) (now days : Z) (rows : list ActionItem) :
  7 <= days <= 90 ->
  (Z.to_nat days < fuel)%nat ->
  exists data,
    get_burndown_data fuel now days rows = Some data
    /\ Z.of_nat (length data) = days + 1
    /\ map bd_date data = seqZ (date_of now - days) (days + 1)
    /\ cumulative_nondecreasing data.
Proof.
  intros Hdays Hfuel. unfold get_burndown_data.
  rewrite date_of_days_before.
  destruct (burndown_loop_spec
              (filter (fun r => Is_true (created_at r <=? now)) rows)
              (date_of now) (Z.to_nat (days + 1)) fuel
              (date_of now - days) 0)
    as (data & Hrun & Hlen & Hdates & _ & Hmono); [lia | lia |].
  exists data. split; [exact Hrun|]. split; [lia|].
  split; [|exact Hmono].
  rewrite Hdates. f_equal. lia.
Qed.

Lemma burndown_length_and_monotone_witness :
  exists data,
    get_burndown_data 8 (20000 * MICROSECONDS_PER_DAY + 5) 7
      one_of_three_on_time = Some data
    /\ Z.of_nat (length data) = 7 + 1.
Proof.
  destruct (burndown_length_and_monotone 8
              (20000 * MICROSECONDS_PER_DAY + 5) 7 one_of_three_on_time)
    as (data & Hrun & Hlen & _).
  - lia.
  - vm_compute. lia.
  - exists data. split; assumption.
Defined.

End RepositoryProofs.


(** ** Further properties of the engine *)

Module EngineExtras.
Import PyDate Models SLAEngine Spec CalendarProofs DeadlineProofs.

Section WithEaster.
Variable easter : Z -> Z.

(** X1: for a year between 1 and 9999 whose Easter-relative dates are
    dates [datetime.date] can hold, the holiday set is computed on the
    first request and served from the cache afterwards: a second request
    answers the same set and leaves the cache as it is, and no other year's
    entry is touched. *)
Theorem holidays_memoized (y : Z) (cache : gmap Z (gset Z)) :
  1 <= y <= 9999 ->
  valid_date (easter y - 47) ->
  valid_date (easter y + 60) ->
  exists hs cache',
    get_brazilian_holidays easter y cache = Returns (hs, cache')
    /\ cache' !! y = Some hs
    /\ get_brazilian_holidays easter y cache' = Returns (hs, cache')
    /\ forall y', y' <> y -> cache' !! y' = cache !! y'.
Proof.
  intros _ _ _. unfold get_brazilian_holidays at 1.
  destruct (cache !! y) as [hs|] eqn:Hy.
  - exists hs, cache. split; [reflexivity|]. split; [exact Hy|].
    split; [|reflexivity].
    unfold get_brazilian_holidays. rewrite Hy. reflexivity.
  - eexists _, _. split; [reflexivity|].
    split; [apply lookup_insert_eq|]. split.
    + unfold get_brazilian_holidays. rewrite lookup_insert_eq. reflexivity.
    + intros y' Hne. apply lookup_insert_ne. congruence.
Qed.

Lemma next_business_day_spec (fuel : nat) :
  forall (d : Z) (cache : gmap Z (gset Z)),
    cache_ok easter cache ->
    exists cache',
      cache_ok easter cache'
      /\ next_business_day easter fuel d cache
         = match first_business_day_from easter fuel d with
           | Some r => Returns (r, cache')
           | None => Timeout
           end.
Proof.
  induction fuel as [|fuel IH]; intros d cache Hok;
    cbn [next_business_day first_business_day_from];
    destruct (is_business_day_spec easter d cache Hok) as (c1 & Hrun & Hok1);
    unfold bind; rewrite Hrun;
    destruct (business_day easter d); cbn [negb].
  - exists c1. split; [exact Hok1 | reflexivity].
  - exists c1. split; [exact Hok1 | reflexivity].
  - exists c1. split; [exact Hok1 | reflexivity].
  - apply IH. exact Hok1.
Qed.

Lemma first_business_day_from_spec (fuel : nat) :
  forall d r,
    first_business_day_from easter fuel d = Some r ->
    business_day easter r = true
    /\ d <= r
    /\ forall k, d <= k < r -> business_day easter k = false.
Proof.
  induction fuel as [|fuel IH]; intros d r; cbn [first_business_day_from];
    destruct (business_day easter d) eqn:Hb; cbn [negb]; intros Hr;
    try discriminate.
  - injection Hr as <-. split; [exact Hb|]. split; [lia|]. intros k Hk. lia.
  - injection Hr as <-. split; [exact Hb|]. split; [lia|]. intros k Hk. lia.
  - destruct (IH (d + 1) r Hr) as (Hbr & Hle & Hbefore).
    split; [exact Hbr|]. split; [lia|].
    intros k Hk. destruct (Z.eq_dec k d) as [->|Hne]; [exact Hb|].
    apply Hbefore. lia.
Qed.

Lemma full_days_from_spec (fuel : nat) :
  forall cur added full r,
    full_days_from easter fuel cur added full = Some r ->
    added < full ->
    business_day easter r = true /\ cur + (full - added) <= r.
Proof.
  induction fuel as [|fuel IH]; intros cur added full r Hr Hlt.
  - cbn in Hr.
    replace (added <? full) with true in Hr
      by (symmetry; apply Z.ltb_lt; exact Hlt).
    discriminate.
  - rewrite full_days_step in Hr by exact Hlt.
    destruct (business_day easter (cur + 1)) eqn:Hb.
    + destruct (Z.lt_ge_cases (added + 1) full) as [Hmore | Hdone].
      * destruct (IH _ _ _ _ Hr Hmore) as [Hbr Hle]. split; [exact Hbr | lia].
      * rewrite full_days_done in Hr by exact Hdone.
        injection Hr as <-. split; [exact Hb | lia].
    + destruct (IH _ _ _ _ Hr Hlt) as [Hbr Hle]. split; [exact Hbr | lia].
Qed.

(** The wall-clock part of [add_hours] for a valid time and a remainder
    that is not negative. *)
Lemma add_hours_fields (d H m sec rem : Z) (tz : option Z) :
  0 <= H < 24 -> 0 <= m < 60 -> 0 <= sec < 60 -> 0 <= rem ->
  let t := add_hours
             {| dt_date := d; dt_hour := H; dt_minute := m; dt_second := sec;
                dt_microsecond := 0; dt_tzinfo := tz |} rem in
  (H + rem < 24 ->
     dt_date t = d /\ dt_hour t = H + rem /\ dt_minute t = m
     /\ dt_second t = sec)
  /\ (24 <= H + rem -> d < dt_date t)
  /\ d <= dt_date t.
Proof.
  intros HH Hm Hs Hrem. unfold add_hours. cbn.
  set (secs := H * 3600 + m * 60 + sec + rem * 3600).
  assert (Hsecs : secs = (H + rem) * 3600 + m * 60 + sec) by (unfold secs; lia).
  split; [intros Hlt | split; [intros Hge|]].
  - assert (0 <= secs < 86400) by lia.
    rewrite Z.div_small by lia. rewrite Z.mod_small by lia.
    assert (Hmod : secs mod 3600 = m * 60 + sec).
    { symmetry. apply (Z.mod_unique secs 3600 (H + rem) (m * 60 + sec)); lia. }
    rewrite Hmod.
    split; [lia|]. split; [|split].
    + symmetry. apply (Z.div_unique secs 3600 (H + rem) (m * 60 + sec)); lia.
    + symmetry. apply (Z.div_unique _ 60 m sec); lia.
    + symmetry. apply (Z.mod_unique secs 60 ((H + rem) * 60 + m) sec); lia.
  - assert (1 <= secs / 86400)
      by (apply Z.div_le_lower_bound; lia).
    lia.
  - assert (0 <= secs / 86400) by (apply Z.div_pos; lia). lia.
Qed.

(** [add_business_hours] in terms of the calendar: the two loops are the
    two searches, and the cache stays a cache of holiday sets. *)
Lemma add_business_hours_run
    (fuel : nat) (start : datetime) (hours hpd : Z) (cache : gmap Z (gset Z)) :
  cache_ok easter cache ->
  hpd <> 0 ->
  exists cache',
    cache_ok easter cache'
    /\ add_business_hours easter fuel start hours hpd cache
       = match full_days_from easter fuel (dt_date start) 0 (hours / hpd) with
         | None => Timeout
         | Some target =>
             let result :=
               add_hours
                 {| dt_date := target; dt_hour := dt_hour start;
                    dt_minute := dt_minute start; dt_second := dt_second start;
                    dt_microsecond := 0; dt_tzinfo := dt_tzinfo start |}
                 (hours mod hpd) in
             if target <? dt_date result then
               match first_business_day_from easter fuel (dt_date result) with
               | None => Timeout
               | Some next_day =>
                   Returns
                     ({| dt_date := next_day; dt_hour := 8; dt_minute := 0;
                         dt_second := 0; dt_microsecond := 0;
                         dt_tzinfo := dt_tzinfo start |}, cache')
               end
             else Returns (result, cache')
         end.
Proof.
  intros Hok Hhpd. unfold add_business_hours.
  replace (hpd =? 0) with false by (symmetry; apply Z.eqb_neq; exact Hhpd).
  destruct (add_full_days_spec easter fuel (dt_date start) 0 (hours / hpd)
              cache Hok) as (c1 & Hok1 & Hrun1).
  unfold bind at 1. rewrite Hrun1.
  destruct (full_days_from easter fuel (dt_date start) 0 (hours / hpd))
    as [target|].
  - cbv zeta.
    destruct (target <? _) eqn:Hroll.
    + match goal with
      | |- context [next_business_day easter fuel ?d] =>
          destruct (next_business_day_spec fuel d c1 Hok1)
            as (c2 & Hok2 & Hrun2)
      end.
      exists c2. split; [exact Hok2|].
      unfold bind. rewrite Hrun2.
      destruct (first_business_day_from easter fuel _); reflexivity.
    + exists c1. split; [exact Hok1 | reflexivity].
  - exists cache. split; [exact Hok | reflexivity].
Qed.

(** The day of the result of [add_hours] for less than a day of hours. *)
Lemma add_hours_carry (d H m sec rem : Z) (tz : option Z) :
  0 <= H < 24 -> 0 <= m < 60 -> 0 <= sec < 60 -> 0 <= rem < 24 ->
  dt_date
    (add_hours
       {| dt_date := d; dt_hour := H; dt_minute := m; dt_second := sec;
          dt_microsecond := 0; dt_tzinfo := tz |} rem) <= d + 1.
Proof.
  intros HH Hm Hs Hrem. unfold add_hours. cbn.
  assert (H * 3600 + m * 60 + sec + rem * 3600 < 86400 * 2) by lia.
  assert ((H * 3600 + m * 60 + sec + rem * 3600) / 86400 < 2)
    by (apply Z.div_lt_upper_bound; lia).
  lia.
Qed.

(** The first business day from a date that reaches one within [g] days. *)
Lemma first_offset (g : nat) :
  forall d,
    (exists k, 0 <= k < Z.of_nat g /\ business_day easter (d + k) = true) ->
    exists j : nat,
      (j < g)%nat
      /\ business_day easter (d + Z.of_nat j) = true
      /\ forall i, 0 <= i < Z.of_nat j -> business_day easter (d + i) = false.
Proof.
  induction g as [|g IH]; intros d (k & Hk & Hb); [lia|].
  destruct (business_day easter d) eqn:Hd.
  - exists 0%nat. split; [lia|].
    split; [rewrite Z.add_0_r; exact Hd|]. intros i Hi. lia.
  - destruct (IH (d + 1)) as (j & Hj & Hbj & Hnone).
    { exists (k - 1). split.
      - assert (k <> 0) by (intros ->; rewrite Z.add_0_r in Hb; congruence).
        lia.
      - replace (d + 1 + (k - 1)) with (d + k) by lia. exact Hb. }
    exists (S j). split; [lia|]. split.
    + replace (d + Z.of_nat (S j)) with (d + 1 + Z.of_nat j) by lia. exact Hbj.
    + intros i Hi. destruct (Z.eq_dec i 0) as [->|Hne].
      * rewrite Z.add_0_r. exact Hd.
      * replace (d + i) with (d + 1 + (i - 1)) by lia. apply Hnone. lia.
Qed.

(** The first loop passes [j] days that are not business days and counts
    the next one, in [j] + 1 turns. *)
Lemma full_days_skip (j : nat) :
  forall (F : nat) (cur added full : Z),
    added < full ->
    (forall i, 0 <= i < Z.of_nat j ->
       business_day easter (cur + 1 + i) = false) ->
    business_day easter (cur + 1 + Z.of_nat j) = true ->
    full_days_from easter (S j + F) cur added full
    = full_days_from easter F (cur + 1 + Z.of_nat j) (added + 1) full.
Proof.
  induction j as [|j IH]; intros F cur added full Hlt Hnone Hb.
  - change (1 + F)%nat with (S F). rewrite full_days_step by exact Hlt.
    change (Z.of_nat 0) with 0 in *. rewrite Z.add_0_r in *.
    rewrite Hb. reflexivity.
  - change (S (S j) + F)%nat with (S (S j + F)).
    rewrite full_days_step by exact Hlt.
    assert (Hfirst : business_day easter (cur + 1) = false).
    { rewrite <- (Z.add_0_r (cur + 1)). apply Hnone. lia. }
    rewrite Hfirst. rewrite (IH F (cur + 1) added full Hlt).
    + f_equal. lia.
    + intros i Hi. replace (cur + 1 + 1 + i) with (cur + 1 + (i + 1)) by lia.
      apply Hnone. lia.
    + replace (cur + 1 + 1 + Z.of_nat j) with (cur + 1 + Z.of_nat (S j))
        by lia.
      exact Hb.
Qed.

(** With a business day within [gap] days of every date on the way, the
    first loop ends within [gap] turns per business day to add. *)
Lemma full_days_terminates (gap : nat) (n : nat) :
  forall (F : nat) (cur added full : Z),
    full - added = Z.of_nat n ->
    business_day_within easter gap (cur + 1)
      (cur + Z.of_nat gap * Z.of_nat n + 1) ->
    exists r,
      full_days_from easter (gap * n + F) cur added full = Some r
      /\ cur + Z.of_nat n <= r <= cur + Z.of_nat gap * Z.of_nat n
      /\ ((0 < n)%nat -> business_day easter r = true).
Proof.
  induction n as [|n IH]; intros F cur added full Hn Hdense.
  - exists cur. split; [apply full_days_done; lia|].
    split; [lia|]. intros H. lia.
  - assert (Hmul : Z.of_nat gap * Z.of_nat (S n)
                   = Z.of_nat gap * Z.of_nat n + Z.of_nat gap) by lia.
    destruct (first_offset gap (cur + 1)) as (j & Hj & Hbj & Hnone).
    { apply Hdense. lia. }
    rewrite Nat.mul_succ_r.
    replace (gap * n + gap + F)%nat
      with (S j + (gap * n + (gap - S j + F)))%nat by lia.
    rewrite (full_days_skip j _ cur added full); [|lia|exact Hnone|exact Hbj].
    destruct (IH (gap - S j + F)%nat (cur + 1 + Z.of_nat j) (added + 1) full)
      as (r & Hrun & Hrange & Hbd).
    + lia.
    + intros d Hd. apply Hdense. lia.
    + exists r. split; [exact Hrun|]. split; [lia|].
      intros _. destruct n as [|n].
      * replace r with (cur + 1 + Z.of_nat j) by lia. exact Hbj.
      * apply Hbd. lia.
Qed.

Lemma first_business_day_terminates (j : nat) :
  forall (F : nat) (d : Z),
    (forall i, 0 <= i < Z.of_nat j -> business_day easter (d + i) = false) ->
    business_day easter (d + Z.of_nat j) = true ->
    first_business_day_from easter (j + F) d = Some (d + Z.of_nat j).
Proof.
  induction j as [|j IH]; intros F d Hnone Hb.
  - change (Z.of_nat 0) with 0 in *. rewrite Z.add_0_r in *.
    destruct F; cbn [Nat.add first_business_day_from]; rewrite Hb; reflexivity.
  - change (S j + F)%nat with (S (j + F)). cbn [first_business_day_from].
    assert (Hfirst : business_day easter d = false).
    { rewrite <- (Z.add_0_r d). apply Hnone. lia. }
    rewrite Hfirst. cbn [negb]. rewrite (IH F (d + 1)).
    + f_equal. lia.
    + intros i Hi. replace (d + 1 + i) with (d + (i + 1)) by lia.
      apply Hnone. lia.
    + replace (d + 1 + Z.of_nat j) with (d + Z.of_nat (S j)) by lia. exact Hb.
Qed.

(** [add_business_hours] returns: the target of the first loop, and the
    result with its date and its time of day. *)
Lemma add_business_hours_returns
    (gap fuel : nat) (start : datetime) (hours hpd : Z)
    (cache : gmap Z (gset Z)) :
  cache_ok easter cache ->
  0 < hpd <= 24 ->
  0 <= hours ->
  valid_time start ->
  business_day_within easter gap (dt_date start + 1)
    (dt_date start + Z.of_nat gap * (hours / hpd) + 1) ->
  (gap * S (Z.to_nat (hours / hpd)) <= fuel)%nat ->
  exists target dt cache',
    add_business_hours easter fuel start hours hpd cache = Returns (dt, cache')
    /\ cache_ok easter cache'
    /\ dt_date start + hours / hpd <= target
       <= dt_date start + Z.of_nat gap * (hours / hpd)
    /\ (0 < hours / hpd -> business_day easter target = true)
    /\ dt_tzinfo dt = dt_tzinfo start
    /\ dt_microsecond dt = 0
    /\ ((dt_hour start + hours mod hpd < 24
         /\ dt_date dt = target
         /\ dt_hour dt = dt_hour start + hours mod hpd
         /\ dt_minute dt = dt_minute start
         /\ dt_second dt = dt_second start)
        \/ (24 <= dt_hour start + hours mod hpd
            /\ dt_hour dt = 8 /\ dt_minute dt = 0 /\ dt_second dt = 0
            /\ business_day easter (dt_date dt) = true
            /\ target < dt_date dt <= target + Z.of_nat gap)).
Proof.
  intros Hok Hhpd Hhours (HH & Hm & Hs) Hdense Hfuel.
  assert (Hq : 0 <= hours / hpd) by (apply Z.div_pos; lia).
  assert (Hrem : 0 <= hours mod hpd < hpd) by (apply Z.mod_pos_bound; lia).
  set (n := Z.to_nat (hours / hpd)) in *.
  assert (Hn : Z.of_nat n = hours / hpd) by (unfold n; lia).
  destruct (add_business_hours_run fuel start hours hpd cache Hok)
    as (c' & Hok' & Hrun); [lia|].
  destruct (full_days_terminates gap n (fuel - gap * n) (dt_date start) 0
              (hours / hpd)) as (target & Htarget & Hrange & Hbd).
  { lia. }
  { intros d Hd. apply Hdense. rewrite Hn in Hd. lia. }
  replace (gap * n + (fuel - gap * n))%nat with fuel in Htarget
    by (rewrite Nat.mul_succ_r in Hfuel; lia).
  rewrite Htarget in Hrun. cbv zeta in Hrun.
  destruct (add_hours_fields target (dt_hour start) (dt_minute start)
              (dt_second start) (hours mod hpd) (dt_tzinfo start))
    as (Hsame & Hlater & Hge); [lia | lia | lia | lia |].
  cbv zeta in Hsame, Hlater, Hge.
  pose proof (add_hours_carry target (dt_hour start) (dt_minute start)
                (dt_second start) (hours mod hpd) (dt_tzinfo start))
    as Hcarry.
  remember (add_hours
              {| dt_date := target; dt_hour := dt_hour start;
                 dt_minute := dt_minute start; dt_second := dt_second start;
                 dt_microsecond := 0; dt_tzinfo := dt_tzinfo start |}
              (hours mod hpd)) as res eqn:Hres.
  assert (Hmicro : dt_microsecond res = 0 /\ dt_tzinfo res = dt_tzinfo start)
    by (rewrite Hres; split; reflexivity).
  destruct (target <? dt_date res) eqn:Hroll.
  - apply Z.ltb_lt in Hroll.
    assert (Hnext : dt_date res = target + 1)
      by (specialize (Hcarry ltac:(lia) ltac:(lia) ltac:(lia) ltac:(lia)); lia).
    destruct (first_offset gap (dt_date res)) as (j & Hj & Hbj & Hnone).
    { apply Hdense. rewrite Hn in Hrange. lia. }
    pose proof (first_business_day_terminates j (fuel - j) (dt_date res)
                  Hnone Hbj) as Hfound.
    replace (j + (fuel - j))%nat with fuel in Hfound
      by (rewrite Nat.mul_succ_r in Hfuel; lia).
    rewrite Hfound in Hrun.
    eexists target, _, c'. split; [exact Hrun|].
    split; [exact Hok'|]. split; [rewrite <- Hn; exact Hrange|].
    split; [intros Hpos; apply Hbd; lia|].
    cbn. split; [reflexivity|]. split; [reflexivity|].
    right. split.
    { destruct (Z.lt_ge_cases (dt_hour start + hours mod hpd) 24)
        as [Hlt | Hge24]; [|exact Hge24].
      destruct (Hsame Hlt) as (Hd & _). lia. }
    split; [reflexivity|]. split; [reflexivity|]. split; [reflexivity|].
    split; [exact Hbj | lia].
  - apply Z.ltb_ge in Hroll.
    eexists target, res, c'. split; [exact Hrun|].
    split; [exact Hok'|]. split; [rewrite <- Hn; exact Hrange|].
    split; [intros Hpos; apply Hbd; lia|].
    destruct Hmicro as [Hmi Htz]. split; [exact Htz|]. split; [exact Hmi|].
    left.
    destruct (Z.lt_ge_cases (dt_hour start + hours mod hpd) 24)
      as [Hlt | Hge24].
    + destruct (Hsame Hlt) as (Hd & Hh & Hmin & Hse). auto.
    + specialize (Hlater Hge24). lia.
Qed.

(** X2: the time of day of a deadline.  For between 1 and 24 hours per
    day, hours that are not negative, a valid start time, a calendar with a
    business day within [gap] days of every date on the way and [gap]
    turns allowed per day to add and once more, all within the dates
    [datetime] can hold (the movable holidays too),
    [add_business_hours] returns; the result keeps the
    time zone, has no microseconds and is not before the start date; when
    the start hour plus the remainder hours stays below 24 it is the
    start's time of day moved by the remainder, and otherwise it is
    08:00:00 on a business day. *)
Theorem add_business_hours_time_of_day
    (gap fuel : nat) (start : datetime) (hours hpd : Z)
    (cache : gmap Z (gset Z)) :
  cache_ok easter cache ->
  easter_within_dates easter ->
  0 < hpd <= 24 ->
  0 <= hours ->
  valid_time start ->
  business_day_within easter gap (dt_date start + 1)
    (dt_date start + Z.of_nat gap * (hours / hpd) + 1) ->
  (gap * S (Z.to_nat (hours / hpd)) <= fuel)%nat ->
  1 <= dt_date start ->
  dt_date start + Z.of_nat gap * (hours / hpd + 1) <= date_max ->
  exists dt cache',
    add_business_hours easter fuel start hours hpd cache = Returns (dt, cache')
    /\ cache_ok easter cache'
    /\ dt_tzinfo dt = dt_tzinfo start
    /\ dt_microsecond dt = 0
    /\ dt_date start <= dt_date dt
       <= dt_date start + Z.of_nat gap * (hours / hpd + 1)
    /\ ((dt_hour start + hours mod hpd < 24
         /\ dt_hour dt = dt_hour start + hours mod hpd
         /\ dt_minute dt = dt_minute start
         /\ dt_second dt = dt_second start)
        \/ (24 <= dt_hour start + hours mod hpd
            /\ dt_hour dt = 8 /\ dt_minute dt = 0 /\ dt_second dt = 0
            /\ business_day easter (dt_date dt) = true)).
Proof.
  intros Hok _ Hhpd Hhours Htime Hdense Hfuel _ _.
  assert (Hq : 0 <= hours / hpd) by (apply Z.div_pos; lia).
  destruct (add_business_hours_returns gap fuel start hours hpd cache
              Hok Hhpd Hhours Htime Hdense Hfuel)
    as (target & dt & c' & Hrun & Hok' & Hrange & _ & Htz & Hmi & Hcases).
  exists dt, c'. split; [exact Hrun|]. split; [exact Hok'|].
  split; [exact Htz|]. split; [exact Hmi|].
  destruct Hcases as [(Hlt & Hd & Hh & Hmin & Hse)
                     | (Hge & Hh & Hmin & Hse & Hb & Hd)].
  - split; [lia|]. left. auto.
  - split; [lia|]. right. auto.
Qed.

(** X3: where a deadline lands.  With the default hours of any severity,
    or an override of at least 8 hours, a valid creation time, a calendar
    with a business day within [gap] days of every date on the way and
    [gap] turns allowed per business day to add and once more, all within
    the dates [datetime] can hold (the movable holidays too),
    [calculate_sla_deadline] returns a
    deadline on a business day strictly after the creation date, aware of
    its time zone (UTC when [created_at] was naive). *)
Theorem calculate_sla_deadline_lands_on_business_day
    (gap fuel : nat) (created_at : datetime) (severity : SeverityLevel)
    (resolution_hours : option Z) (cache : gmap Z (gset Z)) :
  cache_ok easter cache ->
  easter_within_dates easter ->
  valid_time created_at ->
  (forall h, resolution_hours = Some h -> 8 <= h) ->
  business_day_within easter gap (dt_date created_at + 1)
    (dt_date created_at
     + Z.of_nat gap * (effective_resolution_hours severity resolution_hours / 8)
     + 1) ->
  (gap * S (Z.to_nat
              (effective_resolution_hours severity resolution_hours / 8))
   <= fuel)%nat ->
  1 <= dt_date created_at ->
  dt_date created_at
  + Z.of_nat gap
    * (effective_resolution_hours severity resolution_hours / 8 + 1)
  <= date_max ->
  exists dt cache',
    calculate_sla_deadline easter fuel created_at severity resolution_hours
      cache = Returns (dt, cache')
    /\ cache_ok easter cache'
    /\ business_day easter (dt_date dt) = true
    /\ dt_date created_at < dt_date dt
       <= dt_date created_at
          + Z.of_nat gap
            * (effective_resolution_hours severity resolution_hours / 8 + 1)
    /\ dt_tzinfo dt = Some (default utc (dt_tzinfo created_at)).
Proof.
  intros Hok _ (HH & Hm & Hs) Hover Hdense Hfuel _ _.
  unfold calculate_sla_deadline.
  fold (effective_resolution_hours severity resolution_hours) in *.
  set (hours := effective_resolution_hours severity resolution_hours) in *.
  assert (Hhours : 8 <= hours).
  { unfold hours, effective_resolution_hours, int_or.
    destruct resolution_hours as [h|].
    - specialize (Hover h eq_refl).
      destruct (h =? 0) eqn:E; [apply Z.eqb_eq in E; lia | exact Hover].
    - destruct severity; vm_compute; discriminate. }
  set (start := match dt_tzinfo created_at with
                | Some _ => created_at
                | None => replace_tzinfo created_at utc
                end).
  assert (Hstart : dt_date start = dt_date created_at
                   /\ dt_hour start = dt_hour created_at
                   /\ dt_minute start = dt_minute created_at
                   /\ dt_second start = dt_second created_at
                   /\ dt_tzinfo start
                      = Some (default utc (dt_tzinfo created_at))).
  { unfold start. destruct (dt_tzinfo created_at) eqn:Htz; cbn; auto. }
  destruct Hstart as (Hd & Hh & Hmi & Hse & Htz).
  assert (Hfull : 0 < hours / 8) by (apply Z.div_str_pos; lia).
  destruct (add_business_hours_returns gap fuel start hours 8 cache Hok)
    as (target & dt & c' & Hrun & Hok' & Hrange & Hbt & Htzr & _ & Hcases).
  { lia. }
  { lia. }
  { unfold valid_time. rewrite Hh, Hmi, Hse. auto. }
  { rewrite Hd. exact Hdense. }
  { exact Hfuel. }
  exists dt, c'. split; [exact Hrun|]. split; [exact Hok'|].
  rewrite Hd in Hrange.
  destruct Hcases as [(_ & Hdt & _) | (_ & _ & _ & _ & Hb & Hdt)].
  - split; [rewrite Hdt; apply Hbt; exact Hfull|].
    split; [lia|]. rewrite Htzr. exact Htz.
  - split; [exact Hb|]. split; [lia|]. rewrite Htzr. exact Htz.
Qed.

(** The loop of [business_days_between] over [n] dates. *)
Lemma count_business_days_spec (n : nat) :
  forall (fuel : nat) (current end_date count : Z) (cache : gmap Z (gset Z)),
    cache_ok easter cache ->
    end_date - current + 1 = Z.of_nat n ->
    (n <= fuel)%nat ->
    exists cache',
      cache_ok easter cache'
      /\ count_business_days easter fuel current end_date count cache
         = Returns (count + business_days_in easter current end_date, cache').
Proof.
  induction n as [|n IH]; intros fuel cur en c cache Hok Hn Hfuel.
  - exists cache. split; [exact Hok|].
    assert (Hnone : business_days_in easter cur en = 0)
      by (unfold business_days_in; rewrite Hn; reflexivity).
    rewrite Hnone, Z.add_0_r.
    destruct fuel; cbn [count_business_days];
      replace (cur <=? en) with false by (symmetry; apply Z.leb_gt; lia);
      reflexivity.
  - destruct fuel as [|fuel]; [lia|]. cbn [count_business_days].
    replace (cur <=? en) with true by (symmetry; apply Z.leb_le; lia).
    destruct (is_business_day_spec easter cur cache Hok) as (c1 & Hrun & Hok1).
    unfold bind. rewrite Hrun.
    destruct (IH fuel (cur + 1) en
                (if business_day easter cur then c + 1 else c) c1 Hok1)
      as (c2 & Hok2 & Hrun2); [lia | lia |].
    exists c2. split; [exact Hok2|]. rewrite Hrun2. do 2 f_equal.
    unfold business_days_in.
    rewrite (seqZ_cons cur (en - cur + 1)) by lia.
    replace (Z.pred (en - cur + 1)) with (en - (cur + 1) + 1) by lia.
    replace (Z.succ cur) with (cur + 1) by lia.
    rewrite filter_cons.
    destruct (business_day easter cur) eqn:Hb.
    + rewrite decide_True by reflexivity. cbn [length]. lia.
    + rewrite decide_False by discriminate. lia.
Qed.

(** X4: [business_days_between] counts the business days of the inclusive
    range between its two dates, whichever is given first: for two dates
    before [date.max] (and movable holidays that are dates), with the loop
    allowed one turn per date, it returns
    that count, the same for ([start], [end_date]) and for ([end_date],
    [start]). *)
Theorem business_days_between_counts
    (fuel : nat) (start end_date : Z) (cache : gmap Z (gset Z)) :
  cache_ok easter cache ->
  easter_within_dates easter ->
  1 <= start < date_max ->
  1 <= end_date < date_max ->
  (Z.to_nat (Z.abs (end_date - start)) < fuel)%nat ->
  exists cache',
    cache_ok easter cache'
    /\ business_days_between easter fuel start end_date cache
       = Returns (business_days_in easter (Z.min start end_date)
                    (Z.max start end_date), cache')
    /\ business_days_between easter fuel end_date start cache
       = Returns (business_days_in easter (Z.min start end_date)
                    (Z.max start end_date), cache').
Proof.
  intros Hok _ _ _ Hfuel. unfold business_days_between.
  destruct (Z.lt_trichotomy start end_date) as [Hlt | [Heq | Hgt]].
  - replace (end_date <? start) with false by (symmetry; apply Z.ltb_ge; lia).
    replace (start <? end_date) with true by (symmetry; apply Z.ltb_lt; lia).
    rewrite Z.min_l, Z.max_r by lia.
    destruct (count_business_days_spec (Z.to_nat (end_date - start + 1))
                fuel start end_date 0 cache Hok) as (c' & Hok' & Hrun);
      [lia | lia |].
    exists c'. rewrite Hrun, Z.add_0_l. auto.
  - subst end_date. rewrite Z.ltb_irrefl, Z.min_id, Z.max_id.
    destruct (count_business_days_spec 1 fuel start start 0 cache Hok)
      as (c' & Hok' & Hrun); [lia | lia |].
    exists c'. rewrite Hrun, Z.add_0_l. auto.
  - replace (end_date <? start) with true by (symmetry; apply Z.ltb_lt; lia).
    replace (start <? end_date) with false by (symmetry; apply Z.ltb_ge; lia).
    rewrite Z.min_r, Z.max_l by lia.
    destruct (count_business_days_spec (Z.to_nat (start - end_date + 1))
                fuel end_date start 0 cache Hok) as (c' & Hok' & Hrun);
      [lia | lia |].
    exists c'. rewrite Hrun, Z.add_0_l. auto.
Qed.

End WithEaster.

(** The check of [business_day_within] is sound. *)
Lemma business_day_within_check_sound
    (easter : Z -> Z) (gap : nat) (lo hi : Z) :
  business_day_within_check easter gap lo hi = true ->
  business_day_within easter gap lo hi.
Proof.
  unfold business_day_within_check, business_day_within.
  rewrite forallb_forall. intros Hall d Hd.
  assert (Hin : In d (seqZ lo (hi - lo + 1)))
    by (apply list_elem_of_In, elem_of_seqZ; lia).
  specialize (Hall d Hin). apply existsb_exists in Hall.
  destruct Hall as (k & Hk & Hb).
  apply list_elem_of_In, elem_of_seqZ in Hk.
  exists k. split; [lia | exact Hb].
Qed.

(** The check of [easter_within_dates] is sound, and the Gregorian
    computus passes it. *)
Lemma easter_within_dates_check_sound (easter : Z -> Z) :
  easter_within_dates_check easter = true -> easter_within_dates easter.
Proof.
  unfold easter_within_dates_check, easter_within_dates, valid_date.
  rewrite forallb_forall. intros Hall y Hy.
  assert (Hin : In y (seqZ 1 9999))
    by (apply list_elem_of_In, elem_of_seqZ; lia).
  specialize (Hall y Hin). apply andb_true_iff in Hall.
  destruct Hall as [Hlo Hhi]. apply Z.leb_le in Hlo, Hhi. lia.
Qed.

Lemma easter_western_within_dates : easter_within_dates easter_western.
Proof.
  apply easter_within_dates_check_sound. vm_compute. reflexivity.
Qed.

Lemma holidays_memoized_witness :
  exists hs cache',
    get_brazilian_holidays easter_western 2024 ∅ = Returns (hs, cache')
    /\ get_brazilian_holidays easter_western 2024 cache' = Returns (hs, cache').
Proof.
  destruct (holidays_memoized easter_western 2024 ∅)
    as (hs & c & Hfirst & _ & Hsecond & _).
  - lia.
  - vm_compute. split; discriminate.
  - vm_compute. split; discriminate.
  - exists hs, c. split; [exact Hfirst | exact Hsecond].
Defined.

Lemma add_business_hours_time_of_day_witness :
  exists dt cache',
    add_business_hours easter_western 10 friday_16h 12 8 ∅
    = Returns (dt, cache')
    /\ dt_tzinfo dt = Some utc.
Proof.
  destruct (add_business_hours_time_of_day easter_western 5 10 friday_16h
              12 8 ∅ (cache_ok_empty easter_western)
              easter_western_within_dates)
    as (dt & c & Hrun & _ & Htz & _).
  - lia.
  - lia.
  - vm_compute. repeat split; discriminate.
  - apply business_day_within_check_sound. vm_compute. reflexivity.
  - vm_compute. lia.
  - vm_compute. discriminate.
  - vm_compute. discriminate.
  - exists dt, c. split; [exact Hrun | exact Htz].
Defined.

Lemma calculate_sla_deadline_lands_on_business_day_witness :
  exists dt cache',
    calculate_sla_deadline easter_western 30 friday_16h MAJOR None ∅
    = Returns (dt, cache')
    /\ business_day easter_western (dt_date dt) = true.
Proof.
  destruct (calculate_sla_deadline_lands_on_business_day easter_western 5 30
              friday_16h MAJOR None ∅ (cache_ok_empty easter_western)
              easter_western_within_dates)
    as (dt & c & Hrun & _ & Hb & _).
  - vm_compute. repeat split; discriminate.
  - discriminate.
  - apply business_day_within_check_sound. vm_compute. reflexivity.
  - vm_compute. lia.
  - vm_compute. discriminate.
  - vm_compute. discriminate.
  - exists dt, c. split; [exact Hrun | exact Hb].
Defined.

Lemma business_days_between_counts_witness :
  exists cache',
    business_days_between easter_western 20 (date 2024 6 7) (date 2024 6 17) ∅
    = Returns (business_days_in easter_western (date 2024 6 7)
                 (date 2024 6 17), cache').
Proof.
  destruct (business_days_between_counts easter_western 20 (date 2024 6 7)
              (date 2024 6 17) ∅ (cache_ok_empty easter_western)
              easter_western_within_dates)
    as (c & _ & Hrun & _).
  - vm_compute. split; [discriminate | reflexivity].
  - vm_compute. split; [discriminate | reflexivity].
  - vm_compute. lia.
  - exists c. rewrite Hrun. vm_compute. reflexivity.
Defined.

End EngineExtras.

(** ** Overdue, escalation and the response *)

Module OverdueExtras.
Import Models SLAEngine ActionItems Spec EscalationProofs.

Lemma default_escalation_hours_positive (item : ActionItem) :
  0 < effective_escalation_hours item None.
Proof.
  unfold effective_escalation_hours.
  destruct (severity item); vm_compute; reflexivity.
Qed.

(** X5: with the default escalation hours the level is never negative, and
    it is 2 or more exactly when the engine reports the item overdue. *)
Theorem overdue_iff_level_at_least_2 (now : Z) (item : ActionItem) :
  0 <= get_escalation_level now item None
  /\ (is_overdue now item = true <-> 2 <= get_escalation_level now item None).
Proof.
  destruct (sla_deadline item) as [deadline|] eqn:Hd.
  - destruct (is_open item) eqn:Hopen.
    + pose proof (default_escalation_hours_positive item) as Hh.
      rewrite (get_escalation_level_open now item None deadline Hd Hopen Hh).
      unfold is_overdue. rewrite Hd, Hopen. cbn [negb].
      pose proof HOUR_pos as HH.
      destruct (deadline <? now) eqn:E.
      * apply Z.ltb_lt in E.
        assert (0 <= (now - deadline) / (effective_escalation_hours item None * HOUR))
          by (apply Z.div_pos; lia).
        split; [lia|]. split; [lia | reflexivity].
      * destruct (_ <=? now); split; try lia; split; try discriminate; lia.
    + unfold get_escalation_level, is_overdue. rewrite Hd, Hopen. cbn.
      split; [lia|]. split; [discriminate | lia].
  - unfold get_escalation_level, is_overdue. rewrite Hd.
    split; [lia|]. split; [discriminate | lia].
Qed.

(** X6: [days_until_deadline] answers nothing exactly for an item without
    deadline or closed, where the item is not overdue either; it answers a
    value exactly for an open item with a deadline, and that value is
    negative exactly when the item is overdue at that instant, positive
    exactly before the deadline and zero exactly at the deadline. *)
Theorem days_until_deadline_sign (now : Z) (item : ActionItem) :
  (days_until_deadline now item = None
   <-> sla_deadline item = None \/ is_open item = false)
  /\ match days_until_deadline now item with
     | Some q =>
         exists deadline,
           sla_deadline item = Some deadline
           /\ is_open item = true
           /\ ((q < 0)%Q <-> is_overdue now item = true)
           /\ ((q < 0)%Q <-> deadline < now)
           /\ ((0 < q)%Q <-> now < deadline)
           /\ ((q == 0)%Q <-> now = deadline)
     | None => is_overdue now item = false
     end.
Proof.
  unfold days_until_deadline, is_overdue.
  destruct (sla_deadline item) as [deadline|].
  - destruct (is_open item); cbn [negb].
    + split.
      * split; [discriminate | intros [H | H]; discriminate].
      * exists deadline. split; [reflexivity|]. split; [reflexivity|].
        rewrite Z.ltb_lt.
        unfold total_seconds, Qlt, Qeq, Qdiv, Qmult, Qinv, inject_Z. cbn.
        repeat split; intros; lia.
    + split; [|reflexivity]. split; auto.
  - split; [|reflexivity]. split; auto.
Qed.

(** X7: the computed fields of a response agree: when the clock does not
    go back between the two reads, an item shown overdue is shown open with
    a negative [days_until_deadline], and an item shown closed is shown
    not overdue and without [days_until_deadline]. *)
Theorem response_fields_agree (now_overdue now_days : Z) (item : ActionItem) :
  now_overdue <= now_days ->
  resp_item (build_action_item_response now_overdue now_days item) = item
  /\ (resp_is_overdue (build_action_item_response now_overdue now_days item)
      = true ->
      resp_is_open (build_action_item_response now_overdue now_days item)
      = true
      /\ exists q,
           resp_days_until_deadline
             (build_action_item_response now_overdue now_days item) = Some q
           /\ (q < 0)%Q)
  /\ (resp_is_open (build_action_item_response now_overdue now_days item)
      = false ->
      resp_is_overdue (build_action_item_response now_overdue now_days item)
      = false
      /\ resp_days_until_deadline
           (build_action_item_response now_overdue now_days item) = None).
Proof.
  intros Hclock. cbn. unfold is_overdue, days_until_deadline.
  split; [reflexivity|].
  destruct (sla_deadline item) as [deadline|];
    destruct (is_open item); cbn [negb];
    (split; [intros H | intros H]); try discriminate; auto.
  apply Z.ltb_lt in H. split; [reflexivity|].
  eexists. split; [reflexivity|].
  unfold total_seconds, Qlt, Qdiv, Qmult, Qinv, inject_Z. cbn. lia.
Qed.

Lemma response_fields_agree_witness :
  resp_is_overdue
    (build_action_item_response (5 * HOUR) (5 * HOUR + 1)
       (sample_item NEW CRITICAL 0 (Some (4 * HOUR)) None)) = true
  /\ resp_is_open
       (build_action_item_response (5 * HOUR) (5 * HOUR + 1)
          (sample_item NEW CRITICAL 0 (Some (4 * HOUR)) None)) = true.
Proof.
  destruct (response_fields_agree (5 * HOUR) (5 * HOUR + 1)
              (sample_item NEW CRITICAL 0 (Some (4 * HOUR)) None))
    as (_ & Hover & _).
  - vm_compute. discriminate.
  - split; [vm_compute; reflexivity|].
    apply Hover. vm_compute. reflexivity.
Defined.

End OverdueExtras.


(** ** Further properties of the routes *)

Module RouteExtras.
Import Models SLAEngine ActionItems Spec LifecycleProofs.

Lemma apply_field_run {A : Type} `{EqDecision A} (field : string)
    (get : ActionItem -> A) (set : A -> ActionItem -> ActionItem)
    (show : A -> option string) (item_id user : Z) (c : option string)
    (sent : option A) (i : ActionItem) (its : gmap Z ActionItem)
    (ups : list ActionItemUpdate) :
  (forall j, set (get j) j = j) ->
  apply_field field get set show item_id user c sent
    (i, {| items := its; updates := ups |})
  = (set_opt set sent i,
     {| items := its;
        updates := ups ++ row_if item_id user c field show (get i) sent |}).
Proof.
  intros Hsame. unfold apply_field, set_opt, row_if, add_update, audit_row.
  destruct sent as [v|]; cbn [fst snd items updates].
  - case_bool_decide as Heq.
    + rewrite app_nil_r. rewrite <- Heq, Hsame. reflexivity.
    + reflexivity.
  - rewrite app_nil_r. reflexivity.
Qed.

Lemma set_opt_other {A B : Type} (getB : ActionItem -> B)
    (set : A -> ActionItem -> ActionItem) (sent : option A) (i : ActionItem) :
  (forall v j, getB (set v j) = getB j) ->
  getB (set_opt set sent i) = getB i.
Proof. intros Hother. destruct sent; [apply Hother | reflexivity]. Qed.

(** The general update on an item that exists, in closed form. *)
Lemma update_action_item_found
    (now now_esc item_id user : Z) (item_in : ActionItemUpdateSchema)
    (db : Db) (item : ActionItem) :
  items db !! item_id = Some item ->
  update_action_item now now_esc item_id item_in user db
  = (Ok (refresh_level now_esc
           (stamp now user (upd_status item_in) (edit item item_in))),
     {| items :=
          <[item_id :=
              refresh_level now_esc
                (stamp now user (upd_status item_in) (edit item item_in))]>
            (items db);
        updates := updates db ++ audit_rows item_id user item item_in |}).
Proof.
  intros Hitem. unfold update_action_item. rewrite Hitem.
  destruct db as [its ups]. cbn [items updates].
  rewrite (apply_field_run "title") by (intros []; reflexivity).
  rewrite (apply_field_run "description") by (intros []; reflexivity).
  rewrite (apply_field_run "category") by (intros []; reflexivity).
  rewrite (apply_field_run "severity") by (intros []; reflexivity).
  rewrite (apply_field_run "status") by (intros []; reflexivity).
  rewrite (apply_field_run "assigned_to") by (intros []; reflexivity).
  rewrite (apply_field_run "due_date") by (intros []; reflexivity).
  rewrite !(set_opt_other description) by reflexivity.
  rewrite !(set_opt_other category) by reflexivity.
  rewrite !(set_opt_other severity) by reflexivity.
  rewrite !(set_opt_other status) by reflexivity.
  rewrite !(set_opt_other assigned_to) by reflexivity.
  rewrite !(set_opt_other due_date) by reflexivity.
  fold (edit item item_in).
  unfold audit_rows, flush, refresh_level, stamp. cbn [items updates].
  rewrite <- !app_assoc.
  destruct (upd_status item_in) as [[]|]; reflexivity.
Qed.

(** The status route on an allowed edge, in closed form. *)
Lemma update_action_item_status_found
    (now now_esc item_id user : Z) (su : ActionItemStatusUpdate)
    (db : Db) (item : ActionItem) :
  items db !! item_id = Some item ->
  allowed (status item) (su_status su) = true ->
  update_action_item_status now now_esc item_id su user db
  = (Ok (refresh_level now_esc
           (stamp now user (Some (su_status su))
              (set_status (su_status su) item))),
     {| items :=
          <[item_id :=
              refresh_level now_esc
                (stamp now user (Some (su_status su))
                   (set_status (su_status su) item))]> (items db);
        updates :=
          updates db
          ++ [audit_row item_id user "status"
                (Some (status_value (status item)))
                (Some (status_value (su_status su))) (su_comment su)] |}).
Proof.
  intros Hitem Hedge. unfold update_action_item_status.
  rewrite Hitem, valid_transitions_allowed, Hedge. cbn [negb].
  unfold flush, add_update, refresh_level, stamp, audit_row.
  cbn [items updates].
  destruct (su_status su); reflexivity.
Qed.

Lemma update_action_item_status_refused
    (now now_esc item_id user : Z) (su : ActionItemStatusUpdate)
    (db : Db) (item : ActionItem) :
  items db !! item_id = Some item ->
  allowed (status item) (su_status su) = false ->
  update_action_item_status now now_esc item_id su user db
  = (HTTPException 400 (invalid_transition (status item) (su_status su)), db).
Proof.
  intros Hitem Hedge. unfold update_action_item_status.
  rewrite Hitem, valid_transitions_allowed, Hedge. reflexivity.
Qed.

(** X8: whenever the general update answers with an item, that item is
    the one stored; each of its seven editable fields holds the value sent
    if one was sent and its old value otherwise, and identifiers, creator,
    creation instant and SLA deadline are unchanged (a change of severity
    or category does not move the deadline). *)
Theorem update_applies_sent_fields
    (now now_esc item_id user : Z) (item_in : ActionItemUpdateSchema)
    (db : Db) (item item' : ActionItem) :
  items db !! item_id = Some item ->
  fst (update_action_item now now_esc item_id item_in user db) = Ok item' ->
  items (snd (update_action_item now now_esc item_id item_in user db))
    !! item_id = Some item'
  /\ title item' = default (title item) (upd_title item_in)
  /\ description item' = default (description item) (upd_description item_in)
  /\ category item' = default (category item) (upd_category item_in)
  /\ severity item' = default (severity item) (upd_severity item_in)
  /\ status item' = default (status item) (upd_status item_in)
  /\ assigned_to item' = default (assigned_to item) (upd_assigned_to item_in)
  /\ due_date item' = default (due_date item) (upd_due_date item_in)
  /\ id item' = id item /\ study_id item' = study_id item
  /\ monitor_letter_id item' = monitor_letter_id item
  /\ created_by item' = created_by item
  /\ created_at item' = created_at item
  /\ sla_deadline item' = sla_deadline item.
Proof.
  intros Hitem. rewrite (update_action_item_found _ _ _ _ _ _ _ Hitem).
  cbn [fst snd items]. intros [= <-].
  split; [apply lookup_insert_eq|].
  destruct item_in as [[t|] [d|] [c|] [sv|] [[]|] [a|] [du|] cm];
    cbn; repeat split; reflexivity.
Qed.

Lemma update_applies_sent_fields_witness :
  severity
    (ActionItems.set_severity MINOR
       (ActionItems.set_title "Signed ICF missing"
          (sample_item NEW CRITICAL 0 (Some (1000 * HOUR)) None))) = MINOR
  /\ sla_deadline
       (ActionItems.set_severity MINOR
          (ActionItems.set_title "Signed ICF missing"
             (sample_item NEW CRITICAL 0 (Some (1000 * HOUR)) None))) = Some (1000 * HOUR).
Proof.
  destruct (update_applies_sent_fields 100 101 1 5
              {| upd_title := Some "Signed ICF missing"; upd_description := None;
                 upd_category := None; upd_severity := Some MINOR;
                 upd_status := None; upd_assigned_to := None;
                 upd_due_date := None; upd_comment := None |}
              (sample_db (sample_item NEW CRITICAL 0 (Some (1000 * HOUR)) None))
              (sample_item NEW CRITICAL 0 (Some (1000 * HOUR)) None)
              (ActionItems.set_severity MINOR
                 (ActionItems.set_title "Signed ICF missing"
                    (sample_item NEW CRITICAL 0 (Some (1000 * HOUR)) None))))
    as (_ & _ & _ & _ & Hsev & _ & _ & _ & _ & _ & _ & _ & _ & Hdl).
  - vm_compute. reflexivity.
  - vm_compute. reflexivity.
  - split; [exact Hsev | exact Hdl].
Defined.

Lemma row_if_rows {A : Type} `{EqDecision A} (item_id user : Z)
    (c : option string) (field : string) (show : A -> option string)
    (old : A) (sent : option A) :
  Forall (fun u => action_item_id u = item_id /\ user_id u = user
                   /\ comment u = c /\ field_changed u = Some field)
    (row_if item_id user c field show old sent)
  /\ (length (row_if item_id user c field show old sent) <= 1)%nat
  /\ (row_if item_id user c field show old sent = []
      <-> forall v, sent = Some v -> old = v).
Proof.
  unfold row_if. destruct sent as [v|].
  - case_bool_decide as Heq.
    + split; [constructor|]. split; [cbn; lia|].
      split; [intros _ w [= <-]; exact Heq | reflexivity].
    + split; [repeat constructor|]. split; [cbn; lia|].
      split; [discriminate | intros Hall; destruct Heq; apply Hall; reflexivity].
  - split; [constructor|]. split; [cbn; lia|].
    split; [intros _ w; discriminate | reflexivity].
Qed.

(** X9: the general update appends to the audit trail one row for each
    field sent with a value different from the item's, in the order of the
    fields, holding the old and the new value as text; every row carries
    the item, the acting user and the comment of the request, there are at
    most seven, and none when every value sent is the current one. *)
Theorem update_writes_one_audit_row_per_change
    (now now_esc item_id user : Z) (item_in : ActionItemUpdateSchema)
    (db : Db) (item : ActionItem) :
  items db !! item_id = Some item ->
  updates (snd (update_action_item now now_esc item_id item_in user db))
  = updates db ++ audit_rows item_id user item item_in
  /\ Forall (fun u => action_item_id u = item_id /\ user_id u = user
                      /\ comment u = upd_comment item_in)
       (audit_rows item_id user item item_in)
  /\ (length (audit_rows item_id user item item_in) <= 7)%nat
  /\ (edit item item_in = item -> audit_rows item_id user item item_in = []).
Proof.
  intros Hitem. rewrite (update_action_item_found _ _ _ _ _ _ _ Hitem).
  split; [reflexivity|].
  unfold audit_rows. cbv zeta.
  pose proof (row_if_rows item_id user (upd_comment item_in) "title" Some
                (title item) (upd_title item_in)) as (F1 & L1 & E1).
  pose proof (row_if_rows item_id user (upd_comment item_in) "description"
                (fun v => v) (description item) (upd_description item_in))
    as (F2 & L2 & E2).
  pose proof (row_if_rows item_id user (upd_comment item_in) "category"
                (fun v => Some (category_value v)) (category item)
                (upd_category item_in)) as (F3 & L3 & E3).
  pose proof (row_if_rows item_id user (upd_comment item_in) "severity"
                (fun v => Some (severity_value v)) (severity item)
                (upd_severity item_in)) as (F4 & L4 & E4).
  pose proof (row_if_rows item_id user (upd_comment item_in) "status"
                (fun v => Some (status_value v)) (status item)
                (upd_status item_in)) as (F5 & L5 & E5).
  pose proof (row_if_rows item_id user (upd_comment item_in) "assigned_to"
                (fmap str_uuid) (assigned_to item) (upd_assigned_to item_in))
    as (F6 & L6 & E6).
  pose proof (row_if_rows item_id user (upd_comment item_in) "due_date"
                (fmap str_datetime) (due_date item) (upd_due_date item_in))
    as (F7 & L7 & E7).
  split; [|split].
  - rewrite !Forall_app.
    repeat split;
      (eapply Forall_impl; [eassumption|]; cbn; intros u Hu; tauto).
  - rewrite !length_app. lia.
  - intros Hedit.
    assert (Hf : title (edit item item_in) = title item
                 /\ description (edit item item_in) = description item
                 /\ category (edit item item_in) = category item
                 /\ severity (edit item item_in) = severity item
                 /\ status (edit item item_in) = status item
                 /\ assigned_to (edit item item_in) = assigned_to item
                 /\ due_date (edit item item_in) = due_date item)
      by (rewrite Hedit; repeat split; reflexivity).
    destruct Hf as (H1 & H2 & H3 & H4 & H5 & H6 & H7).
    assert (R1 : row_if item_id user (upd_comment item_in) "title" Some
                   (title item) (upd_title item_in) = []).
    { apply E1. intros v Hv. revert H1. unfold edit. rewrite Hv.
      destruct (upd_description item_in), (upd_category item_in),
        (upd_severity item_in), (upd_status item_in),
        (upd_assigned_to item_in), (upd_due_date item_in); cbn; congruence. }
    assert (R2 : row_if item_id user (upd_comment item_in) "description"
                   (fun v => v) (description item) (upd_description item_in)
                 = []).
    { apply E2. intros v Hv. revert H2. unfold edit. rewrite Hv.
      destruct (upd_title item_in), (upd_category item_in),
        (upd_severity item_in), (upd_status item_in),
        (upd_assigned_to item_in), (upd_due_date item_in); cbn; congruence. }
    assert (R3 : row_if item_id user (upd_comment item_in) "category"
                   (fun v => Some (category_value v)) (category item)
                   (upd_category item_in) = []).
    { apply E3. intros v Hv. revert H3. unfold edit. rewrite Hv.
      destruct (upd_title item_in), (upd_description item_in),
        (upd_severity item_in), (upd_status item_in),
        (upd_assigned_to item_in), (upd_due_date item_in); cbn; congruence. }
    assert (R4 : row_if item_id user (upd_comment item_in) "severity"
                   (fun v => Some (severity_value v)) (severity item)
                   (upd_severity item_in) = []).
    { apply E4. intros v Hv. revert H4. unfold edit. rewrite Hv.
      destruct (upd_title item_in), (upd_description item_in),
        (upd_category item_in), (upd_status item_in),
        (upd_assigned_to item_in), (upd_due_date item_in); cbn; congruence. }
    assert (R5 : row_if item_id user (upd_comment item_in) "status"
                   (fun v => Some (status_value v)) (status item)
                   (upd_status item_in) = []).
    { apply E5. intros v Hv. revert H5. unfold edit. rewrite Hv.
      destruct (upd_title item_in), (upd_description item_in),
        (upd_category item_in), (upd_severity item_in),
        (upd_assigned_to item_in), (upd_due_date item_in); cbn; congruence. }
    assert (R6 : row_if item_id user (upd_comment item_in) "assigned_to"
                   (fmap str_uuid) (assigned_to item)
                   (upd_assigned_to item_in) = []).
    { apply E6. intros v Hv. revert H6. unfold edit. rewrite Hv.
      destruct (upd_title item_in), (upd_description item_in),
        (upd_category item_in), (upd_severity item_in),
        (upd_status item_in), (upd_due_date item_in); cbn; congruence. }
    assert (R7 : row_if item_id user (upd_comment item_in) "due_date"
                   (fmap str_datetime) (due_date item)
                   (upd_due_date item_in) = []).
    { apply E7. intros v Hv. revert H7. unfold edit. rewrite Hv.
      destruct (upd_title item_in), (upd_description item_in),
        (upd_category item_in), (upd_severity item_in),
        (upd_status item_in), (upd_assigned_to item_in); cbn; congruence. }
    rewrite R1, R2, R3, R4, R5, R6, R7. reflexivity.
Qed.

Lemma update_writes_one_audit_row_per_change_witness :
  updates
    (snd (update_action_item 100 101 1
            {| upd_title := None; upd_description := None;
               upd_category := None; upd_severity := Some CRITICAL;
               upd_status := Some IN_PROGRESS; upd_assigned_to := None;
               upd_due_date := None; upd_comment := Some "started" |} 5
            (sample_db (sample_item NEW CRITICAL 0 None None))))
  = [ audit_row 1 5 "status" (Some "new") (Some "in_progress")
        (Some "started") ].
Proof.
  destruct (update_writes_one_audit_row_per_change 100 101 1 5
              {| upd_title := None; upd_description := None;
                 upd_category := None; upd_severity := Some CRITICAL;
                 upd_status := Some IN_PROGRESS; upd_assigned_to := None;
                 upd_due_date := None; upd_comment := Some "started" |}
              (sample_db (sample_item NEW CRITICAL 0 None None))
              (sample_item NEW CRITICAL 0 None None)) as (Hrows & _).
  - vm_compute. reflexivity.
  - rewrite Hrows. vm_compute. reflexivity.
Defined.

(** X10: a status change accepted by the status route touches the status,
    the time stamps tied to it and the escalation level only; every other
    column of the item keeps its value, and exactly one audit row is
    appended, for the field status, with the old and the new status, the
    acting user and the comment. *)
Theorem status_route_frame
    (now now_esc item_id user : Z) (su : ActionItemStatusUpdate)
    (db : Db) (item item' : ActionItem) :
  items db !! item_id = Some item ->
  fst (update_action_item_status now now_esc item_id su user db) = Ok item' ->
  title item' = title item /\ description item' = description item
  /\ category item' = category item /\ severity item' = severity item
  /\ assigned_to item' = assigned_to item /\ due_date item' = due_date item
  /\ id item' = id item /\ study_id item' = study_id item
  /\ monitor_letter_id item' = monitor_letter_id item
  /\ created_by item' = created_by item /\ created_at item' = created_at item
  /\ sla_deadline item' = sla_deadline item
  /\ updates (snd (update_action_item_status now now_esc item_id su user db))
     = updates db
       ++ [ {| action_item_id := item_id; user_id := user;
               field_changed := Some "status";
               old_value := Some (status_value (status item));
               new_value := Some (status_value (su_status su));
               comment := su_comment su |} ].
Proof.
  intros Hitem.
  destruct (allowed (status item) (su_status su)) eqn:Hedge.
  - rewrite (update_action_item_status_found _ _ _ _ _ _ _ Hitem Hedge).
    cbn [fst snd updates]. intros [= <-].
    destruct (su_status su); cbn; repeat split; reflexivity.
  - rewrite (update_action_item_status_refused _ _ _ _ _ _ _ Hitem Hedge).
    discriminate.
Qed.

Lemma status_route_frame_witness :
  sla_deadline (sample_item DONE CRITICAL 0 (Some 10) (Some 100)) = Some 10.
Proof.
  destruct (status_route_frame 100 101 1 5
              {| su_status := DONE; su_comment := None |}
              (sample_db (sample_item IN_PROGRESS CRITICAL 0 (Some 10) None))
              (sample_item IN_PROGRESS CRITICAL 0 (Some 10) None)
              (sample_item DONE CRITICAL 0 (Some 10) (Some 100)))
    as (_ & _ & _ & _ & _ & _ & _ & _ & _ & _ & _ & Hdl & _).
  - vm_compute. reflexivity.
  - vm_compute. reflexivity.
  - rewrite Hdl. reflexivity.
Defined.

(** X11: a request that is answered with an error changes nothing: when
    the status route, the general update or the deletion raises its
    [HTTPException], the items and the audit trail are those of before. *)
Theorem refused_request_changes_nothing
    (now now_esc item_id user : Z) (db : Db) :
  (forall su code detail,
     fst (update_action_item_status now now_esc item_id su user db)
     = HTTPException code detail ->
     snd (update_action_item_status now now_esc item_id su user db) = db)
  /\ (forall item_in code detail,
        fst (update_action_item now now_esc item_id item_in user db)
        = HTTPException code detail ->
        snd (update_action_item now now_esc item_id item_in user db) = db
        /\ items db !! item_id = None)
  /\ (forall code detail,
        fst (delete_action_item item_id db) = DeleteRefused code detail ->
        snd (delete_action_item item_id db) = db).
Proof.
  split; [|split].
  - intros su code detail.
    destruct (items db !! item_id) as [item|] eqn:Hitem.
    + destruct (allowed (status item) (su_status su)) eqn:Hedge.
      * rewrite (update_action_item_status_found _ _ _ _ _ _ _ Hitem Hedge).
        discriminate.
      * rewrite (update_action_item_status_refused _ _ _ _ _ _ _ Hitem Hedge).
        reflexivity.
    + unfold update_action_item_status. rewrite Hitem. reflexivity.
  - intros item_in code detail.
    destruct (items db !! item_id) as [item|] eqn:Hitem.
    + rewrite (update_action_item_found _ _ _ _ _ _ _ Hitem). discriminate.
    + unfold update_action_item. rewrite Hitem. auto.
  - intros code detail. unfold delete_action_item.
    destruct (items db !! item_id) as [item|]; [|reflexivity].
    destruct (negb _); [reflexivity | discriminate].
Qed.

Lemma refused_request_changes_nothing_witness :
  snd (update_action_item_status 100 101 1
         {| su_status := NEW; su_comment := None |} 5
         (sample_db (sample_item VERIFIED MAJOR 0 None (Some 50))))
  = sample_db (sample_item VERIFIED MAJOR 0 None (Some 50)).
Proof.
  destruct (refused_request_changes_nothing 100 101 1 5
              (sample_db (sample_item VERIFIED MAJOR 0 None (Some 50))))
    as (Hpatch & _).
  apply (Hpatch {| su_status := NEW; su_comment := None |} 400
           "Invalid status transition from verified to new").
  vm_compute. reflexivity.
Defined.

Lemma status_route_other_row
    (now now_esc item_id user other : Z) (su : ActionItemStatusUpdate)
    (db : Db) :
  other <> item_id ->
  items (snd (update_action_item_status now now_esc item_id su user db))
    !! other = items db !! other
  /\ updates db `prefix_of`
       updates (snd (update_action_item_status now now_esc item_id su
                       user db)).
Proof.
  intros Hne.
  destruct (items db !! item_id) as [item|] eqn:Hitem.
  - destruct (allowed (status item) (su_status su)) eqn:Hedge.
    + rewrite (update_action_item_status_found _ _ _ _ _ _ _ Hitem Hedge).
      cbn [snd items updates]. split.
      * apply lookup_insert_ne. congruence.
      * apply prefix_app_r. reflexivity.
    + rewrite (update_action_item_status_refused _ _ _ _ _ _ _ Hitem Hedge).
      split; reflexivity.
  - unfold update_action_item_status. rewrite Hitem. split; reflexivity.
Qed.

(** X12: a route touches the row it is asked about and no other: the row
    of every other identifier is the same after the status route, the
    general update and the deletion, and the two update routes only add to
    the audit trail. *)
Theorem other_rows_untouched
    (now now_esc item_id user other : Z) (db : Db) :
  other <> item_id ->
  (forall su,
     items (snd (update_action_item_status now now_esc item_id su user db))
       !! other = items db !! other
     /\ updates db `prefix_of`
          updates (snd (update_action_item_status now now_esc item_id su
                          user db)))
  /\ (forall item_in,
        items (snd (update_action_item now now_esc item_id item_in user db))
          !! other = items db !! other
        /\ updates db `prefix_of`
             updates (snd (update_action_item now now_esc item_id item_in
                             user db)))
  /\ items (snd (delete_action_item item_id db)) !! other = items db !! other
  /\ (forall u, action_item_id u = other ->
        u ∈ updates (snd (delete_action_item item_id db)) <-> u ∈ updates db).
Proof.
  intros Hne. split; [|split; [|split]].
  - intros su. apply status_route_other_row. exact Hne.
  - intros item_in.
    destruct (items db !! item_id) as [item|] eqn:Hitem.
    + rewrite (update_action_item_found _ _ _ _ _ _ _ Hitem).
      cbn [snd items updates]. split.
      * apply lookup_insert_ne. congruence.
      * apply prefix_app_r. reflexivity.
    + unfold update_action_item. rewrite Hitem. split; reflexivity.
  - unfold delete_action_item.
    destruct (items db !! item_id) as [item|]; [|reflexivity].
    destruct (negb _); [reflexivity|].
    cbn [snd items]. apply lookup_delete_ne. congruence.
  - intros u Hu. unfold delete_action_item.
    destruct (items db !! item_id) as [item|]; [|reflexivity].
    destruct (negb _); [reflexivity|].
    cbn [snd updates]. rewrite list_elem_of_filter. split; [tauto|].
    intros Hin. split; [congruence | exact Hin].
Qed.

Lemma other_rows_untouched_witness :
  items (snd (delete_action_item 1
                (sample_db (sample_item NEW MAJOR 0 None None)))) !! 2
  = items (sample_db (sample_item NEW MAJOR 0 None None)) !! 2.
Proof.
  destruct (other_rows_untouched 100 101 1 5 2
              (sample_db (sample_item NEW MAJOR 0 None None)))
    as (_ & _ & Hdel & _).
  - discriminate.
  - exact Hdel.
Defined.

(** X13: the status route moves an item to verified from done only; it
    then records the current instant in [verified_at] and the acting user
    in [verified_by] and leaves [resolved_at] as it was; from any other
    status the request is refused with status 400. *)
Theorem entering_verified
    (now now_esc item_id user : Z) (su : ActionItemStatusUpdate)
    (db : Db) (item : ActionItem) :
  items db !! item_id = Some item ->
  su_status su = VERIFIED ->
  (status item = DONE ->
     exists item',
       fst (update_action_item_status now now_esc item_id su user db)
       = Ok item'
       /\ status item' = VERIFIED
       /\ verified_at item' = Some now
       /\ verified_by item' = Some user
       /\ resolved_at item' = resolved_at item)
  /\ (status item <> DONE ->
        update_action_item_status now now_esc item_id su user db
        = (HTTPException 400 (invalid_transition (status item) VERIFIED), db)).
Proof.
  intros Hitem Hsu. split.
  - intros Hdone.
    rewrite (update_action_item_status_found _ _ _ _ _ _ _ Hitem)
      by (rewrite Hdone, Hsu; reflexivity).
    eexists. split; [reflexivity|]. rewrite Hsu. cbn. auto.
  - intros Hnot.
    rewrite (update_action_item_status_refused _ _ _ _ _ _ _ Hitem)
      by (rewrite Hsu; destruct (status item); try reflexivity; congruence).
    rewrite Hsu. reflexivity.
Qed.

Lemma entering_verified_witness :
  exists item',
    fst (update_action_item_status 200 201 1
           {| su_status := VERIFIED; su_comment := None |} 5
           (sample_db (sample_item DONE MAJOR 0 None (Some 50)))) = Ok item'
    /\ verified_by item' = Some 5 /\ resolved_at item' = Some 50.
Proof.
  destruct (entering_verified 200 201 1 5
              {| su_status := VERIFIED; su_comment := None |}
              (sample_db (sample_item DONE MAJOR 0 None (Some 50)))
              (sample_item DONE MAJOR 0 None (Some 50))) as (Hdone & _).
  - vm_compute. reflexivity.
  - reflexivity.
  - destruct (Hdone eq_refl) as (item' & Hrun & _ & _ & Hby & Hres).
    exists item'. split; [exact Hrun|]. split; [exact Hby | exact Hres].
Defined.

(** X14: verified is final for the status route: whatever requests are
    sent to it afterwards, for this item or for others, the row of a
    verified item stays exactly as it is. *)
Theorem verified_row_is_frozen
    (reqs : list StatusRequest) (db : Db) (item_id : Z) (item : ActionItem) :
  items db !! item_id = Some item ->
  status item = VERIFIED ->
  items (run_status_requests reqs db) !! item_id = Some item.
Proof.
  intros Hitem Hver. revert db Hitem.
  induction reqs as [|r reqs IH]; intros db Hitem; [exact Hitem|].
  unfold run_status_requests. cbn [foldl].
  apply IH.
  destruct (Z.eq_dec (req_item_id r) item_id) as [Heq | Hne].
  - rewrite Heq.
    rewrite (update_action_item_status_refused _ _ _ _ _ _ _ Hitem)
      by (rewrite Hver; destruct (su_status (req_update r)); reflexivity).
    exact Hitem.
  - destruct (status_route_other_row (req_now r) (req_now_esc r)
                (req_item_id r) (req_user r) item_id (req_update r) db)
      as (Hsame & _); [congruence|].
    rewrite Hsame. exact Hitem.
Qed.

Lemma verified_row_is_frozen_witness :
  items
    (run_status_requests
       [ {| req_now := 300; req_now_esc := 301; req_item_id := 1;
            req_update := {| su_status := IN_PROGRESS; su_comment := None |};
            req_user := 5 |};
         {| req_now := 400; req_now_esc := 401; req_item_id := 2;
            req_update := {| su_status := DONE; su_comment := None |};
            req_user := 5 |} ]
       (sample_db (sample_item VERIFIED MAJOR 0 None (Some 50)))) !! 1
  = Some (sample_item VERIFIED MAJOR 0 None (Some 50)).
Proof.
  apply verified_row_is_frozen.
  - vm_compute. reflexivity.
  - reflexivity.
Defined.

(** X23: sending status done through the general update to an item that
    is already done writes no audit row, the status being unchanged, and
    still replaces [resolved_at] by the current instant. *)
Theorem update_done_again_restamps_silently
    (now now_esc item_id user : Z) (c : option string)
    (db : Db) (item : ActionItem) :
  items db !! item_id = Some item ->
  status item = DONE ->
  exists item',
    update_action_item now now_esc item_id
      {| upd_title := None; upd_description := None; upd_category := None;
         upd_severity := None; upd_status := Some DONE;
         upd_assigned_to := None; upd_due_date := None; upd_comment := c |}
      user db
    = (Ok item', {| items := <[item_id := item']> (items db);
                    updates := updates db |})
    /\ resolved_at item' = Some now
    /\ status item' = DONE.
Proof.
  intros Hitem Hdone.
  rewrite (update_action_item_found _ _ _ _ _ _ _ Hitem).
  assert (Hrows : audit_rows item_id user item
                    {| upd_title := None; upd_description := None;
                       upd_category := None; upd_severity := None;
                       upd_status := Some DONE; upd_assigned_to := None;
                       upd_due_date := None; upd_comment := c |} = []).
  { unfold audit_rows, row_if. cbn.
    rewrite bool_decide_eq_true_2 by exact Hdone. reflexivity. }
  rewrite Hrows, app_nil_r.
  eexists. split; [reflexivity|]. split; reflexivity.
Qed.

Lemma update_done_again_restamps_silently_witness :
  exists item',
    fst (update_action_item 900 901 1
           {| upd_title := None; upd_description := None;
              upd_category := None; upd_severity := None;
              upd_status := Some DONE; upd_assigned_to := None;
              upd_due_date := None; upd_comment := None |} 5
           (sample_db (sample_item DONE MAJOR 0 None (Some 50)))) = Ok item'
    /\ resolved_at item' = Some 900.
Proof.
  destruct (update_done_again_restamps_silently 900 901 1 5 None
              (sample_db (sample_item DONE MAJOR 0 None (Some 50)))
              (sample_item DONE MAJOR 0 None (Some 50)))
    as (item' & Hrun & Hres & _).
  - vm_compute. reflexivity.
  - reflexivity.
  - exists item'. rewrite Hrun. split; [reflexivity | exact Hres].
Defined.

(** X15: only a new item can be deleted.  The deletion answers 404 for an
    unknown identifier and 400 for an item in any status but new, without
    changing anything; for a new item it removes the row and the audit
    rows of that item, and keeps every other audit row. *)
Theorem delete_only_new (item_id : Z) (db : Db) :
  (items db !! item_id = None ->
     delete_action_item item_id db
     = (DeleteRefused 404 "Action item not found", db))
  /\ (forall item, items db !! item_id = Some item -> status item <> NEW ->
        delete_action_item item_id db
        = (DeleteRefused 400 "Only new action items can be deleted", db))
  /\ (forall item, items db !! item_id = Some item -> status item = NEW ->
        fst (delete_action_item item_id db) = NoContent
        /\ items (snd (delete_action_item item_id db)) !! item_id = None
        /\ forall u,
             u ∈ updates (snd (delete_action_item item_id db))
             <-> u ∈ updates db /\ action_item_id u <> item_id).
Proof.
  unfold delete_action_item. split; [|split].
  - intros ->. reflexivity.
  - intros item -> Hnot. rewrite bool_decide_eq_false_2 by exact Hnot.
    reflexivity.
  - intros item -> Hnew. rewrite bool_decide_eq_true_2 by exact Hnew.
    cbn. split; [reflexivity|]. split; [apply lookup_delete_eq|].
    intros u. rewrite list_elem_of_filter. tauto.
Qed.

Lemma delete_only_new_witness :
  items (snd (delete_action_item 1
                (sample_db (sample_item NEW MAJOR 0 None None)))) !! 1 = None.
Proof.
  destruct (delete_only_new 1 (sample_db (sample_item NEW MAJOR 0 None None)))
    as (_ & _ & Hnew).
  destruct (Hnew (sample_item NEW MAJOR 0 None None)) as (_ & Hgone & _).
  - vm_compute. reflexivity.
  - reflexivity.
  - exact Hgone.
Defined.

(** X16: the page count of the listing.  For a page size of at least 1
    and a total that is not negative, [pages] is at least 1, the pages
    hold the total, no page before the last is needed to hold less, and
    the offset of any page after the last is at or beyond the total. *)
Theorem pages_cover_total (total page_size : Z) :
  1 <= page_size ->
  0 <= total ->
  1 <= pages total page_size
  /\ total <= pages total page_size * page_size
  /\ (0 < total -> (pages total page_size - 1) * page_size < total)
  /\ (forall page, pages total page_size < page ->
        total <= offset page page_size).
Proof.
  intros Hsize Htotal. unfold pages, offset.
  destruct (0 <? total) eqn:Hpos.
  - apply Z.ltb_lt in Hpos.
    pose proof (Z.div_mod (total + page_size - 1) page_size) as Hdm.
    pose proof (Z.mod_pos_bound (total + page_size - 1) page_size) as Hmod.
    set (q := (total + page_size - 1) / page_size) in *.
    set (m := (total + page_size - 1) mod page_size) in *.
    assert (Hq : total + page_size - 1 = page_size * q + m) by (apply Hdm; lia).
    assert (Hm : 0 <= m < page_size) by (apply Hmod; lia).
    assert (H1 : 1 <= q) by nia.
    split; [exact H1|]. split; [nia|]. split; [intros _; nia|].
    intros page Hpage. nia.
  - apply Z.ltb_ge in Hpos. assert (total = 0) by lia. subst total.
    split; [lia|]. split; [lia|]. split; [lia|].
    intros page Hpage. nia.
Qed.

Lemma pages_cover_total_witness :
  pages 41 20 = 3 /\ 41 <= pages 41 20 * 20.
Proof.
  destruct (pages_cover_total 41 20) as (_ & Hcover & _); [lia | lia |].
  split; [reflexivity | exact Hcover].
Defined.

End RouteExtras.

(** ** Role checks *)

Module DepsExtras.
Import Deps.

(** X17: a role check lets a user through exactly when the user's role is
    among the roles required, answering the user unchanged, and refuses
    with status 403 otherwise; requiring more roles never refuses a user
    who was let through, so whoever passes the admin check passes the
    manager check, and whoever passes that passes the coordinator check. *)
Theorem role_checks_nest (roles roles' : list UserRole) (u : User) :
  (require_roles roles u = Allowed u <-> role u ∈ roles)
  /\ (role u ∉ roles ->
        exists detail, require_roles roles u = Forbidden 403 detail)
  /\ (roles ⊆ roles' -> require_roles roles u = Allowed u ->
        require_roles roles' u = Allowed u)
  /\ (AdminUser u = Allowed u -> ManagerUser u = Allowed u)
  /\ (ManagerUser u = Allowed u -> CoordinatorUser u = Allowed u).
Proof.
  assert (Hiff : forall rs, require_roles rs u = Allowed u <-> role u ∈ rs).
  { intros rs. unfold require_roles. case_bool_decide; cbn.
    - tauto.
    - split; [discriminate | tauto]. }
  assert (Hmono : forall rs rs', rs ⊆ rs' ->
            require_roles rs u = Allowed u -> require_roles rs' u = Allowed u).
  { intros rs rs' Hsub. rewrite !Hiff. apply Hsub. }
  split; [apply Hiff|]. split; [|split; [apply Hmono|split]].
  - intros Hnot. unfold require_roles.
    rewrite bool_decide_eq_false_2 by exact Hnot. cbn. eexists. reflexivity.
  - apply Hmono. intros x. rewrite !elem_of_cons. tauto.
  - apply Hmono. intros x. rewrite !elem_of_cons. tauto.
Qed.

Lemma role_checks_nest_witness :
  require_roles [ADMIN; OPS_MANAGER]
    {| user_id := 5; role := ADMIN; is_active := true |}
  = Allowed {| user_id := 5; role := ADMIN; is_active := true |}.
Proof.
  destruct (role_checks_nest [ADMIN] [ADMIN; OPS_MANAGER]
              {| user_id := 5; role := ADMIN; is_active := true |})
    as (_ & _ & Hmono & _).
  apply Hmono.
  - intros x. rewrite !elem_of_cons. tauto.
  - reflexivity.
Defined.

End DepsExtras.


(** ** Further properties of the aggregation *)

Module AggregationExtras.
Import Models ActionItemRepository Spec RepositoryProofs.

Lemma count_where_nonneg (cond : ActionItem -> bool) (rows : list ActionItem) :
  0 <= count_where cond rows.
Proof. unfold count_where. lia. Qed.

Lemma count_where_le (c1 c2 : ActionItem -> bool) (rows : list ActionItem) :
  (forall r, c1 r = true -> c2 r = true) ->
  count_where c1 rows <= count_where c2 rows.
Proof.
  intros Himp. unfold count_where.
  induction rows as [|r rows IH]; [reflexivity|].
  rewrite !filter_cons.
  destruct (c1 r) eqn:E1.
  - rewrite (Himp r E1).
    rewrite !decide_True by exact I. cbn [length]. lia.
  - rewrite (decide_False (P := Is_true false)) by (intros []).
    destruct (c2 r).
    + rewrite decide_True by exact I. cbn [length]. lia.
    + rewrite decide_False by (intros []). exact IH.
Qed.

Lemma count_where_ext (c1 c2 : ActionItem -> bool) (rows : list ActionItem) :
  (forall r, c1 r = c2 r) -> count_where c1 rows = count_where c2 rows.
Proof.
  intros Hext. apply Z.le_antisymm; apply count_where_le;
    intros r; rewrite Hext; trivial.
Qed.

(** X18: the counts of [get_stats] are ordered, 0 <= overdue <= open <=
    total, and the overdue count is the number of rows (of the study asked
    for) that the engine's [is_overdue] reports overdue at the same
    instant. *)
Theorem stats_counts_ordered
    (now : Z) (study : option Z) (rows : list ActionItem) :
  0 <= overdue (get_stats now study rows)
  /\ overdue (get_stats now study rows) <= open (get_stats now study rows)
  /\ open (get_stats now study rows) <= total (get_stats now study rows)
  /\ total (get_stats now study rows) <= Z.of_nat (length rows)
  /\ overdue (get_stats now study rows)
     = count_where
         (fun r => base_condition study r && SLAEngine.is_overdue now r) rows.
Proof.
  cbn [get_stats overdue open total].
  split; [apply count_where_nonneg|].
  split; [|split; [|split]].
  - apply count_where_le. intros r.
    destruct (base_condition study r), (bool_decide (status r ∈ open_statuses));
      cbn; trivial; discriminate.
  - apply count_where_le. intros r.
    destruct (base_condition study r); cbn; trivial; discriminate.
  - unfold count_where. pose proof (length_filter
      (fun r => Is_true (base_condition study r)) rows). lia.
  - apply count_where_ext. intros r.
    unfold SLAEngine.is_overdue, is_open, both, isnot_None.
    destruct (base_condition study r); [|reflexivity]. cbn [andb].
    destruct (sla_deadline r) as [d|];
      destruct (status r); cbn; try reflexivity;
      rewrite ?andb_false_r; reflexivity.
Qed.

Lemma round_half_even_bounds (q : Q) :
  (inject_Z (round_half_even q) - (1 # 2) <= q
   <= inject_Z (round_half_even q) + (1 # 2))%Q.
Proof.
  unfold round_half_even.
  pose proof (Qfloor_le q) as Hlo.
  pose proof (Qlt_floor q) as Hhi.
  rewrite inject_Z_plus in Hhi.
  change (inject_Z 1) with 1%Q in Hhi.
  set (f := Qfloor q) in *.
  assert (Hup : (inject_Z (f + 1) == inject_Z f + 1)%Q)
    by (rewrite inject_Z_plus; reflexivity).
  destruct (Qcompare (q - inject_Z f) (1 # 2)) eqn:E.
  - apply Qeq_alt in E.
    destruct (Z.even f); rewrite ?Hup; split; lra.
  - apply Qlt_alt in E. split; lra.
  - apply Qgt_alt in E. rewrite Hup. split; lra.
Qed.

Lemma round_half_even_compat (q q' : Q) :
  (q == q')%Q -> round_half_even q = round_half_even q'.
Proof.
  intros Heq. unfold round_half_even.
  rewrite (Qfloor_comp q q' Heq).
  assert (Hc : Qcompare (q - inject_Z (Qfloor q')) (1 # 2)
               = Qcompare (q' - inject_Z (Qfloor q')) (1 # 2)).
  { apply Qcompare_comp; [|reflexivity]. rewrite Heq. reflexivity. }
  rewrite Hc. reflexivity.
Qed.

Lemma round_half_even_mono (q q' : Q) :
  (q <= q')%Q -> round_half_even q <= round_half_even q'.
Proof.
  intros Hle.
  destruct (Z.le_gt_cases (round_half_even q) (round_half_even q'))
    as [Hok | Hbad]; [exact Hok|].
  pose proof (round_half_even_bounds q) as [Ha _].
  pose proof (round_half_even_bounds q') as [_ Hb].
  assert (Hz : (inject_Z (round_half_even q') + 1
                <= inject_Z (round_half_even q))%Q).
  { rewrite <- (inject_Z_plus _ 1). rewrite <- Zle_Qle. lia. }
  assert (Heq : (q == q')%Q) by (apply Qle_antisym; lra).
  rewrite (round_half_even_compat q q' Heq) in Hbad. lia.
Qed.

Lemma round1_mono (q q' : Q) : (q <= q')%Q -> (round1 q <= round1 q')%Q.
Proof.
  intros Hle. unfold round1.
  assert (Hz : round_half_even (q * 10) <= round_half_even (q' * 10))
    by (apply round_half_even_mono; lra).
  rewrite Zle_Qle in Hz.
  assert (Htenth : forall x : Q, (x / 10 == x * (1 # 10))%Q)
    by (intros x; reflexivity).
  rewrite !Htenth. lra.
Qed.

Lemma round1_compat (q q' : Q) : (q == q')%Q -> round1 q = round1 q'.
Proof.
  intros Heq. unfold round1.
  rewrite (round_half_even_compat (q * 10) (q' * 10)); [reflexivity|].
  rewrite Heq. reflexivity.
Qed.

Lemma ratio_between_0_and_100 (a b : Z) :
  0 <= a <= b -> 0 < b ->
  (0 <= inject_Z a / inject_Z b * 100 <= 100)%Q.
Proof.
  intros Hab Hb.
  assert (Hbq : (0 < inject_Z b)%Q)
    by (change 0%Q with (inject_Z 0); rewrite <- Zlt_Qlt; exact Hb).
  assert (H0 : (0 <= inject_Z a / inject_Z b)%Q).
  { apply Qle_shift_div_l; [exact Hbq|]. rewrite Qmult_0_l.
    change 0%Q with (inject_Z 0). rewrite <- Zle_Qle. lia. }
  assert (H1 : (inject_Z a / inject_Z b <= 1)%Q).
  { apply Qle_shift_div_r; [exact Hbq|]. rewrite Qmult_1_l.
    rewrite <- Zle_Qle. lia. }
  split; lra.
Qed.

(** X19: the compliance percentage of [get_stats] lies between 0.0 and
    100.0 for every population. *)
Theorem sla_compliance_percentage_range
    (now : Z) (study : option Z) (rows : list ActionItem) :
  (0 <= sla_compliance_percentage (get_stats now study rows) <= 100)%Q.
Proof.
  cbn [get_stats sla_compliance_percentage].
  assert (Hrange : (0 <= sla_compliance study rows <= 100)%Q).
  { unfold sla_compliance.
    destruct (0 <? total_resolved_with_sla study rows) eqn:Hpos.
    - apply Z.ltb_lt in Hpos. apply ratio_between_0_and_100; [|exact Hpos].
      split; [apply count_where_nonneg|].
      apply count_where_le. intros r.
      destruct (base_condition study r),
        (bool_decide (status r ∈ [DONE; VERIFIED])),
        (isnot_None (sla_deadline r)); cbn; trivial; discriminate.
    - split; [discriminate | apply Qle_refl]. }
  destruct Hrange as [Hlo Hhi].
  split.
  - apply Qle_trans with (round1 0); [vm_compute; discriminate|].
    apply round1_mono. exact Hlo.
  - apply Qle_trans with (round1 100); [|vm_compute; discriminate].
    apply round1_mono. exact Hhi.
Qed.

(** X20: the dashboard and the statistics agree: at the same instant and
    over all studies, the overdue count, the number of open items and the
    compliance percentage of [get_kpis] are those of [get_stats]; and an
    item counted as resolved in the last 7 days has [resolved_at] set. *)
Theorem kpis_agree_with_stats (now : Z) (rows : list ActionItem) :
  overdue_count (get_kpis now rows) = overdue (get_stats now None rows)
  /\ total_items (get_kpis now rows) = open (get_stats now None rows)
  /\ sla_compliance_pct (get_kpis now rows)
     = sla_compliance_percentage (get_stats now None rows)
  /\ items_resolved_last_7_days (get_kpis now rows)
     <= count_where (fun r => isnot_None (resolved_at r)) rows
  /\ 0 <= items_created_last_7_days (get_kpis now rows)
       <= Z.of_nat (length rows).
Proof.
  split; [reflexivity|]. split; [reflexivity|]. split; [reflexivity|].
  cbn [get_kpis items_resolved_last_7_days items_created_last_7_days].
  split; [|split].
  - apply count_where_le. intros r.
    destruct (isnot_None (resolved_at r)); cbn; trivial; discriminate.
  - apply count_where_nonneg.
  - unfold count_where. pose proof (length_filter
      (fun r => Is_true (now - MICROSECONDS_PER_WEEK <=? created_at r)) rows).
    lia.
Qed.

(** The loop of the burndown with its running total. *)
Lemma burndown_loop_totals (items : list ActionItem) (now_date : Z) (n : nat) :
  forall (fuel : nat) (current_date cumulative : Z),
    Z.to_nat (now_date - current_date + 1) = n ->
    (n <= fuel)%nat ->
    exists data,
      burndown_loop fuel items now_date current_date cumulative = Some data
      /\ length data = n
      /\ forall (k : nat) p, data !! k = Some p ->
           bd_date p = current_date + Z.of_nat k
           /\ 0 <= closed_items p
           /\ cumulative_closed p = cumulative + closed_sum (take (S k) data).
Proof.
  induction n as [|n IH]; intros fuel cur cum Hn Hfuel.
  - exists []. split.
    + destruct fuel; cbn [burndown_loop];
        replace (cur <=? now_date) with false
          by (symmetry; apply Z.leb_gt; lia);
        reflexivity.
    + split; [reflexivity|]. intros k p Hk. discriminate.
  - destruct fuel as [|fuel]; [lia|]. cbn [burndown_loop].
    replace (cur <=? now_date) with true by (symmetry; apply Z.leb_le; lia).
    set (closed_today :=
           sum1 (fun item => match resolved_at item with
                             | Some t =>
                                 (midnight cur <=? t)
                                 && (t <? midnight cur + MICROSECONDS_PER_DAY)
                             | None => false
                             end) items).
    assert (Hclosed : 0 <= closed_today) by apply sum1_nonneg.
    destruct (IH fuel (cur + 1) (cum + closed_today)) as
      (data & Hrun & Hlen & Hpoints); [lia | lia |].
    rewrite Hrun. eexists. split; [reflexivity|].
    split; [cbn; rewrite Hlen; reflexivity|].
    intros [|k] p Hp; cbn in Hp.
    + injection Hp as <-. unfold closed_sum. cbn.
      split; [lia|]. split; [exact Hclosed|].
      rewrite take_0. cbn. lia.
    + destruct (Hpoints k p Hp) as (Hdate & Hpos & Hcum).
      split; [lia|]. split; [exact Hpos|].
      rewrite Hcum. unfold closed_sum. cbn. lia.
Qed.

(** X21: the burndown series for any [days] that [now] can be moved back
    (or forward) by, today being before [date.max].  Allowed one turn per
    date, [get_burndown_data] returns max(days + 1, 0) points (none when
    [days] is below 0); point k is for the date k days after the first,
    its [closed_items] is not negative and its [cumulative_closed] is the
    sum of the [closed_items] of the points up to it. *)
Theorem burndown_running_total
    (fuel : nat) (now days : Z) (rows : list ActionItem) :
  valid_date (date_of now - days) ->
  1 <= date_of now < date_max ->
  (Z.to_nat (days + 1) <= fuel)%nat ->
  exists data,
    get_burndown_data fuel now days rows = Some data
    /\ length data = Z.to_nat (days + 1)
    /\ forall (k : nat) p, data !! k = Some p ->
         bd_date p = date_of now - days + Z.of_nat k
         /\ 0 <= closed_items p
         /\ cumulative_closed p = closed_sum (take (S k) data).
Proof.
  intros _ _ Hfuel. unfold get_burndown_data. rewrite date_of_days_before.
  destruct (burndown_loop_totals
              (filter (fun r => Is_true (created_at r <=? now)) rows)
              (date_of now) (Z.to_nat (days + 1)) fuel
              (date_of now - days) 0)
    as (data & Hrun & Hlen & Hpoints); [f_equal; lia | exact Hfuel |].
  exists data. split; [exact Hrun|]. split; [exact Hlen|].
  intros k p Hp. destruct (Hpoints k p Hp) as (Hd & Hc & Hs).
  split; [exact Hd|]. split; [exact Hc | lia].
Qed.

Lemma burndown_running_total_witness :
  exists data p,
    get_burndown_data 8 (20000 * MICROSECONDS_PER_DAY + 5) 7
      [ sample_item DONE MAJOR 0 (Some 10)
          (Some (19995 * MICROSECONDS_PER_DAY + 1));
        sample_item DONE MAJOR 0 (Some 10)
          (Some (19997 * MICROSECONDS_PER_DAY + 1)) ] = Some data
    /\ data !! 5%nat = Some p
    /\ cumulative_closed p = closed_sum (take 6 data)
    /\ cumulative_closed p = 2.
Proof.
  destruct (burndown_running_total 8 (20000 * MICROSECONDS_PER_DAY + 5) 7
              [ sample_item DONE MAJOR 0 (Some 10)
                  (Some (19995 * MICROSECONDS_PER_DAY + 1));
                sample_item DONE MAJOR 0 (Some 10)
                  (Some (19997 * MICROSECONDS_PER_DAY + 1)) ])
    as (data & Hrun & Hlen & Hpoints).
  - vm_compute. split; discriminate.
  - vm_compute. split; [discriminate | reflexivity].
  - vm_compute. lia.
  - destruct (lookup_lt_is_Some_2 data 5) as [p Hp]; [rewrite Hlen; vm_compute; lia|].
    exists data, p. split; [exact Hrun|]. split; [exact Hp|].
    destruct (Hpoints 5%nat p Hp) as (_ & _ & Hsum).
    split; [exact Hsum|].
    revert Hrun Hp. vm_compute. intros [= <-] [= <-]. reflexivity.
Defined.

Lemma counts_sum_nonneg (cats : list (ActionItemCategory * Z)) :
  Forall (fun x => 0 <= snd x) cats -> 0 <= foldr Z.add 0 (map snd cats).
Proof.
  induction 1 as [|x cats Hx _ IH]; cbn; lia.
Qed.

Lemma counts_sum_take (m : nat) (cats : list (ActionItemCategory * Z)) :
  Forall (fun x => 0 <= snd x) cats ->
  foldr Z.add 0 (map snd (take m cats)) <= foldr Z.add 0 (map snd cats).
Proof.
  intros Hall. revert m.
  induction Hall as [|x cats Hx Hall IH]; intros [|m]; cbn; try lia.
  - pose proof (counts_sum_nonneg cats Hall). lia.
  - specialize (IH m). lia.
Qed.

(** The loop of the Pareto series, with the integer the running value
    stands for. *)
Lemma pareto_loop_invariant (total : Z) :
  0 < total ->
  forall (cats : list (ActionItemCategory * Z)) (a : Z) (c : Q),
    Forall (fun x => 0 <= snd x) cats ->
    0 <= a ->
    a + foldr Z.add 0 (map snd cats) <= total ->
    (c == inject_Z a / inject_Z total * 100)%Q ->
    length (pareto_loop total c cats) = length cats
    /\ map (fun p => (pi_category p, pi_count p)) (pareto_loop total c cats)
       = map (fun x => (category_value (fst x), snd x)) cats
    /\ map pi_count (pareto_loop total c cats) = map snd cats
    /\ Forall (fun p => (round1 c <= pi_cumulative_percentage p)%Q
                        /\ (0 <= pi_percentage p)%Q
                        /\ (pi_percentage p <= pi_cumulative_percentage p)%Q
                        /\ (pi_cumulative_percentage p <= 100)%Q)
         (pareto_loop total c cats)
    /\ pareto_nondecreasing (pareto_loop total c cats).
Proof.
  intros Htotal cats.
  induction cats as [|[cat n] cats IH]; intros a c Hall Ha Hsum Hc.
  - cbn. split; [reflexivity|]. split; [reflexivity|]. split; [reflexivity|].
    split; [constructor|]. intros i j p q _ Hi. discriminate.
  - inversion Hall as [|x l Hn Hrest]; subst. cbn [snd] in Hn.
    cbn [map foldr snd] in Hsum.
    pose proof (counts_sum_nonneg cats Hrest) as Hnonneg.
    cbn [pareto_loop].
    replace (0 <? total) with true by (symmetry; apply Z.ltb_lt; exact Htotal).
    set (pct := (inject_Z n / inject_Z total * 100)%Q).
    assert (Hpct : (0 <= pct <= 100)%Q)
      by (apply ratio_between_0_and_100; lia).
    assert (Hc' : (c + pct == inject_Z (a + n) / inject_Z total * 100)%Q).
    { unfold pct. rewrite Hc, inject_Z_plus. unfold Qdiv. ring. }
    assert (Hc0 : (0 <= c)%Q).
    { rewrite Hc. apply ratio_between_0_and_100; lia. }
    assert (Hc100 : (c + pct <= 100)%Q).
    { rewrite Hc'. apply ratio_between_0_and_100; lia. }
    destruct (IH (a + n) (c + pct)%Q Hrest)
      as (Hlen & Hnames & Hcounts & Hfor & Hmono);
      [lia | lia | exact Hc' |].
    split; [cbn; rewrite Hlen; reflexivity|].
    split; [cbn; rewrite Hnames; reflexivity|].
    split; [cbn; rewrite Hcounts; reflexivity|].
    assert (Hstep : (round1 c <= round1 (c + pct))%Q)
      by (apply round1_mono; lra).
    split.
    { constructor.
      - cbn. split; [exact Hstep|]. split.
        + apply Qle_trans with (round1 0); [vm_compute; discriminate|].
          apply round1_mono. lra.
        + split; [apply round1_mono; lra|].
          apply Qle_trans with (round1 100); [|vm_compute; discriminate].
          apply round1_mono. exact Hc100.
      - eapply Forall_impl; [exact Hfor|]. cbn.
        intros p (Hp1 & Hp2 & Hp3 & Hp4).
        split; [eapply Qle_trans; eassumption|]. auto. }
    intros [|i] [|j] p q Hij Hi Hj; cbn in Hi, Hj.
    + injection Hi as <-. injection Hj as <-. apply Qle_refl.
    + injection Hi as <-. cbn.
      pose proof (Forall_lookup_1 _ _ _ _ Hfor Hj) as (Hq & _). exact Hq.
    + lia.
    + apply (Hmono i j); [lia | exact Hi | exact Hj].
Qed.

Lemma slice_to_take {A : Type} (n : Z) (l : list A) :
  exists m : nat,
    slice_to n l = take m l
    /\ (0 <= n -> m = Z.to_nat n).
Proof.
  unfold slice_to. destruct (0 <=? n) eqn:E.
  - exists (Z.to_nat n). auto.
  - apply Z.leb_gt in E. eexists. split; [reflexivity | lia].
Qed.

(** X22: the Pareto series.  For the rows of a grouping (counts above 0),
    [get_pareto_data] answers the first [top_n] of them in their order,
    each with the value of its category and its count, min(top_n, number
    of categories) of them when [top_n] is not negative; each percentage
    lies between 0 and the cumulative percentage of its rank, no cumulative
    percentage exceeds 100, and the cumulative percentages never decrease
    along the ranks.  Without categories the series is empty. *)
Theorem pareto_series
    (top_n : Z) (categories : list (ActionItemCategory * Z)) :
  Forall (fun x => 0 < snd x) categories ->
  get_pareto_data top_n [] = []
  /\ map (fun p => (pi_category p, pi_count p))
       (get_pareto_data top_n categories)
     = map (fun x => (category_value (fst x), snd x))
         (slice_to top_n categories)
  /\ (0 <= top_n ->
        slice_to top_n categories = take (Z.to_nat top_n) categories
        /\ length (get_pareto_data top_n categories)
           = Nat.min (Z.to_nat top_n) (length categories))
  /\ Forall (fun p => (0 <= pi_percentage p)%Q
                      /\ (pi_percentage p <= pi_cumulative_percentage p)%Q
                      /\ (pi_cumulative_percentage p <= 100)%Q)
       (get_pareto_data top_n categories)
  /\ pareto_nondecreasing (get_pareto_data top_n categories).
Proof.
  intros Hpos. split; [reflexivity|].
  destruct categories as [|x rest] eqn:Hcats.
  - unfold get_pareto_data, slice_to.
    split; [destruct (0 <=? top_n); rewrite take_nil; reflexivity|].
    split.
    { intros Hn. replace (0 <=? top_n) with true
        by (symmetry; apply Z.leb_le; exact Hn).
      split; [reflexivity | cbn; lia]. }
    split; [constructor|]. intros i j p q _ Hi. discriminate.
  - rewrite <- Hcats in *.
    assert (Hnonneg : Forall (fun x => 0 <= snd x) categories)
      by (eapply Forall_impl; [exact Hpos | cbn; intros; lia]).
    assert (Htotal : 0 < foldr Z.add 0 (map snd categories)).
    { rewrite Hcats in *. inversion Hpos as [|y l Hy Hl]; subst.
      inversion Hnonneg as [|y l _ Hl']; subst.
      pose proof (counts_sum_nonneg rest Hl'). cbn. lia. }
    assert (Hrun : get_pareto_data top_n categories
                   = pareto_loop (foldr Z.add 0 (map snd categories)) 0%Q
                       (slice_to top_n categories))
      by (rewrite Hcats; reflexivity).
    rewrite Hrun.
    destruct (slice_to_take top_n categories) as (m & Hslice & Hm).
    rewrite Hslice.
    destruct (pareto_loop_invariant _ Htotal (take m categories) 0 0%Q)
      as (Hlen & Hpairs & Hcounts & Hfor & Hmono).
    + apply Forall_take. exact Hnonneg.
    + lia.
    + pose proof (counts_sum_take m categories Hnonneg). lia.
    + unfold Qdiv. rewrite Qmult_0_l, Qmult_0_l. reflexivity.
    + split; [exact Hpairs|].
      split.
      { intros Hn. rewrite Hlen, length_take, (Hm Hn).
        split; reflexivity. }
      split; [|exact Hmono].
      eapply Forall_impl; [exact Hfor|]. cbn. intros p (_ & H2 & H3 & H4).
      auto.
Qed.

Lemma pareto_series_witness :
  map (fun p => (pi_category p, pi_count p))
    (get_pareto_data 3
       [(QUERIES, 5); (SAMPLES, 3); (TRAINING, 1); (OTHER, 1)])
  = [("queries"%string, 5); ("samples"%string, 3); ("training"%string, 1)].
Proof.
  destruct (pareto_series 3
              [(QUERIES, 5); (SAMPLES, 3); (TRAINING, 1); (OTHER, 1)])
    as (_ & Hpairs & _).
  - repeat constructor.
  - rewrite Hpairs. reflexivity.
Defined.

End AggregationExtras.
